(** * minecode launcher layer: adapters and manager

    A shallow embedding of [minecode/launchers] (base.py, vanilla_launcher.py,
    multimc.py, curseforge.py, manager.py) together with the properties its
    specification states about it.

    - Python values that the code handles are given as inductive types
      (exceptions, JSON values, instance records, [LauncherInfo]).
    - The outside world a method can observe or change (the file tree, the
      standard output, the platform name, the home directory, the [java]
      executable on the search path) is a record [world]; every method is a
      computation in the monad [M], which threads the world and may raise.
    - A launcher object is the record of its methods ([BaseLauncher.t]); the
      manager's [detected_launchers] dictionary, which the manager iterates,
      keeps its items in insertion order ([Dict.t]). *)

From stdpp Require Import base option list strings gmap.
From Stdlib Require Import ZArith Ascii String.

Set Warnings "-register-all".
Open Scope Z_scope.

(** ** Python strings *)

Module Str.

(** [str.isspace] on the code points below 256. *)
Definition isspace (c : ascii) : bool :=
  let n := nat_of_ascii c in
  ((9 <=? n) && (n <=? 13) || (28 <=? n) && (n <=? 32)
   || (n =? 133) || (n =? 160))%nat.

Fixpoint lstrip (s : string) : string :=
  match s with
  | String c s' => if isspace c then lstrip s' else s
  | EmptyString => EmptyString
  end.

Definition rstrip (s : string) : string := String.rev (lstrip (String.rev s)).

(** [s.strip()] *)
Definition strip (s : string) : string := rstrip (lstrip s).

(** [s.startswith(p)] *)
Definition startswith (s p : string) : bool := String.prefix p s.

(** [s.endswith(p)] *)
Definition endswith (s p : string) : bool :=
  String.prefix (String.rev p) (String.rev s).

(** [c in s] for a one-character [c] *)
Fixpoint contains (c : ascii) (s : string) : bool :=
  match s with
  | String d s' => if Ascii.eqb c d then true else contains c s'
  | EmptyString => false
  end.

(** [s.split(c, 1)] when [c in s]: the text before the first [c] and the
    text after it. *)
Fixpoint split1 (c : ascii) (s : string) : string * string :=
  match s with
  | String d s' =>
      if Ascii.eqb c d then (EmptyString, s')
      else let '(k, v) := split1 c s' in (String d k, v)
  | EmptyString => (EmptyString, EmptyString)
  end.

(** [s.split(c)]: the fields between the occurrences of [c]. *)
Fixpoint split (c : ascii) (s : string) : list string :=
  match s with
  | String d s' =>
      match split c s' with
      | f :: fs => if Ascii.eqb c d then EmptyString :: f :: fs
                   else String d f :: fs
      | [] => []
      end
  | EmptyString => [EmptyString]
  end.

(** [sep.join(l)] *)
Fixpoint join (sep : string) (l : list string) : string :=
  match l with
  | [] => EmptyString
  | [x] => x
  | x :: l' => x +:+ sep +:+ join sep l'
  end.

(** The length of the UTF-8 encoding of a string of code points below 256:
    the code points from 128 on take two bytes. *)
Fixpoint utf8_length (s : string) : nat :=
  match s with
  | String c s' =>
      ((if nat_of_ascii c <? 128 then 1 else 2) + utf8_length s')%nat
  | EmptyString => O
  end.

(** The lines a text-mode file object yields (universal newlines: a line
    ends at LF, CR LF or a lone CR).  The line terminators are left out:
    every caller strips the line. *)
Fixpoint lines (s : string) : list string :=
  match s with
  | EmptyString => []
  | String c s' =>
      let rest := lines s' in
      if Ascii.eqb c "010" then EmptyString :: rest
      else if Ascii.eqb c "013" then
        match s' with
        | String "010" _ => rest
        | _ => EmptyString :: rest
        end
      else match rest with
           | l :: ls => String c l :: ls
           | [] => [String c EmptyString]
           end
  end.

End Str.

(** ** Exceptions and results *)

(** The exception classes the code raises or names in an [except] clause.
    [IOError] is Python's alias of [OSError]; [UnicodeDecodeError] and
    [JSONDecodeError] are two unrelated subclasses of [ValueError];
    [UserError] stands for any other subclass of [Exception], such as one
    raised by a custom launcher. *)
Inductive exn_class :=
  | OSError | JSONDecodeError | AttributeError | TypeError | RuntimeError
  | UnicodeDecodeError
  | UserError (name : string).

Global Instance exn_class_eq_dec : EqDecision exn_class.
Proof. solve_decision. Defined.

Abbreviation IOError := OSError.

(** An exception object: its class and [str(e)]. *)
Record exn := Exn { exn_cls : exn_class; exn_str : string }.

Inductive result (A : Type) :=
  | Ok (a : A)
  | Raise (e : exn).
Arguments Ok {A} a.
Arguments Raise {A} e.

(** What an [except] clause names. *)
Definition except_clause := exn_class → bool.
Definition classes (cs : list exn_class) : except_clause :=
  λ c, bool_decide (c ∈ cs).
Definition Exception : except_clause := λ _, true.

(** ** Paths *)

(** A path is the list of its components below the root: the model is POSIX,
    every path is absolute (a path string that is relative is read from the
    root, where the working directory is), and there are neither symbolic
    links nor [..] links.  A component is looked up by its name, so that the
    look-up is that of the file system on the paths whose components are
    names in the sense of [PurePath.is_name] below: there [stat] neither
    follows a [..] nor fails with [ENAMETOOLONG], the one error of a
    fault-free file system that [exists] and [is_dir] would raise instead of
    answering false.  The statements about names and install paths that a
    caller chooses are kept to such paths ([PurePath.roomy]), and those
    about the string of a path to absolute ones ([PurePath.is_absolute]). *)
Definition path := list string.

Module PurePath.

(** The components of a path string: empty fields and [.] are dropped. *)
Definition parts (s : string) : list string :=
  List.filter (λ c, negb (String.eqb c EmptyString || String.eqb c ".")) (Str.split "/" s).

(** [Path(s)] *)
Definition of_str (s : string) : path := parts s.

(** [p / s]: an absolute [s] replaces [p]. *)
Definition joinpath (p : path) (s : string) : path :=
  if Str.startswith s "/" then parts s else p ++ parts s.

(** [str(p)] *)
Definition to_str (p : path) : string := "/" +:+ Str.join "/" p.

(** [p.name] *)
Definition name (p : path) : string := List.last p EmptyString.

(** The limits of the file system on the bytes of a name and of a path. *)
Definition NAME_MAX : nat := 255.
Definition PATH_MAX : nat := 4096.

(** A name that a directory can have an entry for: it is not empty, has no
    [/], is neither [.] nor [..] and has at most [NAME_MAX] bytes. *)
Definition is_name (s : string) : bool :=
  negb (String.eqb s EmptyString) && negb (Str.contains "/" s)
  && negb (String.eqb s ".") && negb (String.eqb s "..")
  && (Str.utf8_length s <=? NAME_MAX)%nat.

(** A path made of such names that leaves room below [PATH_MAX] for the
    names the adapters put after an install path (an instance and a log,
    each of at most [NAME_MAX] bytes, and the fixed names between them).
    On the paths below such a path [stat] neither meets [..] nor fails with
    [ENAMETOOLONG]. *)
Definition roomy (p : path) : bool :=
  forallb is_name p && (Str.utf8_length (to_str p) + 1024 <? PATH_MAX)%nat.


End PurePath.

Infix "/>" := PurePath.joinpath (at level 40, left associativity).

(** ** The file tree *)

(** A regular file has a modification time and a content; a directory has a
    modification time and its entries in iteration order.  The adapters read
    a file as UTF-8 text only: [File] is a regular file whose bytes are valid
    UTF-8, with the text they decode to; [Blob] is a regular file whose bytes
    are not, with the text that decoding gives when the invalid bytes are
    left out ([errors='ignore']) and the message of the [UnicodeDecodeError]
    that decoding raises otherwise. *)
Inductive node :=
  | File (mtime : Z) (content : string)
  | Dir (mtime : Z) (entries : list (string * node))
  | Blob (mtime : Z) (lossy : string) (reason : string).

Definition node_mtime (n : node) : Z :=
  match n with File t _ => t | Dir t _ => t | Blob t _ _ => t end.

Definition is_file_node (n : node) : bool :=
  match n with File _ _ | Blob _ _ _ => true | Dir _ _ => false end.

Module Tree.

(** The first entry named [c]. *)
Fixpoint child (es : list (string * node)) (c : string) : option node :=
  match es with
  | [] => None
  | (k, n) :: es' => if String.eqb k c then Some n else child es' c
  end.

Fixpoint find (p : path) (t : node) : option node :=
  match p with
  | [] => Some t
  | c :: p' =>
      match t with
      | Dir _ es => match child es c with
                    | Some n => find p' n
                    | None => None
                    end
      | _ => None
      end
  end.

(** Drop the first entry named [c]. *)
Fixpoint drop (c : string) (es : list (string * node)) : list (string * node) :=
  match es with
  | [] => []
  | (k, n) :: es' => if String.eqb k c then es' else (k, n) :: drop c es'
  end.

(** Apply [f] to the first entry named [c]. *)
Fixpoint update (c : string) (f : node → node) (es : list (string * node))
  : list (string * node) :=
  match es with
  | [] => []
  | (k, n) :: es' =>
      if String.eqb k c then (k, f n) :: es' else (k, n) :: update c f es'
  end.

(** The tree without the entry at [p]. *)
Fixpoint remove (p : path) (t : node) : node :=
  match p with
  | [] => t
  | [c] => match t with
           | Dir m es => Dir m (drop c es)
           | _ => t
           end
  | c :: p' => match t with
               | Dir m es => Dir m (update c (remove p') es)
               | _ => t
               end
  end.

End Tree.

(** ** The world and the monad of methods *)

Record world := World {
  fs : node;                      (* the file tree *)
  stdout : list string;           (* the lines printed so far *)
  platform_system : string;       (* platform.system() *)
  home : option path;             (* Path.home(), when it can be determined *)
  which_java : option string      (* shutil.which("java") *)
}.

Definition set_fs (t : node) (w : world) : world :=
  World t (stdout w) (platform_system w) (home w) (which_java w).

Definition M (A : Type) : Type := world → result A * world.

Global Instance M_ret : MRet M := λ A a w, (Ok a, w).
Global Instance M_bind : MBind M := λ A B f m w,
  match m w with
  | (Ok a, w') => f a w'
  | (Raise e, w') => (Raise e, w')
  end.

Definition raise {A} (c : exn_class) (msg : string) : M A :=
  λ w, (Raise (Exn c msg), w).

(** [try: body / except clause as e: handler e] *)
Definition try_except {A} (body : M A) (clause : except_clause)
    (handler : exn → M A) : M A :=
  λ w, match body w with
       | (Ok a, w') => (Ok a, w')
       | (Raise e, w') =>
           if clause (exn_cls e) then handler e w' else (Raise e, w')
       end.

Definition print (s : string) : M unit :=
  λ w, (Ok (), World (fs w) (stdout w ++ [s]) (platform_system w) (home w)
                 (which_java w)).

Definition modify_fs (f : node → node) : M unit :=
  λ w, (Ok (), set_fs (f (fs w)) w).

(** [for x in xs: acc = body acc x], the loop state being [acc]. *)
Fixpoint for_each {A S} (xs : list A) (acc : S) (body : S → A → M S) : M S :=
  match xs with
  | [] => mret acc
  | x :: xs' => acc' ← body acc x; for_each xs' acc' body
  end.

(** ** pathlib on the file tree *)

Module Path.

Definition node_at (p : path) : M (option node) :=
  λ w, (Ok (Tree.find p (fs w)), w).

Definition errno (code what : string) (p : path) : string :=
  "[Errno " +:+ code +:+ "] " +:+ what +:+ ": '" +:+ PurePath.to_str p +:+ "'".

Definition FileNotFoundError {A} (p : path) : M A :=
  raise OSError (errno "2" "No such file or directory" p).
Definition NotADirectoryError {A} (p : path) : M A :=
  raise OSError (errno "20" "Not a directory" p).
Definition IsADirectoryError {A} (p : path) : M A :=
  raise OSError (errno "21" "Is a directory" p).

(** [p.exists()], for a path that is looked up by name *)
Definition exists_ (p : path) : M bool :=
  n ← node_at p; mret (bool_decide (is_Some n)).

(** [p.is_dir()], for a path that is looked up by name *)
Definition is_dir (p : path) : M bool :=
  n ← node_at p;
  mret (match n with Some (Dir _ _) => true | _ => false end).

(** [p.iterdir()] *)
Definition iterdir (p : path) : M (list path) :=
  n ← node_at p;
  match n with
  | Some (Dir _ es) => mret ((λ e, p ++ [e.1]) <$> es)
  | Some _ => NotADirectoryError p
  | None => FileNotFoundError p
  end.

(** [fnmatch] for patterns made of literal characters, [*] and [?]. *)
Fixpoint fnmatch (pat : string) (s : string) {struct pat} : bool :=
  match pat with
  | EmptyString => match s with EmptyString => true | _ => false end
  | String c pat' =>
      if Ascii.eqb c "*" then
        (fix star (s : string) : bool :=
           fnmatch pat' s
           || match s with String _ s' => star s' | EmptyString => false end) s
      else match s with
           | String d s' =>
               (Ascii.eqb c "?" || Ascii.eqb c d) && fnmatch pat' s'
           | EmptyString => false
           end
  end.

(** [p.glob(pat)] for a one-component pattern: the entries of the directory
    [p] whose name matches, in iteration order; nothing when [p] is not a
    directory.  The entries are listed before the first one is handed out. *)
Definition glob (p : path) (pat : string) : M (list path) :=
  n ← node_at p;
  match n with
  | Some (Dir _ es) =>
      mret ((λ e, p ++ [e.1]) <$> List.filter (λ e, fnmatch pat e.1) es)
  | _ => mret []
  end.

(** [p.stat().st_mtime] *)
Definition stat_mtime (p : path) : M Z :=
  n ← node_at p;
  match n with
  | Some n => mret (node_mtime n)
  | None => FileNotFoundError p
  end.

(** [open(p, 'r', encoding='utf-8').read()], also
    [p.read_text(encoding='utf-8')] *)
Definition read_text (p : path) : M string :=
  n ← node_at p;
  match n with
  | Some (File _ s) => mret s
  | Some (Blob _ _ reason) => raise UnicodeDecodeError reason
  | Some (Dir _ _) => IsADirectoryError p
  | None => FileNotFoundError p
  end.

(** [open(p, 'r', encoding='utf-8', errors='ignore').read()] *)
Definition read_text_ignore (p : path) : M string :=
  n ← node_at p;
  match n with
  | Some (File _ s) => mret s
  | Some (Blob _ s _) => mret s
  | Some (Dir _ _) => IsADirectoryError p
  | None => FileNotFoundError p
  end.

(** [p.unlink()] *)
Definition unlink (p : path) : M unit :=
  n ← node_at p;
  match n with
  | Some (Dir _ _) => IsADirectoryError p
  | Some _ => modify_fs (Tree.remove p)
  | None => FileNotFoundError p
  end.

(** [Path.home()] *)
Definition home : M path :=
  λ w, match home w with
       | Some h => (Ok h, w)
       | None => (Raise (Exn RuntimeError "Could not determine home directory."), w)
       end.

End Path.

Definition platform_system_ : M string := λ w, (Ok (platform_system w), w).

(** ** Values loaded from JSON *)

(** A float is kept as the decimal [m * 10^e] it was written as. *)
Inductive json :=
  | JNull
  | JBool (b : bool)
  | JInt (n : Z)
  | JFloat (m e : Z)
  | JStr (s : string)
  | JArr (l : list json)
  | JObj (items : list (string * json)).

Module Py.

(** The first binding of [k]; the keys of a loaded object are distinct. *)
Fixpoint lookup (items : list (string * json)) (k : string) : option json :=
  match items with
  | [] => None
  | (k', v) :: items' => if String.eqb k' k then Some v else lookup items' k
  end.

Definition type_name (v : json) : string :=
  match v with
  | JNull => "NoneType" | JBool _ => "bool" | JInt _ => "int"
  | JFloat _ _ => "float" | JStr _ => "str" | JArr _ => "list"
  | JObj _ => "dict"
  end.

Definition no_attribute {A} (v : json) (attr : string) : M A :=
  raise AttributeError
    ("'" +:+ type_name v +:+ "' object has no attribute '" +:+ attr +:+ "'").

(** [v.get(k, default)], with [None] read as [JNull] *)
Definition get (v : json) (k : string) (dflt : json) : M json :=
  match v with
  | JObj items => mret (default dflt (lookup items k))
  | _ => no_attribute v "get"
  end.

(** [v.items()] *)
Definition items (v : json) : M (list (string * json)) :=
  match v with
  | JObj items => mret items
  | _ => no_attribute v "items"
  end.

(** Truth value of [v] in a condition *)
Definition truthy (v : json) : bool :=
  match v with
  | JNull => false
  | JBool b => b
  | JInt n => negb (n =? 0)
  | JFloat m _ => negb (m =? 0)
  | JStr s => negb (String.eqb s EmptyString)
  | JArr l => match l with [] => false | _ => true end
  | JObj items => match items with [] => false | _ => true end
  end.

(** [Path(v)] for a loaded value *)
Definition to_Path (v : json) : M path :=
  match v with
  | JStr s => mret (PurePath.of_str s)
  | _ => raise TypeError
           ("expected str, bytes or os.PathLike object, not " +:+ type_name v)
  end.

(** [p / v] for a loaded value *)
Definition joinpath (p : path) (v : json) : M path :=
  match v with
  | JStr s => mret (p /> s)
  | _ => raise TypeError
           ("unsupported operand type(s) for /: 'PosixPath' and '"
            +:+ type_name v +:+ "'")
  end.

End Py.

(** ** base.py *)

(** The dictionary [get_instances] builds for one instance. *)
Record instance := Instance {
  inst_name : string;
  inst_version : json;
  inst_path : string;
  inst_type : string;
  inst_launcher : string
}.

Record LauncherInfo := {
  name : string;
  version : json;                     (* [JNull] for [None] *)
  path_ : path;
  java_executable : option path;
  launcher_type : string
}.

(** A launcher object: its attribute and its bound methods. *)
Module BaseLauncher.
Record t := {
  launcher_path : path;
  detect : M bool;
  get_instances : M (list instance);
  get_logs : string → M (option string);
  clear_logs : string → M bool;
  get_launcher_info : M LauncherInfo;
  get_instance_logs_directory : string → M (option path)
}.
End BaseLauncher.

(** [_find_java_executable], the same static method in every adapter *)
Definition _find_java_executable : M (option path) :=
  λ w, (Ok (match which_java w with
            | Some java_path =>
                if String.eqb java_path EmptyString then None
                else Some (PurePath.of_str java_path)
            | None => None
            end), w).

(** ** multimc.py *)

(** [for candidate in candidates: if candidate.exists(): return candidate] *)
Fixpoint first_existing (candidates : list path) : M (option path) :=
  match candidates with
  | [] => mret None
  | candidate :: rest =>
      e ← Path.exists_ candidate;
      if (e : bool) then mret (Some candidate) else first_existing rest
  end.

(** The methods take [self.launcher_path], the only attribute of a launcher
    object, as their first argument.  In the Windows candidates a drive is a
    top-level directory of the tree. *)

Module MultiMCLauncher.

Definition LAUNCHER_NAME : string := "MultiMC".

Definition _get_default_path : M path :=
  system ← platform_system_;
  if String.eqb system "Windows" then
    h ← Path.home;
    let candidates := [ h /> "AppData" /> "Local" /> "MultiMC";
                        PurePath.of_str "C:/MultiMC";
                        PurePath.of_str "C:/Program Files" /> "MultiMC" ] in
    found ← first_existing candidates;
    match found with
    | Some candidate => mret candidate
    | None => h ← Path.home; mret (h /> "AppData" /> "Local" /> "MultiMC")
    end
  else if String.eqb system "Darwin" then
    h ← Path.home;
    mret (h /> "Applications" /> "MultiMC.app" /> "Contents" /> "MacOS")
  else
    h ← Path.home;
    mret (h /> ".local" /> "share" /> "multimc").

Definition detect (launcher_path : path) : M bool :=
  Path.exists_ (launcher_path /> "instances").

Definition get_launcher_info (launcher_path : path) : M LauncherInfo :=
  let version_file := launcher_path /> "version.txt" in
  e ← Path.exists_ version_file;
  version ← (if (e : bool) then
               try_except
                 (s ← Path.read_text version_file; mret (JStr (Str.strip s)))
                 (classes [IOError])
                 (λ _, mret JNull)
             else mret JNull);
  java ← _find_java_executable;
  mret {| name := LAUNCHER_NAME;
          version := version;
          path_ := launcher_path;
          java_executable := java;
          launcher_type := "multimc" |}.

(** The body of [for line in f] in [get_instances]. *)
Definition read_line (config : gmap string string) (line : string)
  : gmap string string :=
  let line := Str.strip line in
  if Str.contains "=" line && negb (Str.startswith line "[") then
    let '(key, value) := Str.split1 "=" line in
    <[Str.strip key := Str.strip value]> config
  else config.

Definition read_config (text : string) : gmap string string :=
  foldl read_line ∅ (Str.lines text).

Definition get_instances (launcher_path : path) : M (list instance) :=
  let instances_dir := launcher_path /> "instances" in
  e ← Path.exists_ instances_dir;
  if negb e then mret [] else
  entries ← Path.iterdir instances_dir;
  for_each entries [] (λ instances instance_path,
    d ← Path.is_dir instance_path;
    if negb d then mret instances else
    let instance_cfg := instance_path /> "instance.cfg" in
    c ← Path.exists_ instance_cfg;
    if negb c then mret instances else
    try_except
      (text ← Path.read_text instance_cfg;
       let config := read_config text in
       mret (instances ++
             [ {| inst_name := PurePath.name instance_path;
                  inst_version :=
                    JStr (default "Unknown" (config !! "InstanceType"));
                  inst_path := PurePath.to_str instance_path;
                  inst_type := "instance";
                  inst_launcher := "multimc" |} ]))
      (classes [IOError])
      (λ _, mret instances)).

Definition get_instance_logs_directory (launcher_path : path)
    (instance_name : string) : M (option path) :=
  let instance_path := launcher_path /> "instances" /> instance_name in
  e ← Path.exists_ instance_path;
  if negb e then mret None else
  let logs_dir := instance_path /> ".minecraft" /> "logs" in
  l ← Path.exists_ logs_dir;
  mret (if (l : bool) then Some logs_dir else None).

Definition get_logs (launcher_path : path) (instance_name : string)
  : M (option string) :=
  logs_dir ← get_instance_logs_directory launcher_path instance_name;
  match logs_dir with
  | None => mret None
  | Some logs_dir =>
      e ← Path.exists_ logs_dir;
      if negb e then mret None else
      let latest_log := logs_dir /> "latest.log" in
      l ← Path.exists_ latest_log;
      if (l : bool) then
        try_except
          (s ← Path.read_text_ignore latest_log; mret (Some s))
          (classes [IOError])
          (λ e, mret (Some ("Error reading log: " +:+ exn_str e)))
      else mret None
  end.

Definition clear_logs (launcher_path : path) (instance_name : string)
  : M bool :=
  logs_dir ← get_instance_logs_directory launcher_path instance_name;
  match logs_dir with
  | None => mret false
  | Some logs_dir =>
      e ← Path.exists_ logs_dir;
      if negb e then mret false else
      try_except
        (log_files ← Path.glob logs_dir "*.log";
         _ ← for_each log_files () (λ _ log_file, Path.unlink log_file);
         mret true)
        (classes [IOError; OSError])
        (λ e, _ ← print ("Error clearing logs: " +:+ exn_str e); mret false)
  end.

(** [MultiMCLauncher(launcher_path)] *)
Definition new (launcher_path : option path) : M BaseLauncher.t :=
  launcher_path ← match launcher_path with
                  | None => _get_default_path
                  | Some p => mret p
                  end;
  mret {| BaseLauncher.launcher_path := launcher_path;
          BaseLauncher.detect := detect launcher_path;
          BaseLauncher.get_instances := get_instances launcher_path;
          BaseLauncher.get_logs := get_logs launcher_path;
          BaseLauncher.clear_logs := clear_logs launcher_path;
          BaseLauncher.get_launcher_info := get_launcher_info launcher_path;
          BaseLauncher.get_instance_logs_directory :=
            get_instance_logs_directory launcher_path |}.

End MultiMCLauncher.

(** [PrismLauncherHandler] is a subclass of [MultiMCLauncher]: it overrides
    [LAUNCHER_NAME], [_get_default_path], [detect] and [get_launcher_info] and
    inherits the other methods. *)
Module PrismLauncherHandler.

Definition LAUNCHER_NAME : string := "Prism Launcher".

Definition _get_default_path : M path :=
  system ← platform_system_;
  if String.eqb system "Windows" then
    h ← Path.home;
    let candidates := [ h /> "AppData" /> "Local" /> "Prism Launcher";
                        PurePath.of_str "C:/Prism Launcher";
                        PurePath.of_str "C:/Program Files" /> "Prism Launcher" ] in
    found ← first_existing candidates;
    match found with
    | Some candidate => mret candidate
    | None => h ← Path.home; mret (h /> "AppData" /> "Local" /> "Prism Launcher")
    end
  else if String.eqb system "Darwin" then
    h ← Path.home;
    mret (h /> "Applications" /> "Prism Launcher.app" /> "Contents" /> "MacOS")
  else
    h ← Path.home;
    mret (h /> ".local" /> "share" /> "PrismLauncher").

Definition detect (launcher_path : path) : M bool :=
  Path.exists_ (launcher_path /> "instances").

Definition get_launcher_info (launcher_path : path) : M LauncherInfo :=
  let version_file := launcher_path /> "prismlauncher_version.txt" in
  e ← Path.exists_ version_file;
  version ← (if (e : bool) then
               try_except
                 (s ← Path.read_text version_file; mret (JStr (Str.strip s)))
                 (classes [IOError])
                 (λ _, mret JNull)
             else mret JNull);
  java ← _find_java_executable;
  mret {| name := LAUNCHER_NAME;
          version := version;
          path_ := launcher_path;
          java_executable := java;
          launcher_type := "prism" |}.

(* inherited *)
Definition get_instances := MultiMCLauncher.get_instances.
Definition get_instance_logs_directory :=
  MultiMCLauncher.get_instance_logs_directory.
Definition get_logs := MultiMCLauncher.get_logs.
Definition clear_logs := MultiMCLauncher.clear_logs.

(** [PrismLauncherHandler(launcher_path)] *)
Definition new (launcher_path : option path) : M BaseLauncher.t :=
  launcher_path ← match launcher_path with
                  | None => _get_default_path
                  | Some p => mret p
                  end;
  mret {| BaseLauncher.launcher_path := launcher_path;
          BaseLauncher.detect := detect launcher_path;
          BaseLauncher.get_instances := get_instances launcher_path;
          BaseLauncher.get_logs := get_logs launcher_path;
          BaseLauncher.clear_logs := clear_logs launcher_path;
          BaseLauncher.get_launcher_info := get_launcher_info launcher_path;
          BaseLauncher.get_instance_logs_directory :=
            get_instance_logs_directory launcher_path |}.

End PrismLauncherHandler.

(** ** vanilla_launcher.py *)

Module VanillaLauncher.
Section WithJson.

(** [json.loads] of the Python standard library: the value a text parses
    to, or [None] where it raises [JSONDecodeError]. *)
Variable json_loads : string → option json.

(** [with open(p, 'r', encoding='utf-8') as f: data = json.load(f)] *)
Definition json_load (p : path) : M json :=
  text ← Path.read_text p;
  match json_loads text with
  | Some data => mret data
  | None => raise JSONDecodeError "Expecting value"
  end.

Definition LAUNCHER_NAME : string := "Minecraft Launcher".

Definition _get_default_path : M path :=
  system ← platform_system_;
  if String.eqb system "Windows" then
    h ← Path.home; mret (h /> "AppData" /> "Roaming" /> ".minecraft")
  else if String.eqb system "Darwin" then
    h ← Path.home;
    mret (h /> "Library" /> "Application Support" /> "minecraft")
  else
    h ← Path.home; mret (h /> ".minecraft").

Definition detect (launcher_path : path) : M bool :=
  Path.exists_ (launcher_path /> "launcher_profiles.json").

Definition get_launcher_info (launcher_path : path) : M LauncherInfo :=
  let profiles_file := launcher_path /> "launcher_profiles.json" in
  e ← Path.exists_ profiles_file;
  version ← (if (e : bool) then
               try_except
                 (data ← json_load profiles_file;
                  launcherVersion ← Py.get data "launcherVersion" (JObj []);
                  Py.get launcherVersion "name" JNull)
                 (classes [JSONDecodeError; IOError])
                 (λ _, mret JNull)
             else mret JNull);
  java ← _find_java_executable;
  mret {| name := LAUNCHER_NAME;
          version := version;
          path_ := launcher_path;
          java_executable := java;
          launcher_type := "vanilla" |}.

(** The default of [gameDir] is computed before the lookup, as the argument
    of [get] that it is.  The exceptions named by the [except] clause can
    only be raised before the first [append], so the handler returns the
    still empty list. *)
Definition get_instances (launcher_path : path) : M (list instance) :=
  let profiles_file := launcher_path /> "launcher_profiles.json" in
  e ← Path.exists_ profiles_file;
  if negb e then mret [] else
  try_except
    (data ← json_load profiles_file;
     profiles ← Py.get data "profiles" (JObj []);
     items ← Py.items profiles;
     for_each items [] (λ instances '(profile_name, profile_data),
       version ← Py.get profile_data "lastVersionId" (JStr "Unknown");
       default_dir ← Py.joinpath (launcher_path /> "versions") version;
       game_dir ← match profile_data with
                  | JObj items => match Py.lookup items "gameDir" with
                                  | Some v => Py.to_Path v
                                  | None => mret default_dir
                                  end
                  | _ => Py.no_attribute profile_data "get"
                  end;
       mret (instances ++
             [ {| inst_name := profile_name;
                  inst_version := version;
                  inst_path := PurePath.to_str game_dir;
                  inst_type := "profile";
                  inst_launcher := "vanilla" |} ])))
    (classes [JSONDecodeError; IOError])
    (λ e, _ ← print ("Error reading launcher profiles: " +:+ exn_str e);
          mret []).

Definition get_instance_logs_directory (launcher_path : path)
    (instance_name : string) : M (option path) :=
  let profiles_file := launcher_path /> "launcher_profiles.json" in
  e ← Path.exists_ profiles_file;
  if negb e then mret None else
  try_except
    (data ← json_load profiles_file;
     profiles ← Py.get data "profiles" (JObj []);
     profile ← Py.get profiles instance_name JNull;
     if Py.truthy profile then
       game_dir ← match profile with
                  | JObj items => match Py.lookup items "gameDir" with
                                  | Some v => Py.to_Path v
                                  | None => mret launcher_path
                                  end
                  | _ => Py.no_attribute profile "get"
                  end;
       let logs_dir := game_dir /> "logs" in
       l ← Path.exists_ logs_dir;
       mret (if (l : bool) then Some logs_dir else None)
     else mret None)
    (classes [JSONDecodeError; IOError])
    (λ _, mret None).

(** [sorted(files, key=lambda x: x.stat().st_mtime, reverse=True)]: the keys
    are computed first; the sort is stable, also when reversed. *)
Fixpoint insert_desc (x : Z * path) (l : list (Z * path)) : list (Z * path) :=
  match l with
  | [] => [x]
  | y :: l' => if y.1 <=? x.1 then x :: l else y :: insert_desc x l'
  end.

Definition sort_desc (l : list (Z * path)) : list (Z * path) :=
  foldr insert_desc [] l.

Definition sorted_by_mtime (files : list path) : M (list path) :=
  keyed ← for_each files [] (λ keyed x,
             t ← Path.stat_mtime x; mret (keyed ++ [(t, x)]));
  mret (snd <$> sort_desc keyed).

Definition get_logs (launcher_path : path) (instance_name : string)
  : M (option string) :=
  logs_dir ← get_instance_logs_directory launcher_path instance_name;
  match logs_dir with
  | None => mret None
  | Some logs_dir =>
      e ← Path.exists_ logs_dir;
      if negb e then mret None else
      found ← Path.glob logs_dir "*.log";
      log_files ← sorted_by_mtime found;
      match log_files with
      | [] => mret None
      | latest :: _ =>
          try_except
            (s ← Path.read_text_ignore latest; mret (Some s))
            (classes [IOError])
            (λ e, mret (Some ("Error reading log: " +:+ exn_str e)))
      end
  end.

Definition clear_logs (launcher_path : path) (instance_name : string)
  : M bool :=
  logs_dir ← get_instance_logs_directory launcher_path instance_name;
  match logs_dir with
  | None => mret false
  | Some logs_dir =>
      e ← Path.exists_ logs_dir;
      if negb e then mret false else
      try_except
        (log_files ← Path.glob logs_dir "*.log";
         _ ← for_each log_files () (λ _ log_file, Path.unlink log_file);
         mret true)
        (classes [IOError; OSError])
        (λ e, _ ← print ("Error clearing logs: " +:+ exn_str e); mret false)
  end.

(** [VanillaLauncher(launcher_path)] *)
Definition new (launcher_path : option path) : M BaseLauncher.t :=
  launcher_path ← match launcher_path with
                  | None => _get_default_path
                  | Some p => mret p
                  end;
  mret {| BaseLauncher.launcher_path := launcher_path;
          BaseLauncher.detect := detect launcher_path;
          BaseLauncher.get_instances := get_instances launcher_path;
          BaseLauncher.get_logs := get_logs launcher_path;
          BaseLauncher.clear_logs := clear_logs launcher_path;
          BaseLauncher.get_launcher_info := get_launcher_info launcher_path;
          BaseLauncher.get_instance_logs_directory :=
            get_instance_logs_directory launcher_path |}.

End WithJson.
End VanillaLauncher.

(** ** curseforge.py *)

Module CurseForgeLauncher.
Section WithJson.

Variable json_loads : string → option json.

Definition LAUNCHER_NAME : string := "CurseForge Launcher".

Definition _get_default_path : M path :=
  system ← platform_system_;
  if String.eqb system "Windows" then
    h ← Path.home; mret (h /> "AppData" /> "Local" /> "CurseForge")
  else if String.eqb system "Darwin" then
    h ← Path.home;
    mret (h /> "Library" /> "Application Support" /> "CurseForge")
  else
    h ← Path.home; mret (h /> ".curseforge").

Definition detect (launcher_path : path) : M bool :=
  Path.exists_ (launcher_path /> "Instances").

Definition get_launcher_info (launcher_path : path) : M LauncherInfo :=
  java ← _find_java_executable;
  mret {| name := LAUNCHER_NAME;
          version := JNull;
          path_ := launcher_path;
          java_executable := java;
          launcher_type := "curseforge" |}.

Definition get_instances (launcher_path : path) : M (list instance) :=
  let instances_dir := launcher_path /> "Instances" in
  e ← Path.exists_ instances_dir;
  if negb e then mret [] else
  entries ← Path.iterdir instances_dir;
  for_each entries [] (λ instances instance_path,
    d ← Path.is_dir instance_path;
    if negb d then mret instances else
    let manifest_file := instance_path /> "manifest.json" in
    m ← Path.exists_ manifest_file;
    version ← (if (m : bool) then
                 try_except
                   (manifest ← VanillaLauncher.json_load json_loads manifest_file;
                    minecraft ← Py.get manifest "minecraft" (JObj []);
                    Py.get minecraft "version" (JStr "Unknown"))
                   (classes [JSONDecodeError; IOError])
                   (λ _, mret (JStr "Unknown"))
               else mret (JStr "Unknown"));
    mret (instances ++
          [ {| inst_name := PurePath.name instance_path;
               inst_version := version;
               inst_path := PurePath.to_str instance_path;
               inst_type := "modpack";
               inst_launcher := "curseforge" |} ])).

Definition get_instance_logs_directory (launcher_path : path)
    (instance_name : string) : M (option path) :=
  let instance_path := launcher_path /> "Instances" /> instance_name in
  e ← Path.exists_ instance_path;
  if negb e then mret None else
  let logs_dir := instance_path /> ".minecraft" /> "logs" in
  l ← Path.exists_ logs_dir;
  let logs_dir := if (l : bool) then logs_dir else instance_path /> "logs" in
  l' ← Path.exists_ logs_dir;
  mret (if (l' : bool) then Some logs_dir else None).

Definition get_logs (launcher_path : path) (instance_name : string)
  : M (option string) :=
  logs_dir ← get_instance_logs_directory launcher_path instance_name;
  match logs_dir with
  | None => mret None
  | Some logs_dir =>
      e ← Path.exists_ logs_dir;
      if negb e then mret None else
      let latest_log := logs_dir /> "latest.log" in
      l ← Path.exists_ latest_log;
      if (l : bool) then
        try_except
          (s ← Path.read_text_ignore latest_log; mret (Some s))
          (classes [IOError])
          (λ e, mret (Some ("Error reading log: " +:+ exn_str e)))
      else mret None
  end.

Definition clear_logs (launcher_path : path) (instance_name : string)
  : M bool :=
  logs_dir ← get_instance_logs_directory launcher_path instance_name;
  match logs_dir with
  | None => mret false
  | Some logs_dir =>
      e ← Path.exists_ logs_dir;
      if negb e then mret false else
      try_except
        (log_files ← Path.glob logs_dir "*.log";
         _ ← for_each log_files () (λ _ log_file, Path.unlink log_file);
         mret true)
        (classes [IOError; OSError])
        (λ e, _ ← print ("Error clearing logs: " +:+ exn_str e); mret false)
  end.

(** [CurseForgeLauncher(launcher_path)] *)
Definition new (launcher_path : option path) : M BaseLauncher.t :=
  launcher_path ← match launcher_path with
                  | None => _get_default_path
                  | Some p => mret p
                  end;
  mret {| BaseLauncher.launcher_path := launcher_path;
          BaseLauncher.detect := detect launcher_path;
          BaseLauncher.get_instances := get_instances launcher_path;
          BaseLauncher.get_logs := get_logs launcher_path;
          BaseLauncher.clear_logs := clear_logs launcher_path;
          BaseLauncher.get_launcher_info := get_launcher_info launcher_path;
          BaseLauncher.get_instance_logs_directory :=
            get_instance_logs_directory launcher_path |}.

End WithJson.
End CurseForgeLauncher.

(** ** manager.py *)

(** A Python dictionary with string keys whose iteration order matters: the
    items in insertion order.  Assigning to a key that is present replaces
    its value in place; assigning to a new key appends an item. *)
Module Dict.

Definition t (V : Type) : Type := list (string * V).

Definition empty {V} : t V := [].

Fixpoint get {V} (d : t V) (k : string) : option V :=
  match d with
  | [] => None
  | (k', v) :: d' => if String.eqb k' k then Some v else get d' k
  end.

Fixpoint set {V} (k : string) (v : V) (d : t V) : t V :=
  match d with
  | [] => [(k, v)]
  | (k', v') :: d' =>
      if String.eqb k' k then (k', v) :: d' else (k', v') :: set k v d'
  end.

Definition items {V} (d : t V) : list (string * V) := d.

Definition keys {V} (d : t V) : list string := fst <$> d.

End Dict.

Module LauncherManager.
Section WithJson.

Variable json_loads : string → option json.

(** A launcher class, as the manager uses it: called without argument. *)
Definition launcher_class := M BaseLauncher.t.

(** Supported launchers in order of priority *)
Definition SUPPORTED_LAUNCHERS : list (string * launcher_class) :=
  [ ("vanilla", VanillaLauncher.new json_loads None);
    ("multimc", MultiMCLauncher.new None);
    ("prism", PrismLauncherHandler.new None);
    ("curseforge", CurseForgeLauncher.new json_loads None) ].

(** The manager object: its one attribute. *)
Record t := { detected_launchers : Dict.t BaseLauncher.t }.

(** [_detect_all_launchers], over the class attribute it reads *)
Definition _detect_all_launchers (supported : list (string * launcher_class))
    (self : t) : M t :=
  for_each supported self (λ self '(launcher_name, launcher_class),
    try_except
      (launcher ← launcher_class;
       d ← BaseLauncher.detect launcher;
       if (d : bool) then
         mret {| detected_launchers :=
                   Dict.set launcher_name launcher (detected_launchers self) |}
       else mret self)
      Exception
      (λ e, _ ← print ("Error detecting " +:+ launcher_name +:+ ": "
                        +:+ exn_str e);
            mret self)).

(** [LauncherManager()] *)
Definition new : M t :=
  _detect_all_launchers SUPPORTED_LAUNCHERS {| detected_launchers := Dict.empty |}.

Definition get_available_launchers (self : t) : list string :=
  Dict.keys (detected_launchers self).

Definition get_launcher (self : t) (launcher_type : string)
  : option BaseLauncher.t :=
  Dict.get (detected_launchers self) launcher_type.

(** The dictionaries that [get_all_instances] and [get_launcher_infos]
    return are only read as mappings. *)
Definition get_all_instances (self : t) : M (gmap string (list instance)) :=
  for_each (Dict.items (detected_launchers self)) ∅
    (λ all_instances '(launcher_type, launcher),
      try_except
        (instances ← BaseLauncher.get_instances launcher;
         mret (<[launcher_type := instances]> all_instances))
        Exception
        (λ e, _ ← print ("Error getting instances from " +:+ launcher_type
                          +:+ ": " +:+ exn_str e);
              mret (<[launcher_type := []]> all_instances))).

Definition get_launcher_infos (self : t) : M (gmap string LauncherInfo) :=
  for_each (Dict.items (detected_launchers self)) ∅
    (λ infos '(launcher_type, launcher),
      try_except
        (info ← BaseLauncher.get_launcher_info launcher;
         mret (<[launcher_type := info]> infos))
        Exception
        (λ e, _ ← print ("Error getting info from " +:+ launcher_type
                          +:+ ": " +:+ exn_str e);
              mret infos)).

(** A launcher object is true in a condition: no adapter class defines
    [__bool__] or [__len__]. *)
Definition get_logs (self : t) (launcher_type instance_name : string)
  : M (option string) :=
  match get_launcher self launcher_type with
  | None => mret (Some ("Launcher " +:+ launcher_type +:+ " not found"))
  | Some launcher =>
      try_except
        (logs ← BaseLauncher.get_logs launcher instance_name;
         match logs with
         | None => mret (Some ("No logs found for instance " +:+ instance_name))
         | Some logs => mret (Some logs)
         end)
        Exception
        (λ e, mret (Some ("Error retrieving logs: " +:+ exn_str e)))
  end.

Definition clear_logs (self : t) (launcher_type instance_name : string)
  : M bool :=
  match get_launcher self launcher_type with
  | None => _ ← print ("Launcher " +:+ launcher_type +:+ " not found");
            mret false
  | Some launcher =>
      try_except
        (BaseLauncher.clear_logs launcher instance_name)
        Exception
        (λ e, _ ← print ("Error clearing logs: " +:+ exn_str e); mret false)
  end.

Definition get_instance_logs_directory (self : t)
    (launcher_type instance_name : string) : M (option path) :=
  match get_launcher self launcher_type with
  | None => mret None
  | Some launcher =>
      try_except
        (BaseLauncher.get_instance_logs_directory launcher instance_name)
        Exception
        (λ e, _ ← print ("Error getting logs directory: " +:+ exn_str e);
              mret None)
  end.

Definition register_custom_launcher (self : t) (launcher_type : string)
    (launcher : BaseLauncher.t) : t :=
  {| detected_launchers :=
       Dict.set launcher_type launcher (detected_launchers self) |}.

End WithJson.
End LauncherManager.

(** ** A JSON reader for the examples *)

(** The development takes [json.loads] as a parameter.  The examples need one
    to run on: this reader covers objects, arrays, strings with the
    one-character escapes, integers and the three literals, which is enough
    for the files of the examples.  No theorem depends on it. *)
Module Json.

Fixpoint ws (s : string) : string :=
  match s with
  | String c s' =>
      if (Ascii.eqb c " " || Ascii.eqb c "009" || Ascii.eqb c "010"
          || Ascii.eqb c "013")%bool then ws s' else s
  | EmptyString => s
  end.

Fixpoint string_body (s : string) : option (string * string) :=
  match s with
  | EmptyString => None
  | String c s' =>
      if Ascii.eqb c "034" then Some (EmptyString, s')
      else if Ascii.eqb c "092" then
        match s' with
        | String e s'' =>
            let put d := match string_body s'' with
                         | Some (t, r) => Some (String d t, r)
                         | None => None
                         end in
            if Ascii.eqb e "n" then put "010"%char
            else if Ascii.eqb e "t" then put "009"%char
            else if Ascii.eqb e "r" then put "013"%char
            else if Ascii.eqb e "b" then put "008"%char
            else if Ascii.eqb e "f" then put "012"%char
            else if (Ascii.eqb e "034" || Ascii.eqb e "092" || Ascii.eqb e "/")%bool
            then put e
            else None
        | EmptyString => None
        end
      else match string_body s' with
           | Some (t, r) => Some (String c t, r)
           | None => None
           end
  end.

Fixpoint digits (acc : Z) (s : string) : Z * string :=
  match s with
  | String c s' =>
      match Ascii.is_nat c with
      | Some d => digits (10 * acc + Z.of_nat d) s'
      | None => (acc, s)
      end
  | EmptyString => (acc, s)
  end.

Definition is_digit (c : ascii) : bool :=
  match Ascii.is_nat c with Some _ => true | None => false end.

Definition literal (lit : string) (v : json) (s : string)
  : option (json * string) :=
  if String.prefix lit s
  then Some (v, String.substring (String.length lit)
                  (String.length s - String.length lit) s)
  else None.

Fixpoint value (fuel : nat) (s : string) : option (json * string) :=
  match fuel with
  | O => None
  | S fuel =>
      match ws s with
      | String c r =>
          if Ascii.eqb c "{" then
            match ws r with
            | String "}" r' => Some (JObj [], r')
            | _ => members fuel [] r
            end
          else if Ascii.eqb c "[" then
            match ws r with
            | String "]" r' => Some (JArr [], r')
            | _ => elements fuel [] r
            end
          else if Ascii.eqb c "034" then
            match string_body r with
            | Some (t, r') => Some (JStr t, r')
            | None => None
            end
          else if Ascii.eqb c "-" then
            match r with
            | String d _ =>
                if is_digit d
                then let '(n, r') := digits 0 r in Some (JInt (- n), r')
                else None
            | EmptyString => None
            end
          else if is_digit c then
            let '(n, r') := digits 0 (String c r) in Some (JInt n, r')
          else if Ascii.eqb c "n" then literal "null" JNull (String c r)
          else if Ascii.eqb c "t" then literal "true" (JBool true) (String c r)
          else if Ascii.eqb c "f" then literal "false" (JBool false) (String c r)
          else None
      | EmptyString => None
      end
  end
with elements (fuel : nat) (acc : list json) (s : string)
  : option (json * string) :=
  match fuel with
  | O => None
  | S fuel =>
      match value fuel s with
      | Some (v, r) =>
          match ws r with
          | String "," r' => elements fuel (acc ++ [v]) r'
          | String "]" r' => Some (JArr (acc ++ [v]), r')
          | _ => None
          end
      | None => None
      end
  end
with members (fuel : nat) (acc : list (string * json)) (s : string)
  : option (json * string) :=
  match fuel with
  | O => None
  | S fuel =>
      match ws s with
      | String "034" r =>
          match string_body r with
          | Some (k, r1) =>
              match ws r1 with
              | String ":" r2 =>
                  match value fuel r2 with
                  | Some (v, r3) =>
                      match ws r3 with
                      | String "," r4 => members fuel (Dict.set k v acc) r4
                      | String "}" r4 => Some (JObj (Dict.set k v acc), r4)
                      | _ => None
                      end
                  | None => None
                  end
              | _ => None
              end
          | None => None
          end
      | _ => None
      end
  end.

(** The text of a value, as [json.dumps] writes it. *)
Definition quote : string := String "034" EmptyString.

Fixpoint escape (s : string) : string :=
  match s with
  | EmptyString => EmptyString
  | String c s' =>
      if (Ascii.eqb c "034" || Ascii.eqb c "092")%bool
      then String "092" (String c (escape s'))
      else if Ascii.eqb c "010" then String "092" (String "n" (escape s'))
      else String c (escape s')
  end.

Definition dumps_str (s : string) : string := quote +:+ escape s +:+ quote.

Fixpoint dumps_nat (fuel n : nat) (acc : string) : string :=
  match fuel with
  | O => acc
  | S fuel =>
      let acc := String (ascii_of_nat (48 + n mod 10)) acc in
      if (n <? 10)%nat then acc else dumps_nat fuel (n / 10) acc
  end.

Definition dumps_int (n : Z) : string :=
  let digits := dumps_nat (S (Z.abs_nat n)) (Z.abs_nat n) EmptyString in
  if n <? 0 then String "-" digits else digits.

Fixpoint dumps (v : json) : string :=
  match v with
  | JNull => "null"
  | JBool b => if b then "true" else "false"
  | JInt n => dumps_int n
  | JFloat m e => dumps_int m +:+ "e" +:+ dumps_int e
  | JStr s => dumps_str s
  | JArr l => "[" +:+ Str.join ", " (dumps <$> l) +:+ "]"
  | JObj items =>
      "{" +:+ Str.join ", "
                ((fix go (items : list (string * json)) : list string :=
                    match items with
                    | [] => []
                    | (k, v) :: items' =>
                        (dumps_str k +:+ ": " +:+ dumps v) :: go items'
                    end) items)
      +:+ "}"
  end.

Definition loads (s : string) : option json :=
  match value (S (String.length s)) s with
  | Some (v, r) => match ws r with EmptyString => Some v | _ => None end
  | None => None
  end.

End Json.


(** * Vocabulary of the statements *)

(** The four products and their adapters. *)
Inductive product := Vanilla | MultiMC | Prism | CurseForge.

(** The marker whose presence under the install path tells that the product
    is installed. *)
Definition marker (p : product) : string :=
  match p with
  | Vanilla => "launcher_profiles.json"
  | MultiMC | Prism => "instances"
  | CurseForge => "Instances"
  end.

(** The key of a product in [SUPPORTED_LAUNCHERS]. *)
Definition launcher_key (p : product) : string :=
  match p with
  | Vanilla => "vanilla"
  | MultiMC => "multimc"
  | Prism => "prism"
  | CurseForge => "curseforge"
  end.

(** The default install path of a product below the home directory, on a
    platform that is neither Windows nor macOS. *)
Definition linux_default (p : product) : path :=
  match p with
  | Vanilla => [".minecraft"]
  | MultiMC => [".local"; "share"; "multimc"]
  | Prism => [".local"; "share"; "PrismLauncher"]
  | CurseForge => [".curseforge"]
  end.

Section Adapters.

Variable json_loads : string → option json.

Definition detect_of (p : product) : path → M bool :=
  match p with
  | Vanilla => VanillaLauncher.detect
  | MultiMC => MultiMCLauncher.detect
  | Prism => PrismLauncherHandler.detect
  | CurseForge => CurseForgeLauncher.detect
  end.

Definition logs_directory_of (p : product) : path → string → M (option path) :=
  match p with
  | Vanilla => VanillaLauncher.get_instance_logs_directory json_loads
  | MultiMC => MultiMCLauncher.get_instance_logs_directory
  | Prism => PrismLauncherHandler.get_instance_logs_directory
  | CurseForge => CurseForgeLauncher.get_instance_logs_directory
  end.

Definition clear_logs_of (p : product) : path → string → M bool :=
  match p with
  | Vanilla => VanillaLauncher.clear_logs json_loads
  | MultiMC => MultiMCLauncher.clear_logs
  | Prism => PrismLauncherHandler.clear_logs
  | CurseForge => CurseForgeLauncher.clear_logs
  end.

End Adapters.

(** [*.log] *)
Definition is_log (name : string) : bool := Path.fnmatch "*.log" name.

(** What one turn of the detection loop finds for a class: the launcher it
    builds, when building it and its [detect] both return and [detect] says
    true. *)
Definition probe (cls : LauncherManager.launcher_class) (w : world)
  : option BaseLauncher.t :=
  match cls w with
  | (Ok launcher, w') =>
      match BaseLauncher.detect launcher w' with
      | (Ok true, _) => Some launcher
      | _ => None
      end
  | (Raise _, _) => None
  end.

(** The info a launcher gives in a world, when its [get_launcher_info]
    returns. *)
Definition info_of (launcher : BaseLauncher.t) (w : world) : option LauncherInfo :=
  match BaseLauncher.get_launcher_info launcher w with
  | (Ok info, _) => Some info
  | (Raise _, _) => None
  end.

(** The instances a launcher contributes to [get_all_instances] in a world:
    those it lists, and none when listing raises. *)
Definition instances_of (launcher : BaseLauncher.t) (w : world) : list instance :=
  match BaseLauncher.get_instances launcher w with
  | (Ok instances, _) => instances
  | (Raise _, _) => []
  end.

(** A method that may print but leaves the file tree and the rest of the
    environment as they are. *)
Definition keeps_files {A} (m : M A) : Prop :=
  ∀ w, fs (m w).2 = fs w
       ∧ platform_system (m w).2 = platform_system w
       ∧ home (m w).2 = home w
       ∧ which_java (m w).2 = which_java w.

(** The part of a tree a directory's entries are replaced in: the directory
    at [p] keeps its modification time and gets the entries [f es]. *)
Fixpoint with_entries (p : path) (f : list (string * node) → list (string * node))
    (t : node) : node :=
  match p with
  | [] => match t with
          | Dir m es => Dir m (f es)
          | _ => t
          end
  | c :: p' => match t with
               | Dir m es => Dir m (Tree.update c (with_entries p' f) es)
               | _ => t
               end
  end.

(** The line is a [key=value] line of an [instance.cfg] that assigns [key]. *)
Definition assigns (key line : string) : bool :=
  let line := Str.strip line in
  Str.contains "=" line && negb (Str.startswith line "[")
  && String.eqb (Str.strip (Str.split1 "=" line).1) key.

(** The record [MultiMCLauncher.get_instances] makes of the entry [name] of
    the instances directory, [n] being what the entry is. *)
Definition multimc_record (instances_dir : path) (name : string)
    (n : option node) : option instance :=
  match n with
  | Some (Dir _ entries) =>
      match Tree.child entries "instance.cfg" with
      | Some (File _ text) =>
          Some {| inst_name := name;
                  inst_version :=
                    JStr (default "Unknown"
                            (MultiMCLauncher.read_config text !! "InstanceType"));
                  inst_path := PurePath.to_str (instances_dir ++ [name]);
                  inst_type := "instance";
                  inst_launcher := "multimc" |}
      | _ => None
      end
  | _ => None
  end.

(** The message of the [UnicodeDecodeError] that the entry [n] of the
    instances directory makes [MultiMCLauncher.get_instances] raise: [n] is
    a directory and its [instance.cfg] a regular file that is not valid
    UTF-8. *)
Definition cfg_decode_error (n : option node) : option string :=
  match n with
  | Some (Dir _ entries) =>
      match Tree.child entries "instance.cfg" with
      | Some (Blob _ _ reason) => Some reason
      | _ => None
      end
  | _ => None
  end.

(** What [MultiMCLauncher.get_logs] returns for the instance directory
    [instance_path] in the tree [t]. *)
Definition multimc_logs (instance_path : path) (t : node) : option string :=
  match Tree.find instance_path t with
  | None => None
  | Some _ =>
      let logs_dir := (instance_path ++ [".minecraft"]) ++ ["logs"] in
      match Tree.find logs_dir t with
      | None => None
      | Some _ =>
          let latest_log := logs_dir ++ ["latest.log"] in
          match Tree.find latest_log t with
          | None => None
          | Some (File _ s) => Some s
          | Some (Blob _ s _) => Some s
          | Some (Dir _ _) =>
              Some ("Error reading log: "
                    +:+ Path.errno "21" "Is a directory" latest_log)
          end
      end
  end.

(** What an adapter sees of the entry [e] of an instances directory with the
    entries [es], when the entry is an instance: its name and the text of its
    [instance.cfg]. *)
Definition cfg_text (es : list (string * node)) (e : string * node)
  : option (string * string) :=
  match Tree.child es e.1 with
  | Some (Dir _ entries) =>
      match Tree.child entries "instance.cfg" with
      | Some (File _ text) => Some (e.1, text)
      | _ => None
      end
  | _ => None
  end.

(** The instances of an instances directory, in iteration order, with the
    content of their [instance.cfg]. *)
Definition cfg_texts (es : list (string * node)) : list (string * string) :=
  omap (cfg_text es) es.

(** The content of a log that is a regular file, as the adapters read it:
    without the bytes that are not valid UTF-8. *)
Definition log_content (n : option node) : option string :=
  match n with
  | Some (File _ s) | Some (Blob _ s _) => Some s
  | _ => None
  end.

(** [latest.log] of the instance [name] of MultiMC or Prism. *)
Definition multimc_latest_log (root : path) (name : string) : path :=
  (root /> "instances" /> name) ++ [".minecraft"; "logs"; "latest.log"].

(** The record of an instance with the given name and [instance.cfg] text. *)
Definition multimc_record_of (instances_dir : path) (nt : string * string)
  : instance :=
  {| inst_name := nt.1;
     inst_version :=
       JStr (default "Unknown"
               (MultiMCLauncher.read_config nt.2 !! "InstanceType"));
     inst_path := PurePath.to_str (instances_dir ++ [nt.1]);
     inst_type := "instance";
     inst_launcher := "multimc" |}.

(** Two instance records that differ at most in where the instance is and in
    the launcher they name; each one's path is its name under the instances
    directory of its own install path. *)
Definition same_instance (root1 root2 : path) (a b : instance) : Prop :=
  inst_name a = inst_name b
  ∧ inst_version a = inst_version b
  ∧ inst_type a = inst_type b
  ∧ inst_path a = PurePath.to_str ((root1 ++ ["instances"]) ++ [inst_name a])
  ∧ inst_path b = PurePath.to_str ((root2 ++ ["instances"]) ++ [inst_name b]).

(** The modification time [stat] finds for the entry [n] of a directory. *)
Definition entry_mtime (es : list (string * node)) (n : string) : Z :=
  match Tree.child es n with
  | Some x => node_mtime x
  | None => 0
  end.

(** What reading the entry [x] at [p] as a log gives. *)
Definition log_text (p : path) (x : node) : string :=
  match x with
  | File _ s => s
  | Blob _ s _ => s
  | Dir _ _ => "Error reading log: " +:+ Path.errno "21" "Is a directory" p
  end.

(** What reading a version file gives: its stripped text when it is a
    regular file of valid UTF-8, no version when it is missing or a
    directory, and the [UnicodeDecodeError] of the read when it is a regular
    file that is not valid UTF-8. *)
Definition version_from (p : path) (t : node) : result json :=
  match Tree.find p t with
  | Some (File _ s) => Ok (JStr (Str.strip s))
  | Some (Blob _ _ reason) => Raise (Exn UnicodeDecodeError reason)
  | _ => Ok JNull
  end.

(** [java_executable] *)
Definition java_of (w : world) : option path :=
  match which_java w with
  | Some java_path =>
      if String.eqb java_path EmptyString then None
      else Some (PurePath.of_str java_path)
  | None => None
  end.

(** The info of the launcher called [title], of the type [kind] and
    installed at [root], when reading its version gives [read]. *)
Definition info_with (title : string) (read : result json) (root : path)
    (w : world) (kind : string) : result LauncherInfo :=
  match read with
  | Ok v => Ok {| name := title;
                  version := v;
                  path_ := root;
                  java_executable := java_of w;
                  launcher_type := kind |}
  | Raise e => Raise e
  end.

(** The logs directory of a CurseForge instance directory. *)
Definition curseforge_logs_directory (instance_path : path) (t : node)
  : option path :=
  match Tree.find instance_path t with
  | None => None
  | Some _ =>
      if bool_decide (is_Some (Tree.find ((instance_path ++ [".minecraft"]) ++ ["logs"]) t))
      then Some ((instance_path ++ [".minecraft"]) ++ ["logs"])
      else if bool_decide (is_Some (Tree.find (instance_path ++ ["logs"]) t))
           then Some (instance_path ++ ["logs"])
           else None
  end.






(** Where the files put the logs directory of the instance [name] of a
    product installed at [root].  For MultiMC and Prism it is
    [.minecraft/logs] in the directory of the instance; for CurseForge the
    same, or [logs] in the directory of the instance when there is no
    [.minecraft/logs] there; for Vanilla it is [logs] in the game directory
    of the profile [name] of [launcher_profiles.json], the profile being a
    non-empty object whose [gameDir], if it has one, is a string, and the
    game directory being that [gameDir], or the install path without one. *)
Definition logs_directory_place (json_loads : string → option json)
    (p : product) (root : path) (name : string) (t : node) (d : path) : Prop :=
  match p with
  | Vanilla =>
      ∃ mt text items ps fields,
        Tree.find (root ++ ["launcher_profiles.json"]) t = Some (File mt text)
        ∧ json_loads text = Some (JObj items)
        ∧ Py.lookup items "profiles" = Some (JObj ps)
        ∧ Py.lookup ps name = Some (JObj fields)
        ∧ fields ≠ []
        ∧ match Py.lookup fields "gameDir" with
          | Some (JStr s) => d = PurePath.of_str s ++ ["logs"]
          | Some _ => False
          | None => d = root ++ ["logs"]
          end
  | MultiMC | Prism =>
      d = (root /> "instances" /> name) ++ [".minecraft"; "logs"]
  | CurseForge =>
      d = (root /> "Instances" /> name) ++ [".minecraft"; "logs"]
      ∨ (Tree.find ((root /> "Instances" /> name) ++ [".minecraft"; "logs"]) t
           = None
         ∧ d = (root /> "Instances" /> name) ++ ["logs"])
  end.

(** What every [clear_logs] does once the logs directory is resolved. *)
Definition clear_in (logs_dir : option path) : M bool :=
  match logs_dir with
  | None => mret false
  | Some logs_dir =>
      e ← Path.exists_ logs_dir;
      if negb e then mret false else
      try_except
        (log_files ← Path.glob logs_dir "*.log";
         _ ← for_each log_files () (λ _ log_file, Path.unlink log_file);
         mret true)
        (classes [IOError; OSError])
        (λ e, _ ← print ("Error clearing logs: " +:+ exn_str e); mret false)
  end.

(** ** Example worlds *)

Definition nl : string := String "010" EmptyString.

(** The message of the [UnicodeDecodeError] of a file that starts with the
    byte [0xff]. *)
Definition example_reason : string :=
  "'utf-8' codec can't decode byte 0xff in position 0: invalid start byte".

Definition example_cfg : string :=
  Str.join nl ["[General]"; "InstanceType=OneSix"; "name=pack"].

Definition example_profiles : json :=
  JObj [("profiles",
         JObj [("main", JObj [("lastVersionId", JStr "1.20.1")]);
               ("modded", JObj [("lastVersionId", JStr "1.19");
                                ("gameDir", JStr "/games/modded")])])].

Definition example_pack : node :=
  Dir 0 [("instance.cfg", File 1 example_cfg);
         (".minecraft",
          Dir 0 [("logs", Dir 0 [("latest.log", File 2 EmptyString)])])].

(** An instance whose [InstanceType] is assigned twice and whose logs
    directory holds no log. *)
Definition example_cfg_twice : string :=
  Str.join nl ["[General]"; "InstanceType=OneSix"; "InstanceType=Legacy"].

Definition example_quiet : node :=
  Dir 0 [("instance.cfg", File 1 example_cfg_twice);
         (".minecraft", Dir 0 [("logs", Dir 0 [("notes.txt", File 3 "n")])])].

Definition example_instances : node :=
  Dir 0 [("pack", example_pack); ("quiet", example_quiet)].

(** A home directory with the four products installed at their Linux
    defaults. *)
Definition example_fs : node :=
  Dir 0
    [("home",
      Dir 0
        [("steve",
          Dir 0
            [(".minecraft",
              Dir 0
                [("launcher_profiles.json", File 10 (Json.dumps example_profiles));
                 ("logs", Dir 0 [("latest.log", File 30 "new");
                                 ("old.log", File 20 "old");
                                 ("debug.txt", File 5 "dbg")]);
                 ("versions",
                  Dir 0 [("1.20.1",
                          Dir 0 [("logs",
                                  Dir 0 [("latest.log", File 40 "other")])])])]);
             (".local",
              Dir 0
                [("share",
                  Dir 0 [("multimc", Dir 0 [("instances", example_instances)]);
                         ("PrismLauncher",
                          Dir 0 [("instances", example_instances)])])]);
             (".curseforge",
              Dir 0
                [("Instances",
                  Dir 0
                    [("good",
                      Dir 0 [("manifest.json",
                              File 3 (Json.dumps
                                        (JObj [("minecraft",
                                                JObj [("version", JStr "1.20.1")])])))]);
                     ("bare", Dir 0 [])])])])]);
     ("games",
      Dir 0 [("modded",
              Dir 0 [("logs", Dir 0 [("a.log", File 1 "a");
                                     ("b.log", File 7 "b");
                                     ("c.log", File 7 "c");
                                     ("crash.txt", File 9 "x")])])])].

Definition example_world : world :=
  World example_fs [] "Linux" (Some ["home"; "steve"]) (Some "/usr/bin/java").

Definition example_home : path := ["home"; "steve"].

(** The manager that [LauncherManager()] builds in a world. *)
Definition manager_in (w : world) : LauncherManager.t :=
  match LauncherManager.new Json.loads w with
  | (Ok self, _) => self
  | (Raise _, _) => {| LauncherManager.detected_launchers := Dict.empty |}
  end.

(** A CurseForge install with a good manifest and manifests that are valid
    JSON of another shape. *)
Definition example_curseforge_fs (odd : json) : node :=
  Dir 0
    [("cf",
      Dir 0
        [("Instances",
          Dir 0
            [("good",
              Dir 0 [("manifest.json",
                      File 3 (Json.dumps
                                (JObj [("minecraft",
                                        JObj [("version", JStr "1.20.1")])])))]);
             ("odd", Dir 0 [("manifest.json", File 3 (Json.dumps odd))])])])].

Definition example_curseforge_world (odd : json) : world :=
  World (example_curseforge_fs odd) [] "Linux" (Some ["home"; "steve"]) None.

(** A CurseForge install whose instances keep their logs in [logs]: one
    with two logs, one of them not valid UTF-8, and a file that is no log;
    one without logs; and one whose only entry matching [*.log] is a
    directory. *)
Definition example_world_curseforge_logs : world :=
  World
    (Dir 0
       [("cf",
         Dir 0
           [("Instances",
             Dir 0
               [("pack",
                 Dir 0 [("logs",
                         Dir 0 [("latest.log", File 3 "l");
                                ("debug.log", Blob 2 "d" example_reason);
                                ("options.txt", File 1 "o")])]);
                ("fresh",
                 Dir 0 [("logs", Dir 0 [("options.txt", File 1 "o")])]);
                ("dotted",
                 Dir 0 [("logs", Dir 0 [("old.log", Dir 1 [])])])])])])
    [] "Linux" (Some ["home"; "steve"]) None.

(** Two installs with a version file: one of valid UTF-8, one not. *)
Definition example_world_versions : world :=
  World
    (Dir 0
       [("mmc", Dir 0 [("version.txt", File 1 (" 0.7.0" +:+ nl))]);
        ("prism",
         Dir 0 [("prismlauncher_version.txt",
                 Blob 1 "8.0" example_reason)]);
        ("mc",
         Dir 0 [("launcher_profiles.json",
                 File 1 (Json.dumps
                           (JObj [("launcherVersion",
                                   JObj [("name", JStr "2.1")])])))]);
        ("old",
         Dir 0 [("launcher_profiles.json",
                 Blob 1 "{}" example_reason)])])
    [] "Linux" (Some ["home"; "steve"]) (Some "/usr/bin/java").

(** A vanilla install whose only profile is the empty object, with logs
    both under the install path and under the directory of its version. *)
Definition example_world_empty_profile : world :=
  World
    (Dir 0
       [("mc",
         Dir 0
           [("launcher_profiles.json",
             File 1 (Json.dumps (JObj [("profiles", JObj [("p", JObj [])])])));
            ("logs", Dir 0 [("latest.log", File 2 "l")]);
            ("versions",
             Dir 0 [("Unknown",
                     Dir 0 [("logs", Dir 0 [("latest.log", File 2 "l")])])])])])
    [] "Linux" (Some ["home"; "steve"]) None.

(** A world in which the home directory cannot be determined. *)
Definition example_world_no_home : world :=
  World example_fs [] "Linux" None None.

(** A Windows world with MultiMC in its second candidate directory. *)
Definition example_world_windows : world :=
  World (Dir 0 [("C:", Dir 0 [("MultiMC", Dir 0 [("instances", Dir 0 [])])])])
    [] "Windows" (Some ["C:"; "Users"; "steve"]) None.

(** The candidate install paths on Windows, in the order they are tried. *)
Definition multimc_candidates (h : path) : list path :=
  [ h /> "AppData" /> "Local" /> "MultiMC";
    PurePath.of_str "C:/MultiMC";
    PurePath.of_str "C:/Program Files" /> "MultiMC" ].

Definition prism_candidates (h : path) : list path :=
  [ h /> "AppData" /> "Local" /> "Prism Launcher";
    PurePath.of_str "C:/Prism Launcher";
    PurePath.of_str "C:/Program Files" /> "Prism Launcher" ].

(** The launcher object [MultiMCLauncher(root)] builds. *)
Definition multimc_object (root : path) : BaseLauncher.t :=
  {| BaseLauncher.launcher_path := root;
     BaseLauncher.detect := MultiMCLauncher.detect root;
     BaseLauncher.get_instances := MultiMCLauncher.get_instances root;
     BaseLauncher.get_logs := MultiMCLauncher.get_logs root;
     BaseLauncher.clear_logs := MultiMCLauncher.clear_logs root;
     BaseLauncher.get_launcher_info := MultiMCLauncher.get_launcher_info root;
     BaseLauncher.get_instance_logs_directory :=
       MultiMCLauncher.get_instance_logs_directory root |}.

(** Two installs with the same instances, the second with other
    modification times and with files that are no instance's. *)
Definition example_world_two_installs : world :=
  World
    (Dir 0
       [("mmc", Dir 0 [("instances", example_instances)]);
        ("prism",
         Dir 4
           [("instances",
             Dir 5
               [("pack",
                 Dir 9
                   [("notes.txt", File 1 "n");
                    ("instance.cfg", File 7 example_cfg);
                    (".minecraft",
                     Dir 6 [("logs",
                             Dir 6 [("latest.log", File 8 EmptyString);
                                    ("old.log", File 3 "o")])])]);
                ("readme.txt", File 1 "r");
                ("quiet", example_quiet)])])])
    [] "Linux" (Some ["home"; "steve"]) None.

(** A MultiMC install whose second instance has an [instance.cfg] that is
    not valid UTF-8. *)
Definition example_world_undecodable_cfg : world :=
  World
    (Dir 0
       [("mmc",
         Dir 0
           [("instances",
             Dir 0
               [("pack", example_pack);
                ("broken",
                 Dir 0 [("instance.cfg",
                         Blob 1 "InstanceType=OneSix" example_reason)]);
                ("quiet", example_quiet)])])])
    [] "Linux" (Some ["home"; "steve"]) None.

(** A world in which [instances] and [Instances] are regular files. *)
Definition example_world_instances_file : world :=
  World (Dir 0 [("mmc", Dir 0 [("instances", File 1 "x")]);
                ("cf", Dir 0 [("Instances", File 1 "x")])])
    [] "Linux" (Some ["home"; "steve"]) None.

(** A vanilla install whose only profile has a number for [lastVersionId]. *)
Definition example_world_numeric_version : world :=
  World (Dir 0 [("mc",
                 Dir 0 [("launcher_profiles.json",
                         File 1 (Json.dumps
                                   (JObj [("profiles",
                                           JObj [("p",
                                                  JObj [("lastVersionId", JInt 7);
                                                        ("gameDir", JStr "/g")])])])))])])
    [] "Linux" (Some ["home"; "steve"]) None.
(** * Properties *)

(** ** Running a method *)

Lemma run_bind {A B} (m : M A) (f : A → M B) (w : world) :
  (m ≫= f) w = match m w with
               | (Ok a, w') => f a w'
               | (Raise e, w') => (Raise e, w')
               end.
Proof. reflexivity. Qed.

Lemma run_ret {A} (a : A) (w : world) : (mret a : M A) w = (Ok a, w).
Proof. reflexivity. Qed.

Lemma run_try_except {A} (body : M A) clause handler (w : world) :
  try_except body clause handler w =
    match body w with
    | (Ok a, w') => (Ok a, w')
    | (Raise e, w') => if clause (exn_cls e) then handler e w' else (Raise e, w')
    end.
Proof. reflexivity. Qed.

Lemma run_exists (p : path) (w : world) :
  Path.exists_ p w = (Ok (bool_decide (is_Some (Tree.find p (fs w)))), w).
Proof. reflexivity. Qed.

Lemma run_is_dir (p : path) (w : world) :
  Path.is_dir p w =
    (Ok (match Tree.find p (fs w) with Some (Dir _ _) => true | _ => false end), w).
Proof. reflexivity. Qed.

(** A method that only observes the world. *)
Definition reads {A} (m : M A) : Prop := ∀ w, (m w).2 = w.

Lemma reads_ret {A} (a : A) : reads (mret a : M A).
Proof. by intros w. Qed.

Lemma reads_raise {A} c msg : reads (raise c msg : M A).
Proof. by intros w. Qed.

Lemma reads_bind {A B} (m : M A) (f : A → M B) :
  reads m → (∀ a, reads (f a)) → reads (m ≫= f).
Proof.
  intros Hm Hf w. rewrite run_bind. specialize (Hm w).
  destruct (m w) as [[a|e] w']; simpl in *; subst; [apply Hf | done].
Qed.

Lemma reads_try_except {A} (body : M A) clause handler :
  reads body → (∀ e, reads (handler e)) → reads (try_except body clause handler).
Proof.
  intros Hb Hh w. rewrite run_try_except. specialize (Hb w).
  destruct (body w) as [[a|e] w']; simpl in *; subst; [done|].
  destruct (clause _); [apply Hh | done].
Qed.

Lemma reads_node_at p : reads (Path.node_at p).
Proof. by intros w. Qed.

Lemma reads_exists p : reads (Path.exists_ p).
Proof. by intros w. Qed.

Lemma reads_is_dir p : reads (Path.is_dir p).
Proof. by intros w. Qed.

Lemma reads_iterdir p : reads (Path.iterdir p).
Proof. intros w. unfold Path.iterdir. rewrite run_bind. simpl.
  by destruct (Tree.find p (fs w)) as [[]|]. Qed.

Lemma reads_glob p pat : reads (Path.glob p pat).
Proof. intros w. unfold Path.glob. rewrite run_bind. simpl.
  by destruct (Tree.find p (fs w)) as [[]|]. Qed.

Lemma reads_stat_mtime p : reads (Path.stat_mtime p).
Proof. intros w. unfold Path.stat_mtime. rewrite run_bind. simpl.
  by destruct (Tree.find p (fs w)). Qed.

Lemma reads_read_text p : reads (Path.read_text p).
Proof. intros w. unfold Path.read_text. rewrite run_bind. simpl.
  by destruct (Tree.find p (fs w)) as [[]|]. Qed.

Lemma reads_read_text_ignore p : reads (Path.read_text_ignore p).
Proof. intros w. unfold Path.read_text_ignore. rewrite run_bind. simpl.
  by destruct (Tree.find p (fs w)) as [[]|]. Qed.

Lemma reads_for_each {A S} (xs : list A) (acc : S) body :
  (∀ acc x, reads (body acc x)) → reads (for_each xs acc body).
Proof.
  intros Hb. revert acc. induction xs as [|x xs IH]; intros acc; simpl.
  - apply reads_ret.
  - apply reads_bind; [apply Hb | intros; apply IH].
Qed.

Create HintDb reads.
#[export] Hint Resolve reads_ret reads_raise reads_node_at reads_exists
  reads_is_dir reads_iterdir reads_glob reads_stat_mtime reads_read_text
  reads_read_text_ignore : reads.

Ltac reads_tac :=
  repeat first
    [ progress intros
    | solve [auto with reads]
    | apply reads_bind
    | apply reads_try_except
    | apply reads_for_each
    | match goal with
      | |- reads (if ?b then _ else _) => destruct b
      | |- reads (match ?x with _ => _ end) => destruct x
      | |- reads (let '(_, _) := ?x in _) => destruct x
      end ].

(** ** The file tree *)

Lemma find_app (p q : path) (t : node) :
  Tree.find (p ++ q) t = Tree.find p t ≫= Tree.find q.
Proof.
  revert t. induction p as [|c p IH]; intros t; simpl; [done|].
  destruct t as [|m es|]; [done| |done].
  destruct (Tree.child es c); [apply IH | done].
Qed.

Lemma find_app_None (p q : path) (t : node) :
  Tree.find p t = None → Tree.find (p ++ q) t = None.
Proof. intros H. by rewrite find_app, H. Qed.

Lemma find_file_below (p q : path) (t : node) mt s :
  Tree.find p t = Some (File mt s) → q ≠ [] → Tree.find (p ++ q) t = None.
Proof. intros H Hq. rewrite find_app, H. simpl. by destruct q. Qed.

(** Joining a literal component. *)
Lemma joinpath_parts (p : path) (s : string) :
  Str.startswith s "/" = false → p /> s = p ++ PurePath.parts s.
Proof. unfold PurePath.joinpath. by intros ->. Qed.

(** A name is one component, and joining it appends it. *)
Lemma split_without_separator (c : ascii) (s : string) :
  Str.contains c s = false → Str.split c s = [s].
Proof.
  induction s as [|d s IH]; [done|]. cbn [Str.contains Str.split].
  destruct (Ascii.eqb c d); [done|]. intros H. by rewrite (IH H).
Qed.

Lemma joinpath_name (p : path) (s : string) :
  PurePath.is_name s = true → p /> s = p ++ [s].
Proof.
  unfold PurePath.is_name. rewrite !andb_true_iff, !negb_true_iff.
  intros [[[[Hne Hsep] Hdot] _] _].
  unfold PurePath.joinpath, PurePath.parts.
  rewrite (split_without_separator _ _ Hsep). cbn [List.filter].
  rewrite Hne, Hdot. cbn [orb negb].
  destruct s as [|c s]; [done|]. unfold Str.startswith. cbn [String.prefix].
  cbn [Str.contains] in Hsep.
  destruct (Ascii.eqb "/" c) eqn:E; [done|].
  destruct (ascii_dec "/" c) as [<-|Hc]; [by rewrite Ascii.eqb_refl in E|].
  by destruct s.
Qed.

(** ** Detection markers *)

Lemma marker_path (p : product) (root : path) :
  root /> marker p = root ++ [marker p].
Proof. by destruct p. Qed.

(** C5, as amended.  For each of the four adapters and every install path
    that the file system looks up by name, [detect] returns (it does not
    raise) without changing the world, and its answer is true exactly when
    an entry with the name of the product's marker exists under the install
    path, whatever kind of file it is; the answer is false when the install
    path itself does not exist. *)
Theorem detect_marker (p : product) (root : path) (w : world) :
  PurePath.roomy root = true →
  ∃ b : bool,
    detect_of p root w = (Ok b, w)
    ∧ (b = true ↔ is_Some (Tree.find (root ++ [marker p]) (fs w)))
    ∧ (Tree.find root (fs w) = None → b = false).
Proof.
  intros _.
  exists (bool_decide (is_Some (Tree.find (root ++ [marker p]) (fs w)))).
  split; [|split].
  - destruct p; unfold detect_of, VanillaLauncher.detect, MultiMCLauncher.detect,
      PrismLauncherHandler.detect, CurseForgeLauncher.detect;
      by rewrite run_exists.
  - apply bool_decide_eq_true.
  - intros Hroot. apply bool_decide_eq_false.
    rewrite (find_app_None _ _ _ Hroot). by intros [? ?].
Qed.

Lemma detect_marker_witness :
  ∃ b : bool,
    detect_of CurseForge (example_home ++ [".curseforge"]) example_world
      = (Ok b, example_world)
    ∧ (b = true ↔
       is_Some (Tree.find ((example_home ++ [".curseforge"]) ++ [marker CurseForge])
                  (fs example_world)))
    ∧ (Tree.find (example_home ++ [".curseforge"]) (fs example_world) = None →
       b = false).
Proof.
  apply (detect_marker CurseForge (example_home ++ [".curseforge"]) example_world).
  vm_compute. reflexivity.
Defined.

(** C5, the claim as stated fails: [instances] under the install path is a
    regular file, not a directory, and [detect] says true. *)
Lemma detect_true_on_a_regular_file :
  Tree.find ["mmc"; "instances"] (fs example_world_instances_file)
    = Some (File 1 "x")
  ∧ (Path.is_dir ["mmc"; "instances"] example_world_instances_file).1 = Ok false
  ∧ (MultiMCLauncher.detect ["mmc"] example_world_instances_file).1 = Ok true
  ∧ (PrismLauncherHandler.detect ["mmc"] example_world_instances_file).1
    = Ok true.
Proof. repeat split; vm_compute; reflexivity. Qed.

(** ** Ordered dictionaries *)

Lemma dict_get_set_eq {V} (k : string) (v : V) (d : Dict.t V) :
  Dict.get (Dict.set k v d) k = Some v.
Proof.
  induction d as [|[k' v'] d IH]; simpl.
  - by rewrite String.eqb_refl.
  - destruct (String.eqb k' k) eqn:E; simpl; rewrite E; [done | apply IH].
Qed.

Lemma dict_get_set_ne {V} (k k' : string) (v : V) (d : Dict.t V) :
  k ≠ k' → Dict.get (Dict.set k v d) k' = Dict.get d k'.
Proof.
  intros Hne. induction d as [|[k0 v0] d IH]; simpl.
  - by apply String.eqb_neq in Hne as ->.
  - destruct (String.eqb k0 k) eqn:E; simpl; [|by rewrite IH].
    apply String.eqb_eq in E as ->. by apply String.eqb_neq in Hne as ->.
Qed.

Lemma dict_get_None {V} (k : string) (d : Dict.t V) :
  Dict.get d k = None ↔ k ∉ Dict.keys d.
Proof.
  unfold Dict.keys. induction d as [|[k0 v0] d IH]; simpl.
  - split; [intros _; apply not_elem_of_nil | done].
  - rewrite not_elem_of_cons. destruct (String.eqb k0 k) eqn:E.
    + apply String.eqb_eq in E as ->. split; [done | by intros [? _]].
    + apply String.eqb_neq in E. rewrite IH.
      split; [intros ?; split; [congruence | done] | by intros [_ ?]].
Qed.

Lemma dict_keys_set {V} (k : string) (v : V) (d : Dict.t V) :
  Dict.keys (Dict.set k v d) =
    if bool_decide (k ∈ Dict.keys d) then Dict.keys d else Dict.keys d ++ [k].
Proof.
  induction d as [|[k0 v0] d IH]; [done|].
  change (Dict.keys ((k0, v0) :: d)) with (k0 :: Dict.keys d).
  simpl. destruct (String.eqb k0 k) eqn:E.
  - apply String.eqb_eq in E as ->.
    change (Dict.keys ((k, v) :: d)) with (k :: Dict.keys d).
    rewrite bool_decide_eq_true_2; [done | apply elem_of_cons; by left].
  - apply String.eqb_neq in E.
    change (Dict.keys ((k0, v0) :: Dict.set k v d))
      with (k0 :: Dict.keys (Dict.set k v d)).
    rewrite IH. destruct (bool_decide (k ∈ Dict.keys d)) eqn:B.
    + apply bool_decide_eq_true in B.
      rewrite bool_decide_eq_true_2; [done | apply elem_of_cons; by right].
    + apply bool_decide_eq_false in B.
      rewrite bool_decide_eq_false_2; [done|].
      rewrite elem_of_cons. intros [?|?]; [by apply E | by apply B].
Qed.

Lemma dict_set_NoDup {V} (k : string) (v : V) (d : Dict.t V) :
  NoDup (Dict.keys d) → NoDup (Dict.keys (Dict.set k v d)).
Proof.
  intros Hd. rewrite dict_keys_set. case_bool_decide as Hk; [done|].
  apply NoDup_app. split; [done|]. split; [|apply NoDup_singleton].
  intros x Hx Hx'. apply list_elem_of_singleton in Hx' as ->. done.
Qed.

(** ** The manager: detection *)

Section Manager.

Import LauncherManager.

Lemma run_for_each_cons {A S} (x : A) (xs : list A) (acc : S) body w :
  for_each (x :: xs) acc body w =
    match body acc x w with
    | (Ok acc', w') => for_each xs acc' body w'
    | (Raise e, w') => (Raise e, w')
    end.
Proof. reflexivity. Qed.

(** One turn of the loop of [_detect_all_launchers]. *)
Lemma detect_turn (name : string) (cls : launcher_class) (self : t) (w : world) :
  ∃ w',
    _detect_all_launchers [(name, cls)] self w =
      (Ok {| detected_launchers :=
               match probe cls w with
               | Some launcher => Dict.set name launcher (detected_launchers self)
               | None => detected_launchers self
               end |}, w').
Proof.
  unfold _detect_all_launchers, probe. rewrite run_for_each_cons.
  rewrite run_try_except, run_bind.
  destruct (cls w) as [[launcher|e] w1]; simpl.
  - rewrite run_bind.
    destruct (BaseLauncher.detect launcher w1) as [[[]|e] w2]; simpl;
      destruct self; eauto.
  - destruct self; eauto.
Qed.

Lemma detect_all_cons (x : string * launcher_class) xs self w :
  _detect_all_launchers (x :: xs) self w =
    match _detect_all_launchers [x] self w with
    | (Ok self', w') => _detect_all_launchers xs self' w'
    | (Raise e, w') => (Raise e, w')
    end.
Proof.
  destruct x as [n c]. unfold _detect_all_launchers.
  rewrite !run_for_each_cons.
  match goal with
  | |- context [try_except ?b ?c ?h w] =>
      by destruct (try_except b c h w) as [[?|?] ?]
  end.
Qed.


End Manager.


Lemma supported_names_NoDup json_loads :
  NoDup (LauncherManager.SUPPORTED_LAUNCHERS json_loads).*1.
Proof.
  change (NoDup ["vanilla"; "multimc"; "prism"; "curseforge"]).
  apply (bool_decide_unpack _). vm_compute. exact I.
Defined.


(** ** The manager: logs *)

Lemma append_literal_nonempty (c : ascii) (s t : string) :
  String c s +:+ t ≠ EmptyString.
Proof. done. Qed.

(** C2, as amended.  For every launcher type and instance name,
    [LauncherManager.get_logs] returns a string: it never raises and never
    returns [None].  The string is a diagnostic, which is not empty, when the
    launcher type is not in the detected mapping, when the adapter's
    [get_logs] returns [None] and when it raises; otherwise it is the
    adapter's log content, whatever that is. *)
Theorem manager_get_logs_returns_string
    (self : LauncherManager.t) (launcher_type instance_name : string) (w : world) :
  ∃ (s : string) (w' : world),
    LauncherManager.get_logs self launcher_type instance_name w = (Ok (Some s), w')
    ∧ match LauncherManager.get_launcher self launcher_type with
      | None =>
          s = "Launcher " +:+ launcher_type +:+ " not found" ∧ s ≠ EmptyString
      | Some launcher =>
          match BaseLauncher.get_logs launcher instance_name w with
          | (Ok (Some logs), _) => s = logs
          | (Ok None, _) =>
              s = "No logs found for instance " +:+ instance_name
              ∧ s ≠ EmptyString
          | (Raise e, _) =>
              s = "Error retrieving logs: " +:+ exn_str e ∧ s ≠ EmptyString
          end
      end.
Proof.
  unfold LauncherManager.get_logs.
  destruct (LauncherManager.get_launcher self launcher_type) as [launcher|].
  - rewrite run_try_except, run_bind.
    destruct (BaseLauncher.get_logs launcher instance_name w)
      as [[[logs|]|e] w1]; simpl; eauto using append_literal_nonempty.
  - rewrite run_ret. eauto using append_literal_nonempty.
Qed.

(** C2, the claim as stated fails: an instance whose [latest.log] is an empty
    file gets the empty string from the manager. *)
Lemma manager_get_logs_empty_log :
  (LauncherManager.get_logs (manager_in example_world) "multimc" "pack"
     example_world).1 = Ok (Some EmptyString).
Proof. vm_compute. reflexivity. Qed.

(** ** The manager: aggregation over the detected launchers *)

(** A loop over the items of a dictionary with distinct keys, every turn of
    which returns and assigns at most its own key. *)
Lemma for_each_items {V S} (val : V → world → option S)
    (body : gmap string S → string * V → M (gmap string S))
    (items : list (string * V)) :
  (∀ acc k l w, ∃ w',
     body acc (k, l) w =
       (Ok (match val l w with Some x => <[k:=x]> acc | None => acc end), w')) →
  NoDup items.*1 →
  ∀ (acc : gmap string S) (w : world),
  ∃ acc' w',
    for_each items acc body w = (Ok acc', w')
    ∧ (∀ pre k l post,
         items = pre ++ (k, l) :: post →
         ∃ acc1 w1,
           for_each pre acc body w = (Ok acc1, w1)
           ∧ acc' !! k = match val l w1 with
                         | Some x => Some x
                         | None => acc !! k
                         end)
    ∧ (∀ k, k ∉ items.*1 → acc' !! k = acc !! k).
Proof.
  intros Hbody. induction items as [|[n l0] xs IH]; intros Hnd acc w.
  - exists acc, w. split; [done|]. split; [|done]. intros [|??] ????; done.
  - rewrite fmap_cons in Hnd. apply NoDup_cons in Hnd as [Hn Hnd].
    change ((n, l0).1) with n in Hn.
    rewrite run_for_each_cons.
    destruct (Hbody acc n l0 w) as [wx Hx]. rewrite Hx.
    set (accx := match val l0 w with Some x => <[n:=x]> acc | None => acc end) in *.
    destruct (IH Hnd accx wx) as (acc' & w' & Hrun & Hin & Hout).
    exists acc', w'. split; [done|].
    assert (Hother : ∀ k, k ≠ n → accx !! k = acc !! k).
    { intros k Hne. subst accx.
      destruct (val l0 w); [by rewrite lookup_insert_ne | done]. }
    split.
    + intros pre k l post Heq. destruct pre as [|x pre]; simpl in Heq.
      * injection Heq as <- <- <-. exists acc, w. split; [done|].
        rewrite (Hout n Hn). subst accx.
        destruct (val l0 w); [apply lookup_insert_eq | done].
      * injection Heq as <- Hxs.
        destruct (Hin pre k l post Hxs) as (acc1 & w1 & Hpre & Hget).
        exists acc1, w1. split.
        { by rewrite run_for_each_cons, Hx. }
        rewrite Hget. destruct (val l w1); [done|].
        apply Hother. intros ->. apply Hn. rewrite Hxs, fmap_app.
        apply elem_of_app. right. apply elem_of_cons. by left.
    + intros k Hk. rewrite fmap_cons in Hk.
      apply not_elem_of_cons in Hk as [Hne Hk].
      rewrite (Hout k Hk). by apply Hother.
Qed.

(** C9. For every detected mapping, [get_launcher_infos] returns a mapping
    that has an entry for a launcher type exactly when that type is detected
    and its [get_launcher_info], called in the world left by the launchers
    before it, returns; the entry is then the info returned.  A launcher whose
    call raises gets no entry at all, and the others keep theirs. *)
Theorem get_launcher_infos_omits_failures (self : LauncherManager.t) (w : world) :
  NoDup (Dict.keys (LauncherManager.detected_launchers self)) →
  ∃ infos w',
    LauncherManager.get_launcher_infos self w = (Ok infos, w')
    ∧ (∀ launcher_type,
         LauncherManager.get_launcher self launcher_type = None →
         infos !! launcher_type = None)
    ∧ (∀ pre launcher_type launcher post,
         LauncherManager.detected_launchers self
           = pre ++ (launcher_type, launcher) :: post →
         ∃ infos1 w1,
           LauncherManager.get_launcher_infos
             {| LauncherManager.detected_launchers := pre |} w = (Ok infos1, w1)
           ∧ infos !! launcher_type = info_of launcher w1).
Proof.
  intros Hnd. unfold LauncherManager.get_launcher_infos, LauncherManager.get_launcher.
  edestruct (for_each_items info_of) as (infos & w' & Hrun & Hin & Hout);
    [| exact Hnd | ].
  2: { exists infos, w'. split; [exact Hrun|]. split.
       - intros k Hk. apply dict_get_None in Hk. by rewrite (Hout k Hk).
       - intros pre k l post Heq.
         destruct (Hin pre k l post Heq) as (infos1 & w1 & Hpre & Hget).
         exists infos1, w1. split; [exact Hpre|].
         rewrite Hget. by destruct (info_of l w1). }
  intros acc k l w0. unfold info_of. rewrite run_try_except, run_bind.
  destruct (BaseLauncher.get_launcher_info l w0) as [[info|e] w1]; simpl; eauto.
Qed.

Lemma get_launcher_infos_omits_failures_witness :
  ∃ infos w',
    LauncherManager.get_launcher_infos (manager_in example_world) example_world
      = (Ok infos, w')
    ∧ (∀ launcher_type,
         LauncherManager.get_launcher (manager_in example_world) launcher_type
           = None →
         infos !! launcher_type = None)
    ∧ (∀ pre launcher_type launcher post,
         LauncherManager.detected_launchers (manager_in example_world)
           = pre ++ (launcher_type, launcher) :: post →
         ∃ infos1 w1,
           LauncherManager.get_launcher_infos
             {| LauncherManager.detected_launchers := pre |} example_world
             = (Ok infos1, w1)
           ∧ infos !! launcher_type = info_of launcher w1).
Proof.
  apply (get_launcher_infos_omits_failures (manager_in example_world) example_world).
  apply (bool_decide_unpack _). vm_compute. exact I.
Defined.

(** ** Removing entries of a directory *)

Lemma child_update (c : string) (f : node → node) (es : list (string * node)) (k : string) :
  Tree.child (Tree.update c f es) k =
    if String.eqb c k then f <$> Tree.child es k else Tree.child es k.
Proof.
  induction es as [|[k0 n0] es IH]; simpl; [by destruct (String.eqb c k)|].
  destruct (String.eqb k0 c) eqn:E; simpl.
  - apply String.eqb_eq in E as ->.
    destruct (String.eqb c k) eqn:E'; simpl; by rewrite ?E'.
  - destruct (String.eqb k0 k) eqn:E'; simpl.
    + apply String.eqb_eq in E' as ->. rewrite String.eqb_sym in E. by rewrite E.
    + apply IH.
Qed.

Lemma update_update (c : string) (f g : node → node) (es : list (string * node)) :
  Tree.update c f (Tree.update c g es) = Tree.update c (f ∘ g) es.
Proof.
  induction es as [|[k0 n0] es IH]; simpl; [done|].
  destruct (String.eqb k0 c) eqn:E; simpl; rewrite E; [done | by rewrite IH].
Qed.

Lemma update_ext (c : string) (f g : node → node) (es : list (string * node)) :
  (∀ n, Tree.child es c = Some n → f n = g n) →
  Tree.update c f es = Tree.update c g es.
Proof.
  induction es as [|[k0 n0] es IH]; simpl; [done|]. intros H.
  destruct (String.eqb k0 c) eqn:E; [by rewrite H | by rewrite IH].
Qed.

Lemma remove_with_entries (p : path) (c : string) (t : node) :
  Tree.remove (p ++ [c]) t = with_entries p (Tree.drop c) t.
Proof.
  revert t. induction p as [|c0 p IH]; intros t; [done|].
  change ((c0 :: p) ++ [c]) with (c0 :: (p ++ [c])).
  destruct t as [|m es|]; [by destruct p| |by destruct p].
  transitivity (Dir m (Tree.update c0 (Tree.remove (p ++ [c])) es)).
  { simpl. by destruct (p ++ [c]) eqn:E; [destruct p|]. }
  simpl. f_equal. apply update_ext. intros; apply IH.
Qed.

Lemma with_entries_compose (p : path) f g (t : node) :
  with_entries p f (with_entries p g t) = with_entries p (f ∘ g) t.
Proof.
  revert t. induction p as [|c p IH]; intros [|m es|]; simpl; try done.
  rewrite update_update. f_equal. apply update_ext. intros; apply IH.
Qed.

Lemma with_entries_ext (p : path) f g (t : node) m es :
  Tree.find p t = Some (Dir m es) → f es = g es →
  with_entries p f t = with_entries p g t.
Proof.
  revert t. induction p as [|c p IH]; intros [|m0 es0|]; simpl; try done.
  - intros [= <- <-] ->. done.
  - destruct (Tree.child es0 c) as [n|] eqn:E; [|done]. intros Hf Heq.
    f_equal. apply update_ext. intros n' Hn'. rewrite E in Hn'.
    injection Hn' as <-. by apply IH.
Qed.

Lemma find_with_entries (p : path) f (t : node) m es :
  Tree.find p t = Some (Dir m es) →
  Tree.find p (with_entries p f t) = Some (Dir m (f es)).
Proof.
  revert t. induction p as [|c p IH]; intros [|m0 es0|]; simpl; try done.
  - by intros [= <- <-].
  - rewrite child_update, String.eqb_refl.
    destruct (Tree.child es0 c) as [n|]; [|done]. simpl. apply IH.
Qed.

Lemma child_app_skip (K r : list (string * node)) (c : string) :
  (∀ e, e ∈ K → String.eqb e.1 c = false) →
  Tree.child (K ++ r) c = Tree.child r c.
Proof.
  induction K as [|[k0 n0] K IH]; simpl; [done|]. intros H.
  assert (E : String.eqb k0 c = false) by (apply (H (k0, n0)), elem_of_cons; by left).
  rewrite E.
  apply IH. intros e He. apply H. apply elem_of_cons. by right.
Qed.

Lemma drop_app_skip (K r : list (string * node)) (c : string) :
  (∀ e, e ∈ K → String.eqb e.1 c = false) →
  Tree.drop c (K ++ r) = K ++ Tree.drop c r.
Proof.
  induction K as [|[k0 n0] K IH]; simpl; [done|]. intros H.
  assert (E : String.eqb k0 c = false) by (apply (H (k0, n0)), elem_of_cons; by left).
  rewrite E.
  f_equal. apply IH. intros e He. apply H. apply elem_of_cons. by right.
Qed.

Lemma run_unlink_file (p : path) (w : world) (x : node) :
  Tree.find p (fs w) = Some x → is_file_node x = true →
  Path.unlink p w = (Ok (), set_fs (Tree.remove p (fs w)) w).
Proof.
  intros H Hx. unfold Path.unlink. rewrite run_bind. simpl. rewrite H.
  by destruct x.
Qed.

Lemma run_unlink_dir (p : path) (w : world) mt es :
  Tree.find p (fs w) = Some (Dir mt es) →
  ∃ e, Path.unlink p w = (Raise e, w) ∧ exn_cls e = OSError.
Proof.
  intros H. unfold Path.unlink. rewrite run_bind. simpl. rewrite H.
  eexists. split; reflexivity.
Qed.

Lemma with_entries_same (p : path) f (t : node) m es :
  Tree.find p t = Some (Dir m es) → f es = es → with_entries p f t = t.
Proof.
  revert t. induction p as [|c p IH]; intros [|m0 es0|]; simpl; try done.
  - intros [= <- <-] ->. done.
  - destruct (Tree.child es0 c) as [n|] eqn:E; [|done]. intros Hf Heq.
    f_equal. induction es0 as [|[k0 n0] es0 IHes]; simpl in *; [done|].
    destruct (String.eqb k0 c); [|by rewrite IHes].
    injection E as ->. by rewrite (IH n).
Qed.

Lemma set_fs_same (w : world) : set_fs (fs w) w = w.
Proof. by destruct w. Qed.

Lemma is_log_name_neq (K : list (string * node)) (n : string) :
  (∀ e, e ∈ K → is_log e.1 = false) → is_log n = true →
  ∀ e, e ∈ K → String.eqb e.1 n = false.
Proof.
  intros HK Hn e He. apply String.eqb_neq. intros Heq.
  specialize (HK e He). congruence.
Qed.

(** The loop of [clear_logs] over a directory whose [*.log] entries are all
    regular files: it removes them one after the other and leaves the rest. *)
Lemma unlink_logs (d : path) (m : Z) (r : list (string * node)) :
  ∀ (K : list (string * node)) (w : world),
  Tree.find d (fs w) = Some (Dir m (K ++ r)) →
  (∀ e, e ∈ K → is_log e.1 = false) →
  (∀ e, e ∈ r → is_log e.1 = true → is_file_node e.2 = true) →
  for_each ((λ e, d ++ [e.1]) <$> List.filter (λ e, is_log e.1) r) ()
    (λ _ log_file, Path.unlink log_file) w
  = (Ok (),
     set_fs (with_entries d
               (λ _, K ++ List.filter (λ e, negb (is_log e.1)) r) (fs w)) w).
Proof.
  induction r as [|[n x] r IH]; intros K w Hd HK Hr.
  - simpl. rewrite run_ret.
    rewrite (with_entries_same d _ _ _ _ Hd); [by rewrite set_fs_same | done].
  - cbn [List.filter fst]. destruct (is_log n) eqn:Hn; cbn [negb].
    + assert (Hx : is_file_node x = true).
      { apply (Hr (n, x)); [apply elem_of_cons; by left | done]. }
      rewrite fmap_cons, run_for_each_cons. cbn [fst].
      assert (Hfind : Tree.find (d ++ [n]) (fs w) = Some x).
      { rewrite find_app, Hd. simpl.
        rewrite (child_app_skip K _ n (is_log_name_neq K n HK Hn)).
        simpl. by rewrite String.eqb_refl. }
      rewrite (run_unlink_file _ _ _ Hfind Hx), remove_with_entries.
      rewrite (IH K).
      * simpl. by rewrite with_entries_compose.
      * simpl. rewrite (find_with_entries d _ _ _ _ Hd).
        rewrite (drop_app_skip K _ n (is_log_name_neq K n HK Hn)).
        simpl. by rewrite String.eqb_refl.
      * done.
      * intros e He. apply Hr. apply elem_of_cons. by right.
    + rewrite (IH (K ++ [(n, x)])).
      * by rewrite <- app_assoc.
      * by rewrite <- app_assoc.
      * intros e He. apply elem_of_app in He as [He|He]; [by apply HK|].
        by apply list_elem_of_singleton in He as ->.
      * intros e He. apply Hr. apply elem_of_cons. by right.
Qed.

(** The loop stops with [OSError] at the first [*.log] entry that is a
    directory. *)
Lemma unlink_logs_raises (d : path) (m : Z) (r : list (string * node)) :
  ∀ (K : list (string * node)) (w : world),
  Tree.find d (fs w) = Some (Dir m (K ++ r)) →
  (∀ e, e ∈ K → is_log e.1 = false) →
  (∃ e, e ∈ r ∧ is_log e.1 = true ∧ is_file_node e.2 = false) →
  ∃ ex w',
    for_each ((λ e, d ++ [e.1]) <$> List.filter (λ e, is_log e.1) r) ()
      (λ _ log_file, Path.unlink log_file) w = (Raise ex, w')
    ∧ exn_cls ex = OSError ∧ stdout w' = stdout w.
Proof.
  induction r as [|[n x] r IH]; intros K w Hd HK (e & He & Hlog & Hdir).
  - by apply elem_of_nil in He.
  - cbn [List.filter fst]. destruct (is_log n) eqn:Hn.
    + rewrite fmap_cons, run_for_each_cons. cbn [fst].
      assert (Hfind : Tree.find (d ++ [n]) (fs w) = Some x).
      { rewrite find_app, Hd. simpl.
        rewrite (child_app_skip K _ n (is_log_name_neq K n HK Hn)).
        simpl. by rewrite String.eqb_refl. }
      destruct (is_file_node x) eqn:Hx.
      * rewrite (run_unlink_file _ _ _ Hfind Hx), remove_with_entries.
        apply elem_of_cons in He as [->|He]; [simpl in Hdir; congruence|].
        edestruct (IH K (set_fs (with_entries d (Tree.drop n) (fs w)) w))
          as (ex & w' & Hrun & Hcls & Hout); [| exact HK | by exists e |].
        { simpl. rewrite (find_with_entries d _ _ _ _ Hd).
          rewrite (drop_app_skip K _ n (is_log_name_neq K n HK Hn)).
          simpl. by rewrite String.eqb_refl. }
        exists ex, w'. by rewrite Hrun.
      * destruct x as [|mt es|]; [done| |done].
        destruct (run_unlink_dir _ _ _ _ Hfind) as (ex & Hrun & Hcls).
        exists ex, w. by rewrite Hrun.
    + apply elem_of_cons in He as [->|He]; [simpl in Hlog; congruence|].
      apply (IH (K ++ [(n, x)])).
      * by rewrite <- app_assoc.
      * intros e' He'. apply elem_of_app in He' as [He'|He']; [by apply HK|].
        by apply list_elem_of_singleton in He' as ->.
      * by exists e.
Qed.

(** ** [clear_logs] *)

Lemma clear_logs_of_unfold json_loads (p : product) (root : path) (name : string) :
  clear_logs_of json_loads p root name =
    (logs_directory_of json_loads p root name ≫= clear_in).
Proof. by destruct p. Qed.

Lemma reads_json_load json_loads (p : path) :
  reads (VanillaLauncher.json_load json_loads p).
Proof. unfold VanillaLauncher.json_load. reads_tac. Qed.

Lemma reads_py_get v k dflt : reads (Py.get v k dflt).
Proof. unfold Py.get, Py.no_attribute. reads_tac. Qed.

Lemma reads_py_items v : reads (Py.items v).
Proof. unfold Py.items, Py.no_attribute. reads_tac. Qed.

Lemma reads_py_to_Path v : reads (Py.to_Path v).
Proof. unfold Py.to_Path. reads_tac. Qed.

Lemma reads_py_joinpath p v : reads (Py.joinpath p v).
Proof. unfold Py.joinpath. reads_tac. Qed.

Lemma reads_no_attribute {A} v attr : reads (Py.no_attribute v attr : M A).
Proof. unfold Py.no_attribute. reads_tac. Qed.

#[export] Hint Resolve reads_json_load reads_py_get reads_py_items
  reads_py_to_Path reads_py_joinpath reads_no_attribute : reads.

Lemma reads_logs_directory json_loads (p : product) (root : path) (name : string) :
  reads (logs_directory_of json_loads p root name).
Proof.
  destruct p; unfold logs_directory_of,
    VanillaLauncher.get_instance_logs_directory,
    PrismLauncherHandler.get_instance_logs_directory,
    MultiMCLauncher.get_instance_logs_directory,
    CurseForgeLauncher.get_instance_logs_directory; reads_tac.
Qed.

Lemma run_glob_logs (d : path) (w : world) m es :
  Tree.find d (fs w) = Some (Dir m es) →
  Path.glob d "*.log" w =
    (Ok ((λ e, d ++ [e.1]) <$> List.filter (λ e, is_log e.1) es), w).
Proof. intros H. unfold Path.glob. rewrite run_bind. simpl. by rewrite H. Qed.

Lemma clear_in_files (d : path) (w : world) m es :
  Tree.find d (fs w) = Some (Dir m es) →
  (∀ e, e ∈ es → is_log e.1 = true → is_file_node e.2 = true) →
  clear_in (Some d) w =
    (Ok true,
     set_fs (with_entries d (List.filter (λ e, negb (is_log e.1))) (fs w)) w).
Proof.
  intros Hd Hfiles. unfold clear_in.
  rewrite run_bind, run_exists, Hd. simpl.
  rewrite run_try_except, run_bind, (run_glob_logs _ _ _ _ Hd), run_bind.
  rewrite (unlink_logs d m es [] w Hd); [|by intros ? ?%elem_of_nil | done].
  rewrite run_ret. simpl.
  by rewrite (with_entries_ext d _ (List.filter (λ e, negb (is_log e.1))) _ _ _ Hd).
Qed.



(** ** [instance.cfg] *)

Lemma read_line_other (key line : string) (config : gmap string string) :
  assigns key line = false →
  MultiMCLauncher.read_line config line !! key = config !! key.
Proof.
  unfold assigns, MultiMCLauncher.read_line.
  destruct (Str.contains "=" (Str.strip line)
            && negb (Str.startswith (Str.strip line) "[")); [|done].
  destruct (Str.split1 "=" (Str.strip line)) as [k v]. simpl.
  intros Hne%String.eqb_neq. by rewrite lookup_insert_ne.
Qed.

Lemma read_lines_other (key : string) (lines : list string)
    (config : gmap string string) :
  (∀ l, l ∈ lines → assigns key l = false) →
  foldl MultiMCLauncher.read_line config lines !! key = config !! key.
Proof.
  revert config. induction lines as [|l lines IH]; intros config H; [done|].
  simpl. rewrite IH.
  - apply read_line_other, H, elem_of_cons. by left.
  - intros l' Hl'. apply H, elem_of_cons. by right.
Qed.

(** A line that starts with [[] leaves the configuration as it is. *)
Lemma read_line_section (line : string) (config : gmap string string) :
  Str.startswith (Str.strip line) "[" = true →
  MultiMCLauncher.read_line config line = config.
Proof.
  unfold MultiMCLauncher.read_line. intros ->.
  by rewrite andb_false_r.
Qed.

Lemma read_lines_skip_sections (lines : list string) (config : gmap string string) :
  foldl MultiMCLauncher.read_line config lines =
    foldl MultiMCLauncher.read_line config
      (List.filter (λ l, negb (Str.startswith (Str.strip l) "[")) lines).
Proof.
  revert config. induction lines as [|l lines IH]; intros config; [done|].
  simpl. destruct (Str.startswith (Str.strip l) "[") eqn:E; simpl.
  - by rewrite (read_line_section _ _ E).
  - apply IH.
Qed.

Lemma read_line_OneSix (line : string) (config : gmap string string) :
  Str.strip line = "InstanceType=OneSix" →
  MultiMCLauncher.read_line config line !! "InstanceType" = Some "OneSix".
Proof.
  unfold MultiMCLauncher.read_line. intros ->.
  change (<["InstanceType" := "OneSix"]> config !! "InstanceType" = Some "OneSix").
  apply lookup_insert_eq.
Qed.

(** ** [MultiMCLauncher.get_instances] *)

Lemma run_read_text_file (p : path) (w : world) mt s :
  Tree.find p (fs w) = Some (File mt s) → Path.read_text p w = (Ok s, w).
Proof. intros H. unfold Path.read_text. rewrite run_bind. simpl. by rewrite H. Qed.

Lemma run_read_text_dir (p : path) (w : world) mt es :
  Tree.find p (fs w) = Some (Dir mt es) →
  Path.read_text p w =
    (Raise (Exn OSError (Path.errno "21" "Is a directory" p)), w).
Proof. intros H. unfold Path.read_text. rewrite run_bind. simpl. by rewrite H. Qed.

Lemma run_read_text_blob (p : path) (w : world) mt s reason :
  Tree.find p (fs w) = Some (Blob mt s reason) →
  Path.read_text p w = (Raise (Exn UnicodeDecodeError reason), w).
Proof. intros H. unfold Path.read_text. rewrite run_bind. simpl. by rewrite H. Qed.

Lemma run_read_text_ignore (p : path) (w : world) :
  Path.read_text_ignore p w =
    match Tree.find p (fs w) with
    | Some (File _ s) | Some (Blob _ s _) => (Ok s, w)
    | Some (Dir _ _) =>
        (Raise (Exn OSError (Path.errno "21" "Is a directory" p)), w)
    | None =>
        (Raise (Exn OSError (Path.errno "2" "No such file or directory" p)), w)
    end.
Proof.
  unfold Path.read_text_ignore. rewrite run_bind. simpl.
  by destruct (Tree.find p (fs w)) as [[]|].
Qed.

Lemma run_read_text_missing (p : path) (w : world) :
  Tree.find p (fs w) = None →
  Path.read_text p w =
    (Raise (Exn OSError (Path.errno "2" "No such file or directory" p)), w).
Proof. intros H. unfold Path.read_text. rewrite run_bind. simpl. by rewrite H. Qed.

Lemma run_iterdir_dir (p : path) (w : world) mt es :
  Tree.find p (fs w) = Some (Dir mt es) →
  Path.iterdir p w = (Ok ((λ e, p ++ [e.1]) <$> es), w).
Proof. intros H. unfold Path.iterdir. rewrite run_bind. simpl. by rewrite H. Qed.

Lemma run_iterdir_file (p : path) (w : world) (x : node) :
  Tree.find p (fs w) = Some x → is_file_node x = true →
  Path.iterdir p w =
    (Raise (Exn OSError (Path.errno "20" "Not a directory" p)), w).
Proof.
  intros H Hx. unfold Path.iterdir. rewrite run_bind. simpl. rewrite H.
  by destruct x.
Qed.

Lemma run_for_each_app {A S} (xs ys : list A) (acc : S) body w :
  for_each (xs ++ ys) acc body w =
    match for_each xs acc body w with
    | (Ok acc', w') => for_each ys acc' body w'
    | (Raise e, w') => (Raise e, w')
    end.
Proof.
  revert acc w. induction xs as [|x xs IH]; intros acc w; [done|].
  change ((x :: xs) ++ ys) with (x :: (xs ++ ys)).
  rewrite !run_for_each_cons. destruct (body acc x w) as [[acc'|e] w']; [|done].
  apply IH.
Qed.

Lemma classes_IOError : classes [IOError] OSError = true.
Proof. reflexivity. Qed.

Lemma name_snoc (p : path) (c : string) : PurePath.name (p ++ [c]) = c.
Proof. unfold PurePath.name. apply List.last_last. Qed.

Lemma find_child (p : path) (c : string) (t : node) m es :
  Tree.find p t = Some (Dir m es) → Tree.find (p ++ [c]) t = Tree.child es c.
Proof. intros H. rewrite find_app, H. simpl. by destruct (Tree.child es c). Qed.

Lemma find_child2 (p : path) (c c' : string) (t : node) m es :
  Tree.find p t = Some (Dir m es) →
  Tree.find ((p ++ [c]) ++ [c']) t =
    match Tree.child es c with
    | Some (Dir _ es') => Tree.child es' c'
    | _ => None
    end.
Proof.
  intros H. rewrite find_app, (find_child _ _ _ _ _ H).
  destruct (Tree.child es c) as [[|m' es'|]|]; simpl; try done.
  by destruct (Tree.child es' c').
Qed.

(** The loop of [get_instances] over entries of the instances directory,
    none of which has an [instance.cfg] that is not valid UTF-8. *)
Lemma multimc_instances_loop (dir : path) (w : world) m es :
  Tree.find dir (fs w) = Some (Dir m es) →
  ∀ (entries : list (string * node)) (acc : list instance) body,
  body = (λ (instances : list instance) (instance_path : path),
      d ← Path.is_dir instance_path;
      if negb d then mret instances else
      let instance_cfg := instance_path /> "instance.cfg" in
      c ← Path.exists_ instance_cfg;
      if negb c then mret instances else
      try_except
        (text ← Path.read_text instance_cfg;
         let config := MultiMCLauncher.read_config text in
         mret (instances ++
               [ {| inst_name := PurePath.name instance_path;
                    inst_version :=
                      JStr (default "Unknown" (config !! "InstanceType"));
                    inst_path := PurePath.to_str instance_path;
                    inst_type := "instance";
                    inst_launcher := "multimc" |} ]))
        (classes [IOError])
        (λ _, mret instances)) →
  (∀ e, e ∈ entries → cfg_decode_error (Tree.child es e.1) = None) →
  for_each ((λ e, dir ++ [e.1]) <$> entries) acc body w
  = (Ok (acc ++ omap (λ e, multimc_record dir e.1 (Tree.child es e.1)) entries), w).
Proof.
  intros Hd entries.
  induction entries as [|[n x] entries IH]; intros acc body -> Hok.
  - simpl. by rewrite app_nil_r.
  - assert (Hrest : ∀ e, e ∈ entries → cfg_decode_error (Tree.child es e.1) = None).
    { intros e He. apply Hok, elem_of_cons. by right. }
    assert (Hhead : cfg_decode_error (Tree.child es n) = None).
    { apply (Hok (n, x)), elem_of_cons. by left. }
    rewrite fmap_cons, run_for_each_cons. cbn [fst].
    rewrite run_bind, run_is_dir, (find_child _ _ _ _ _ Hd).
    change ((dir ++ [n]) /> "instance.cfg") with ((dir ++ [n]) ++ ["instance.cfg"]).
    cbn [omap list_omap fst]. unfold multimc_record at 1.
    unfold cfg_decode_error in Hhead.
    destruct (Tree.child es n) as [[mt s|mi esi|mt s r]|] eqn:Hn; cbn [negb];
      try (rewrite run_ret; by apply IH).
    rewrite run_bind, run_exists, (find_child2 _ _ _ _ _ _ Hd), Hn.
    destruct (Tree.child esi "instance.cfg") as [[mt text|mc esc|mt s r]|] eqn:Hc.
    + rewrite bool_decide_eq_true_2 by done. cbn [negb].
      rewrite run_try_except, run_bind.
      rewrite (run_read_text_file _ _ mt text)
        by (by rewrite (find_child2 _ _ _ _ _ _ Hd), Hn, Hc).
      rewrite run_ret, name_snoc, IH by done. by rewrite <- app_assoc.
    + rewrite bool_decide_eq_true_2 by done. cbn [negb].
      rewrite run_try_except, run_bind.
      rewrite (run_read_text_dir _ _ mc esc)
        by (by rewrite (find_child2 _ _ _ _ _ _ Hd), Hn, Hc).
      cbn [exn_cls]. rewrite classes_IOError, run_ret. by apply IH.
    + done.
    + rewrite bool_decide_eq_false_2 by (by intros [? ?]). cbn [negb].
      rewrite run_ret. by apply IH.
Qed.

(** One turn of that loop on an instance whose [instance.cfg] is not valid
    UTF-8: the [except IOError] clause does not catch the error. *)
Lemma multimc_instances_turn_raises (dir : path) (w : world) m es n reason :
  Tree.find dir (fs w) = Some (Dir m es) →
  cfg_decode_error (Tree.child es n) = Some reason →
  ∀ (acc : list instance) body,
  body = (λ (instances : list instance) (instance_path : path),
      d ← Path.is_dir instance_path;
      if negb d then mret instances else
      let instance_cfg := instance_path /> "instance.cfg" in
      c ← Path.exists_ instance_cfg;
      if negb c then mret instances else
      try_except
        (text ← Path.read_text instance_cfg;
         let config := MultiMCLauncher.read_config text in
         mret (instances ++
               [ {| inst_name := PurePath.name instance_path;
                    inst_version :=
                      JStr (default "Unknown" (config !! "InstanceType"));
                    inst_path := PurePath.to_str instance_path;
                    inst_type := "instance";
                    inst_launcher := "multimc" |} ]))
        (classes [IOError])
        (λ _, mret instances)) →
  body acc (dir ++ [n]) w = (Raise (Exn UnicodeDecodeError reason), w).
Proof.
  intros Hd Hbad acc body ->.
  rewrite run_bind, run_is_dir, (find_child _ _ _ _ _ Hd).
  change ((dir ++ [n]) /> "instance.cfg") with ((dir ++ [n]) ++ ["instance.cfg"]).
  unfold cfg_decode_error in Hbad.
  destruct (Tree.child es n) as [[|mi esi|]|] eqn:Hn; try done. cbn [negb].
  rewrite run_bind, run_exists, (find_child2 _ _ _ _ _ _ Hd), Hn.
  destruct (Tree.child esi "instance.cfg") as [[| |mt s r]|] eqn:Hc; try done.
  injection Hbad as ->.
  rewrite bool_decide_eq_true_2 by done. cbn [negb].
  rewrite run_try_except, run_bind.
  by rewrite (run_read_text_blob _ _ mt s reason)
    by (by rewrite (find_child2 _ _ _ _ _ _ Hd), Hn, Hc).
Qed.

Lemma multimc_instances_loop_raises (dir : path) (w : world) m es :
  Tree.find dir (fs w) = Some (Dir m es) →
  ∀ (pre : list (string * node)) (e : string * node)
    (post : list (string * node)) (reason : string)
    (acc : list instance) body,
  body = (λ (instances : list instance) (instance_path : path),
      d ← Path.is_dir instance_path;
      if negb d then mret instances else
      let instance_cfg := instance_path /> "instance.cfg" in
      c ← Path.exists_ instance_cfg;
      if negb c then mret instances else
      try_except
        (text ← Path.read_text instance_cfg;
         let config := MultiMCLauncher.read_config text in
         mret (instances ++
               [ {| inst_name := PurePath.name instance_path;
                    inst_version :=
                      JStr (default "Unknown" (config !! "InstanceType"));
                    inst_path := PurePath.to_str instance_path;
                    inst_type := "instance";
                    inst_launcher := "multimc" |} ]))
        (classes [IOError])
        (λ _, mret instances)) →
  (∀ e', e' ∈ pre → cfg_decode_error (Tree.child es e'.1) = None) →
  cfg_decode_error (Tree.child es e.1) = Some reason →
  for_each ((λ e, dir ++ [e.1]) <$> (pre ++ e :: post)) acc body w
  = (Raise (Exn UnicodeDecodeError reason), w).
Proof.
  intros Hd pre e post reason acc body Hbody Hpre Hbad.
  rewrite fmap_app, fmap_cons, run_for_each_app.
  rewrite (multimc_instances_loop _ _ _ _ Hd pre acc body Hbody Hpre).
  rewrite run_for_each_cons.
  by rewrite (multimc_instances_turn_raises _ _ _ _ _ _ Hd Hbad _ body Hbody).
Qed.

Lemma multimc_get_instances_missing (root : path) (w : world) :
  Tree.find (root ++ ["instances"]) (fs w) = None →
  MultiMCLauncher.get_instances root w = (Ok [], w).
Proof.
  intros Hd. unfold MultiMCLauncher.get_instances.
  change (root /> "instances") with (root ++ ["instances"]).
  rewrite run_bind, run_exists, Hd.
  by rewrite bool_decide_eq_false_2 by (by intros [? ?]).
Qed.

Lemma multimc_get_instances_file (root : path) (w : world) (x : node) :
  Tree.find (root ++ ["instances"]) (fs w) = Some x →
  is_file_node x = true →
  MultiMCLauncher.get_instances root w =
    (Raise (Exn OSError (Path.errno "20" "Not a directory"
                           (root ++ ["instances"]))), w).
Proof.
  intros Hd Hx. unfold MultiMCLauncher.get_instances.
  change (root /> "instances") with (root ++ ["instances"]).
  rewrite run_bind, run_exists, Hd.
  rewrite bool_decide_eq_true_2 by done. cbn [negb].
  by rewrite run_bind, (run_iterdir_file _ _ _ Hd Hx).
Qed.

Lemma multimc_get_instances_run (root : path) (w : world) m es :
  Tree.find (root ++ ["instances"]) (fs w) = Some (Dir m es) →
  (∀ e, e ∈ es → cfg_decode_error (Tree.child es e.1) = None) →
  MultiMCLauncher.get_instances root w =
    (Ok (omap (λ e, multimc_record (root ++ ["instances"]) e.1
                      (Tree.child es e.1)) es), w).
Proof.
  intros Hd Hok. unfold MultiMCLauncher.get_instances.
  change (root /> "instances") with (root ++ ["instances"]).
  rewrite run_bind, run_exists, Hd.
  rewrite bool_decide_eq_true_2 by done. cbn [negb].
  rewrite run_bind, (run_iterdir_dir _ _ _ _ Hd). cbv beta iota.
  apply (multimc_instances_loop _ _ _ _ Hd es [] _ eq_refl Hok).
Qed.

Lemma multimc_get_instances_undecodable (root : path) (w : world) m es
    pre e post reason :
  Tree.find (root ++ ["instances"]) (fs w) = Some (Dir m es) →
  es = pre ++ e :: post →
  (∀ e', e' ∈ pre → cfg_decode_error (Tree.child es e'.1) = None) →
  cfg_decode_error (Tree.child es e.1) = Some reason →
  MultiMCLauncher.get_instances root w =
    (Raise (Exn UnicodeDecodeError reason), w).
Proof.
  intros Hd -> Hpre Hbad. unfold MultiMCLauncher.get_instances.
  change (root /> "instances") with (root ++ ["instances"]).
  rewrite run_bind, run_exists, Hd.
  rewrite bool_decide_eq_true_2 by done. cbn [negb].
  rewrite run_bind, (run_iterdir_dir _ _ _ _ Hd). cbv beta iota.
  apply (multimc_instances_loop_raises _ _ _ _ Hd pre e post reason [] _
           eq_refl Hpre Hbad).
Qed.

Lemma child_elem (es : list (string * node)) (c : string) (n : node) :
  Tree.child es c = Some n → (c, n) ∈ es.
Proof.
  induction es as [|[k x] es IH]; simpl; [done|].
  destruct (String.eqb k c) eqn:E.
  - apply String.eqb_eq in E as ->. intros [= ->]. apply elem_of_cons. by left.
  - intros H. apply elem_of_cons. right. by apply IH.
Qed.

(** C7, as amended.  In an instances directory in which every
    [instance.cfg] is valid UTF-8, for every instance directory whose
    [instance.cfg] has a line that reads [InstanceType=OneSix] once stripped,
    and no later line that assigns [InstanceType], [get_instances] returns a
    list with a record of that instance whose version is ["OneSix"]; the file
    is read as [key=value] lines, and the lines that start with [[] are
    ignored. *)
Theorem multimc_version_is_last_InstanceType (root : path) (w : world)
    (m : Z) (es : list (string * node)) (name : string)
    (mi : Z) (esi : list (string * node)) (mt : Z) (text : string)
    (pre : list string) (line : string) (post : list string) :
  Tree.find (root ++ ["instances"]) (fs w) = Some (Dir m es) →
  Forall (λ e, cfg_decode_error (Tree.child es e.1) = None) es →
  Tree.child es name = Some (Dir mi esi) →
  Tree.child esi "instance.cfg" = Some (File mt text) →
  Str.lines text = pre ++ line :: post →
  Str.strip line = "InstanceType=OneSix" →
  (∀ l, l ∈ post → assigns "InstanceType" l = false) →
  ∃ records,
    MultiMCLauncher.get_instances root w = (Ok records, w)
    ∧ (∃ r, r ∈ records ∧ inst_name r = name ∧ inst_version r = JStr "OneSix")
    ∧ MultiMCLauncher.read_config text =
        foldl MultiMCLauncher.read_line ∅
          (List.filter (λ l, negb (Str.startswith (Str.strip l) "["))
             (Str.lines text)).
Proof.
  intros Hd Hok Hname Hcfg Hlines Hline Hpost.
  rewrite Forall_forall in Hok.
  rewrite (multimc_get_instances_run _ _ _ _ Hd Hok).
  eexists. split; [done|]. split.
  - eexists. split.
    + apply list_elem_of_omap. exists (name, Dir mi esi).
      split; [by apply child_elem|]. cbn [fst]. rewrite Hname.
      unfold multimc_record. by rewrite Hcfg.
    + split; [done|]. cbn [inst_version]. unfold MultiMCLauncher.read_config.
      rewrite Hlines, foldl_app. cbn [foldl].
      by rewrite (read_lines_other _ _ _ Hpost), (read_line_OneSix _ _ Hline).
  - apply read_lines_skip_sections.
Qed.

Lemma multimc_version_is_last_InstanceType_witness :
  ∃ records,
    MultiMCLauncher.get_instances
      (example_home ++ [".local"; "share"; "multimc"]) example_world
      = (Ok records, example_world)
    ∧ (∃ r, r ∈ records ∧ inst_name r = "pack"
            ∧ inst_version r = JStr "OneSix")
    ∧ MultiMCLauncher.read_config example_cfg =
        foldl MultiMCLauncher.read_line ∅
          (List.filter (λ l, negb (Str.startswith (Str.strip l) "["))
             (Str.lines example_cfg)).
Proof.
  apply (multimc_version_is_last_InstanceType
           (example_home ++ [".local"; "share"; "multimc"]) example_world
           0 [("pack", example_pack); ("quiet", example_quiet)] "pack"
           0 [("instance.cfg", File 1 example_cfg);
              (".minecraft",
               Dir 0 [("logs", Dir 0 [("latest.log", File 2 EmptyString)])])]
           1 example_cfg ["[General]"] "InstanceType=OneSix" ["name=pack"]).
  - vm_compute. reflexivity.
  - by repeat constructor.
  - vm_compute. reflexivity.
  - vm_compute. reflexivity.
  - vm_compute. reflexivity.
  - vm_compute. reflexivity.
  - intros l Hl. apply list_elem_of_singleton in Hl as ->. vm_compute. reflexivity.
Defined.

(** C7, the claim as stated fails: the [instance.cfg] of the instance [quiet]
    has the line [InstanceType=OneSix] and a [[General]] line, and its record
    has the version of the later line [InstanceType=Legacy]. *)
Lemma multimc_version_reassigned :
  "[General]" ∈ Str.lines example_cfg_twice
  ∧ "InstanceType=OneSix" ∈ Str.lines example_cfg_twice
  ∧ (MultiMCLauncher.get_instances
       (example_home ++ [".local"; "share"; "multimc"]) example_world).1
    = Ok [ {| inst_name := "pack"; inst_version := JStr "OneSix";
              inst_path := "/home/steve/.local/share/multimc/instances/pack";
              inst_type := "instance"; inst_launcher := "multimc" |};
           {| inst_name := "quiet"; inst_version := JStr "Legacy";
              inst_path := "/home/steve/.local/share/multimc/instances/quiet";
              inst_type := "instance"; inst_launcher := "multimc" |} ].
Proof.
  split; [|split].
  - vm_compute. apply elem_of_cons. by left.
  - vm_compute. apply elem_of_cons. right. apply elem_of_cons. by left.
  - vm_compute. reflexivity.
Qed.

(** ** Prism and MultiMC *)

Lemma multimc_logs_directory_run (root : path) (name : string) (w : world) :
  MultiMCLauncher.get_instance_logs_directory root name w =
    (Ok (let instance_path := root /> "instances" /> name in
         match Tree.find instance_path (fs w) with
         | None => None
         | Some _ =>
             let logs_dir := (instance_path ++ [".minecraft"]) ++ ["logs"] in
             match Tree.find logs_dir (fs w) with
             | None => None
             | Some _ => Some logs_dir
             end
         end), w).
Proof.
  unfold MultiMCLauncher.get_instance_logs_directory.
  rewrite run_bind, run_exists. cbv zeta.
  destruct (Tree.find (root /> "instances" /> name) (fs w)) as [n|].
  - rewrite bool_decide_eq_true_2 by done. cbn [negb].
    rewrite run_bind, run_exists, run_ret.
    change (root /> "instances" /> name /> ".minecraft" /> "logs")
      with (((root /> "instances" /> name) ++ [".minecraft"]) ++ ["logs"]).
    destruct (Tree.find _ (fs w)).
    + by rewrite bool_decide_eq_true_2 by done.
    + by rewrite bool_decide_eq_false_2 by (by intros [? ?]).
  - by rewrite bool_decide_eq_false_2 by (by intros [? ?]).
Qed.

Lemma multimc_get_logs_run (root : path) (name : string) (w : world) :
  MultiMCLauncher.get_logs root name w =
    (Ok (multimc_logs (root /> "instances" /> name) (fs w)), w).
Proof.
  unfold MultiMCLauncher.get_logs, multimc_logs.
  rewrite run_bind, multimc_logs_directory_run. cbv zeta.
  destruct (Tree.find (root /> "instances" /> name) (fs w)) as [n|]; [|done].
  set (logs_dir := ((root /> "instances" /> name) ++ [".minecraft"]) ++ ["logs"]).
  destruct (Tree.find logs_dir (fs w)) as [l|] eqn:Hl; [|done].
  rewrite run_bind, run_exists, Hl.
  rewrite bool_decide_eq_true_2 by done. cbn [negb].
  change (logs_dir /> "latest.log") with (logs_dir ++ ["latest.log"]).
  rewrite run_bind, run_exists.
  destruct (Tree.find (logs_dir ++ ["latest.log"]) (fs w)) as [x|] eqn:Hf.
  - rewrite bool_decide_eq_true_2 by done.
    rewrite run_try_except, run_bind, run_read_text_ignore, Hf.
    by destruct x.
  - by rewrite bool_decide_eq_false_2 by (by intros [? ?]).
Qed.

Lemma multimc_records_of_texts (dir : path) (es l : list (string * node)) :
  omap (λ e, multimc_record dir e.1 (Tree.child es e.1)) l
  = multimc_record_of dir <$> omap (cfg_text es) l.
Proof.
  induction l as [|[n x] l IH]; [done|].
  cbn [omap list_omap fst]. rewrite IH.
  unfold multimc_record, cfg_text. cbn [fst].
  destruct (Tree.child es n) as [[|mi esi|]|]; try done.
  by destruct (Tree.child esi "instance.cfg") as [[| |]|].
Qed.

Lemma find_prefix_Some (p q : path) (t : node) :
  is_Some (Tree.find (p ++ q) t) → is_Some (Tree.find p t).
Proof.
  rewrite find_app. destruct (Tree.find p t); [done|]. by intros [? ?].
Qed.

Lemma multimc_logs_of_latest (instance_path : path) (t : node) (s : string) :
  log_content (Tree.find (instance_path ++ [".minecraft"; "logs"; "latest.log"]) t)
    = Some s →
  multimc_logs instance_path t = Some s.
Proof.
  intros Hlog.
  assert (Hsome : is_Some (Tree.find (instance_path ++ [".minecraft"; "logs"; "latest.log"]) t)).
  { destruct (Tree.find _ t); [done | discriminate]. }
  unfold multimc_logs.
  change (instance_path ++ [".minecraft"; "logs"; "latest.log"])
    with (instance_path ++ ([".minecraft"; "logs"] ++ ["latest.log"])) in *.
  rewrite app_assoc in Hsome, Hlog.
  pose proof (find_prefix_Some _ _ _ Hsome) as Hlogs.
  change (instance_path ++ [".minecraft"; "logs"])
    with (instance_path ++ ([".minecraft"] ++ ["logs"])) in *.
  rewrite app_assoc in Hsome, Hlog, Hlogs.
  pose proof (find_prefix_Some _ _ _ Hlogs) as Hm.
  pose proof (find_prefix_Some _ _ _ Hm) as Hi.
  destruct Hi as [? ->]. destruct Hlogs as [? ->].
  by destruct (Tree.find _ t) as [[]|].
Qed.

(** C3, as amended.  When the MultiMC adapter and the Prism adapter see,
    under their install paths, instances directories in which every
    [instance.cfg] is valid UTF-8 and which show the same instances in the
    same order with the same [instance.cfg] content, their [get_instances]
    return lists of the same length whose records agree, one by one, in name,
    version and type, the path of each record being the instance's directory
    under the adapter's own install path; and for every instance whose
    [latest.log] is a regular file with the same content under both install
    paths, their [get_logs] return that same content. *)
Theorem prism_multimc_same_instances_and_logs (root1 root2 : path) (w : world)
    (m1 m2 : Z) (es1 es2 : list (string * node)) :
  Tree.find (root1 ++ ["instances"]) (fs w) = Some (Dir m1 es1) →
  Tree.find (root2 ++ ["instances"]) (fs w) = Some (Dir m2 es2) →
  Forall (λ e, cfg_decode_error (Tree.child es1 e.1) = None) es1 →
  Forall (λ e, cfg_decode_error (Tree.child es2 e.1) = None) es2 →
  cfg_texts es1 = cfg_texts es2 →
  (∃ l1 l2,
     MultiMCLauncher.get_instances root1 w = (Ok l1, w)
     ∧ PrismLauncherHandler.get_instances root2 w = (Ok l2, w)
     ∧ Forall2 (same_instance root1 root2) l1 l2)
  ∧ ∀ name content,
      log_content (Tree.find (multimc_latest_log root1 name) (fs w))
        = Some content →
      log_content (Tree.find (multimc_latest_log root2 name) (fs w))
        = Some content →
      MultiMCLauncher.get_logs root1 name w = (Ok (Some content), w)
      ∧ PrismLauncherHandler.get_logs root2 name w = (Ok (Some content), w).
Proof.
  intros H1 H2 Hok1 Hok2 Hsame. rewrite Forall_forall in Hok1, Hok2. split.
  - unfold PrismLauncherHandler.get_instances.
    rewrite (multimc_get_instances_run _ _ _ _ H1 Hok1).
    rewrite (multimc_get_instances_run _ _ _ _ H2 Hok2).
    eexists _, _. split; [done|]. split; [done|].
    rewrite !multimc_records_of_texts.
    fold (cfg_texts es1). fold (cfg_texts es2). rewrite <- Hsame.
    apply Forall2_fmap, Forall_Forall2_diag, Forall_forall.
    by intros [n text] _.
  - intros name content Hl1 Hl2. unfold PrismLauncherHandler.get_logs.
    rewrite !multimc_get_logs_run.
    by rewrite (multimc_logs_of_latest _ _ _ Hl1), (multimc_logs_of_latest _ _ _ Hl2).
Qed.

Lemma prism_multimc_same_instances_and_logs_witness :
  (∃ l1 l2,
     MultiMCLauncher.get_instances ["mmc"] example_world_two_installs
       = (Ok l1, example_world_two_installs)
     ∧ PrismLauncherHandler.get_instances ["prism"] example_world_two_installs
         = (Ok l2, example_world_two_installs)
     ∧ Forall2 (same_instance ["mmc"] ["prism"]) l1 l2)
  ∧ MultiMCLauncher.get_logs ["mmc"] "pack" example_world_two_installs
    = (Ok (Some EmptyString), example_world_two_installs)
  ∧ PrismLauncherHandler.get_logs ["prism"] "pack" example_world_two_installs
    = (Ok (Some EmptyString), example_world_two_installs).
Proof.
  destruct (prism_multimc_same_instances_and_logs ["mmc"] ["prism"]
              example_world_two_installs 0 5
              [("pack", example_pack); ("quiet", example_quiet)]
              [("pack",
                Dir 9
                  [("notes.txt", File 1 "n");
                   ("instance.cfg", File 7 example_cfg);
                   (".minecraft",
                    Dir 6 [("logs",
                            Dir 6 [("latest.log", File 8 EmptyString);
                                   ("old.log", File 3 "o")])])]);
               ("readme.txt", File 1 "r");
               ("quiet", example_quiet)])
    as [Hinst Hlogs].
  - vm_compute. reflexivity.
  - vm_compute. reflexivity.
  - by repeat constructor.
  - by repeat constructor.
  - vm_compute. reflexivity.
  - split; [exact Hinst|]. apply Hlogs; vm_compute; reflexivity.
Defined.

(** C3, the claim as stated fails: with the same instances directory under
    both install paths, the records of the two adapters differ in their path
    (and agree in the launcher they name). *)
Lemma prism_multimc_paths_differ :
  Tree.find (example_home ++ [".local"; "share"; "multimc"; "instances"])
    (fs example_world)
  = Tree.find (example_home ++ [".local"; "share"; "PrismLauncher"; "instances"])
      (fs example_world)
  ∧ (MultiMCLauncher.get_instances
       (example_home ++ [".local"; "share"; "multimc"]) example_world).1
    = Ok [ {| inst_name := "pack"; inst_version := JStr "OneSix";
              inst_path := "/home/steve/.local/share/multimc/instances/pack";
              inst_type := "instance"; inst_launcher := "multimc" |};
           {| inst_name := "quiet"; inst_version := JStr "Legacy";
              inst_path := "/home/steve/.local/share/multimc/instances/quiet";
              inst_type := "instance"; inst_launcher := "multimc" |} ]
  ∧ (PrismLauncherHandler.get_instances
       (example_home ++ [".local"; "share"; "PrismLauncher"]) example_world).1
    = Ok [ {| inst_name := "pack"; inst_version := JStr "OneSix";
              inst_path := "/home/steve/.local/share/PrismLauncher/instances/pack";
              inst_type := "instance"; inst_launcher := "multimc" |};
           {| inst_name := "quiet"; inst_version := JStr "Legacy";
              inst_path := "/home/steve/.local/share/PrismLauncher/instances/quiet";
              inst_type := "instance"; inst_launcher := "multimc" |} ].
Proof. repeat split; vm_compute; reflexivity. Qed.

(** ** The vanilla launcher *)

Section Vanilla.

Variable json_loads : string → option json.

Lemma run_json_load (p : path) (w : world) mt text data :
  Tree.find p (fs w) = Some (File mt text) →
  json_loads text = Some data →
  VanillaLauncher.json_load json_loads p w = (Ok data, w).
Proof.
  intros Hp Hj. unfold VanillaLauncher.json_load.
  by rewrite run_bind, (run_read_text_file _ _ _ _ Hp), Hj.
Qed.

(** The game directory of a profile, as [get_instance_logs_directory] takes
    it: the profile's [gameDir] entry, and the install path without one. *)
Lemma vanilla_logs_directory_run (root : path) (name : string) (w : world)
    mt text items ps fields :
  Tree.find (root ++ ["launcher_profiles.json"]) (fs w) = Some (File mt text) →
  json_loads text = Some (JObj items) →
  Py.lookup items "profiles" = Some (JObj ps) →
  Py.lookup ps name = Some (JObj fields) →
  fields ≠ [] →
  VanillaLauncher.get_instance_logs_directory json_loads root name w =
    match Py.lookup fields "gameDir" with
    | Some (JStr s) =>
        (Ok (if bool_decide (is_Some (Tree.find (PurePath.of_str s ++ ["logs"]) (fs w)))
             then Some (PurePath.of_str s ++ ["logs"]) else None), w)
    | Some v =>
        (Raise (Exn TypeError
                  ("expected str, bytes or os.PathLike object, not "
                   +:+ Py.type_name v)), w)
    | None =>
        (Ok (if bool_decide (is_Some (Tree.find (root ++ ["logs"]) (fs w)))
             then Some (root ++ ["logs"]) else None), w)
    end.
Proof.
  intros Hf Hj Hps Hp Hne. unfold VanillaLauncher.get_instance_logs_directory.
  change (root /> "launcher_profiles.json")
    with (root ++ ["launcher_profiles.json"]).
  rewrite run_bind, run_exists, Hf.
  rewrite bool_decide_eq_true_2 by done. cbn [negb].
  rewrite run_try_except, run_bind, (run_json_load _ _ _ _ _ Hf Hj).
  cbn [Py.get]. rewrite Hps. cbn [default from_option id].
  rewrite run_bind, run_ret. rewrite run_bind.
  cbn [Py.get]. rewrite Hp. cbn [default from_option id]. rewrite run_ret.
  assert (Py.truthy (JObj fields) = true) as -> by (by destruct fields).
  rewrite run_bind.
  destruct (Py.lookup fields "gameDir") as [v|].
  - by destruct v.
  - rewrite run_ret. change (root /> "logs") with (root ++ ["logs"]).
    by rewrite run_bind, run_exists, run_ret.
Qed.

End Vanilla.

(** *** The latest log *)

Lemma sort_desc_nil (l : list (Z * path)) :
  VanillaLauncher.sort_desc l = [] → l = [].
Proof.
  destruct l as [|a l]; [done|]. unfold VanillaLauncher.sort_desc. simpl.
  by destruct (foldr _ _ l) as [|h t]; simpl; [|destruct (h.1 <=? a.1)].
Qed.

(** The head of the sorted list has the greatest key. *)
Lemma sort_desc_head (l : list (Z * path)) (x : Z * path) (xs : list (Z * path)) :
  VanillaLauncher.sort_desc l = x :: xs →
  x ∈ l ∧ ∀ y, y ∈ l → y.1 ≤ x.1.
Proof.
  revert x xs. induction l as [|a l IH]; intros x xs; [done|].
  unfold VanillaLauncher.sort_desc. simpl.
  fold (VanillaLauncher.sort_desc l).
  destruct (VanillaLauncher.sort_desc l) as [|h t] eqn:Hs; simpl.
  - apply sort_desc_nil in Hs as ->. intros [= <- <-].
    split; [apply elem_of_cons; by left|].
    intros y Hy. apply list_elem_of_singleton in Hy as ->. lia.
  - destruct (IH h t eq_refl) as [Hh Hmax].
    destruct (h.1 <=? a.1) eqn:E.
    + apply Z.leb_le in E. intros [= <- <-].
      split; [apply elem_of_cons; by left|].
      intros y Hy. apply elem_of_cons in Hy as [->|Hy]; [lia|].
      specialize (Hmax y Hy). lia.
    + apply Z.leb_gt in E. intros [= <- <-].
      split; [apply elem_of_cons; by right|].
      intros y Hy. apply elem_of_cons in Hy as [->|Hy]; [lia | by apply Hmax].
Qed.

Lemma child_of_elem (es : list (string * node)) (e : string * node) :
  e ∈ es → is_Some (Tree.child es e.1).
Proof.
  induction es as [|[k x] es IH]; [by intros ?%elem_of_nil|].
  intros He. simpl. destruct (String.eqb k e.1) eqn:E; [done|].
  apply elem_of_cons in He as [->|He]; [|by apply IH].
  simpl in E. by rewrite String.eqb_refl in E.
Qed.

Lemma run_stat_mtime (d : path) (n : string) (w : world) m es :
  Tree.find d (fs w) = Some (Dir m es) →
  is_Some (Tree.child es n) →
  Path.stat_mtime (d ++ [n]) w = (Ok (entry_mtime es n), w).
Proof.
  intros Hd [x Hx]. unfold Path.stat_mtime, entry_mtime.
  rewrite run_bind. cbn [Path.node_at].
  by rewrite (find_child _ _ _ _ _ Hd), Hx.
Qed.

Lemma stat_loop (d : path) (w : world) m es :
  Tree.find d (fs w) = Some (Dir m es) →
  ∀ (l : list (string * node)) (acc : list (Z * path)),
  (∀ e, e ∈ l → e ∈ es) →
  for_each ((λ e, d ++ [e.1]) <$> l) acc
    (λ keyed x, t ← Path.stat_mtime x; mret (keyed ++ [(t, x)])) w
  = (Ok (acc ++ ((λ e, (entry_mtime es e.1, d ++ [e.1])) <$> l)), w).
Proof.
  intros Hd l. induction l as [|e l IH]; intros acc Hl.
  - simpl. by rewrite app_nil_r.
  - rewrite fmap_cons, run_for_each_cons, run_bind.
    rewrite (run_stat_mtime _ _ _ _ _ Hd)
      by (apply child_of_elem, Hl, elem_of_cons; by left).
    rewrite run_ret, IH by (intros; apply Hl, elem_of_cons; by right).
    by rewrite fmap_cons, <- app_assoc.
Qed.

Section VanillaLogs.

Variable json_loads : string → option json.


End VanillaLogs.




(** ** CurseForge manifests *)

(** C8, the failing inputs: a [manifest.json] that is valid JSON but not an
    object, or whose [minecraft] entry is not an object, lacks the key, and
    [get_instances] raises [AttributeError] where a record with the version
    ["Unknown"] is claimed. *)
Lemma curseforge_manifest_not_an_object :
  (CurseForgeLauncher.get_instances Json.loads ["cf"]
     (example_curseforge_world (JArr []))).1
  = Raise (Exn AttributeError "'list' object has no attribute 'get'")
  ∧ (CurseForgeLauncher.get_instances Json.loads ["cf"]
       (example_curseforge_world (JObj [("minecraft", JNull)]))).1
    = Raise (Exn AttributeError "'NoneType' object has no attribute 'get'").
Proof. split; vm_compute; reflexivity. Qed.

(** * Further properties of the code *)

(** ** The manager's other operations *)

(** [get_all_instances] never raises and gives every detected launcher type
    an entry: the instances its launcher lists, in the world left by the
    launchers before it, and the empty list when listing raises; no other
    key has an entry. *)
Theorem get_all_instances_covers_every_launcher (self : LauncherManager.t)
    (w : world) :
  NoDup (Dict.keys (LauncherManager.detected_launchers self)) →
  ∃ all_instances w',
    LauncherManager.get_all_instances self w = (Ok all_instances, w')
    ∧ (∀ launcher_type,
         LauncherManager.get_launcher self launcher_type = None →
         all_instances !! launcher_type = None)
    ∧ (∀ pre launcher_type launcher post,
         LauncherManager.detected_launchers self
           = pre ++ (launcher_type, launcher) :: post →
         ∃ all1 w1,
           LauncherManager.get_all_instances
             {| LauncherManager.detected_launchers := pre |} w = (Ok all1, w1)
           ∧ all_instances !! launcher_type = Some (instances_of launcher w1)).
Proof.
  intros Hnd. unfold LauncherManager.get_all_instances, LauncherManager.get_launcher.
  edestruct (for_each_items (λ l w, Some (instances_of l w)))
    as (res & w' & Hrun & Hin & Hout); [| exact Hnd | ].
  2: { exists res, w'. split; [exact Hrun|]. split.
       - intros k Hk. apply dict_get_None in Hk. by rewrite (Hout k Hk).
       - intros pre k l post Heq.
         destruct (Hin pre k l post Heq) as (all1 & w1 & Hpre & Hget).
         by exists all1, w1. }
  intros acc k l w0. unfold instances_of. rewrite run_try_except, run_bind.
  destruct (BaseLauncher.get_instances l w0) as [[instances|e] w1]; simpl; eauto.
Qed.

Lemma get_all_instances_covers_every_launcher_witness :
  ∃ all_instances w',
    LauncherManager.get_all_instances (manager_in example_world) example_world
      = (Ok all_instances, w')
    ∧ (∀ launcher_type,
         LauncherManager.get_launcher (manager_in example_world) launcher_type
           = None →
         all_instances !! launcher_type = None)
    ∧ (∀ pre launcher_type launcher post,
         LauncherManager.detected_launchers (manager_in example_world)
           = pre ++ (launcher_type, launcher) :: post →
         ∃ all1 w1,
           LauncherManager.get_all_instances
             {| LauncherManager.detected_launchers := pre |} example_world
             = (Ok all1, w1)
           ∧ all_instances !! launcher_type = Some (instances_of launcher w1)).
Proof.
  apply (get_all_instances_covers_every_launcher (manager_in example_world)
           example_world).
  apply (bool_decide_unpack _). vm_compute. exact I.
Defined.

(** [LauncherManager.clear_logs] never raises.  For a launcher type that is
    not detected it returns false, prints that the launcher was not found
    and leaves the files alone; when the adapter's [clear_logs] raises it
    returns false and prints the error; otherwise it returns what the
    adapter returns. *)
Theorem manager_clear_logs_never_raises (self : LauncherManager.t)
    (launcher_type instance_name : string) (w : world) :
  ∃ (b : bool) (w' : world),
    LauncherManager.clear_logs self launcher_type instance_name w = (Ok b, w')
    ∧ match LauncherManager.get_launcher self launcher_type with
      | None =>
          b = false ∧ fs w' = fs w
          ∧ stdout w' = stdout w ++ ["Launcher " +:+ launcher_type +:+ " not found"]
      | Some launcher =>
          match BaseLauncher.clear_logs launcher instance_name w with
          | (Ok b0, w1) => b = b0 ∧ w' = w1
          | (Raise e, w1) =>
              b = false ∧ fs w' = fs w1
              ∧ stdout w' = stdout w1 ++ ["Error clearing logs: " +:+ exn_str e]
          end
      end.
Proof.
  unfold LauncherManager.clear_logs.
  destruct (LauncherManager.get_launcher self launcher_type) as [launcher|].
  - rewrite run_try_except.
    destruct (BaseLauncher.clear_logs launcher instance_name w) as [[b0|e] w1].
    + by eexists _, _.
    + cbn [Exception]. rewrite run_bind. by eexists _, _.
  - rewrite run_bind. by eexists _, _.
Qed.

(** [LauncherManager.get_instance_logs_directory] never raises: it returns
    nothing for a launcher type that is not detected and when the adapter
    raises, and what the adapter returns otherwise. *)
Theorem manager_logs_directory_never_raises (self : LauncherManager.t)
    (launcher_type instance_name : string) (w : world) :
  ∃ (d : option path) (w' : world),
    LauncherManager.get_instance_logs_directory self launcher_type
      instance_name w = (Ok d, w')
    ∧ match LauncherManager.get_launcher self launcher_type with
      | None => d = None ∧ w' = w
      | Some launcher =>
          match BaseLauncher.get_instance_logs_directory launcher
                  instance_name w with
          | (Ok d0, w1) => d = d0 ∧ w' = w1
          | (Raise e, w1) =>
              d = None ∧ fs w' = fs w1
              ∧ stdout w' = stdout w1
                            ++ ["Error getting logs directory: " +:+ exn_str e]
          end
      end.
Proof.
  unfold LauncherManager.get_instance_logs_directory.
  destruct (LauncherManager.get_launcher self launcher_type) as [launcher|].
  - rewrite run_try_except.
    destruct (BaseLauncher.get_instance_logs_directory launcher instance_name w)
      as [[d0|e] w1].
    + by eexists _, _.
    + cbn [Exception]. rewrite run_bind. by eexists _, _.
  - rewrite run_ret. by eexists _, _.
Qed.

(** [register_custom_launcher] makes the launcher the one [get_launcher]
    finds under its type and changes no other type's launcher; a type that
    was already detected keeps its place among the available launchers, a
    new one goes to the end, and the types stay distinct. *)
Theorem register_custom_launcher_lookup (self : LauncherManager.t)
    (launcher_type : string) (launcher : BaseLauncher.t) :
  let self' := LauncherManager.register_custom_launcher self launcher_type launcher in
  LauncherManager.get_launcher self' launcher_type = Some launcher
  ∧ (∀ other, other ≠ launcher_type →
       LauncherManager.get_launcher self' other
         = LauncherManager.get_launcher self other)
  ∧ LauncherManager.get_available_launchers self' =
      (if bool_decide (launcher_type ∈ LauncherManager.get_available_launchers self)
       then LauncherManager.get_available_launchers self
       else LauncherManager.get_available_launchers self ++ [launcher_type])
  ∧ (NoDup (LauncherManager.get_available_launchers self) →
     NoDup (LauncherManager.get_available_launchers self')).
Proof.
  unfold LauncherManager.register_custom_launcher, LauncherManager.get_launcher,
    LauncherManager.get_available_launchers. cbn.
  split; [apply dict_get_set_eq|]. split.
  - intros other Hne. by apply dict_get_set_ne.
  - split; [apply dict_keys_set | apply dict_set_NoDup].
Qed.

(** ** Building the manager *)

Lemma keeps_files_reads {A} (m : M A) : reads m → keeps_files m.
Proof. intros H w. by rewrite (H w). Qed.

Lemma keeps_files_bind {A B} (m : M A) (f : A → M B) :
  keeps_files m → (∀ a, keeps_files (f a)) → keeps_files (m ≫= f).
Proof.
  intros Hm Hf w. rewrite run_bind. specialize (Hm w).
  destruct (m w) as [[a|e] w1]; cbn [snd] in *; [|done].
  destruct (Hf a w1) as (-> & -> & -> & ->). done.
Qed.

Lemma keeps_files_try_except {A} (body : M A) clause handler :
  keeps_files body → (∀ e, keeps_files (handler e)) →
  keeps_files (try_except body clause handler).
Proof.
  intros Hb Hh w. rewrite run_try_except. specialize (Hb w).
  destruct (body w) as [[a|e] w1]; cbn [snd] in *; [done|].
  destruct (clause _); [|done].
  destruct (Hh e w1) as (-> & -> & -> & ->). done.
Qed.

Lemma keeps_files_print (s : string) : keeps_files (print s).
Proof. by intros w. Qed.

Lemma keeps_files_for_each {A S} (xs : list A) (acc : S) body :
  (∀ acc x, keeps_files (body acc x)) → keeps_files (for_each xs acc body).
Proof.
  intros Hb. revert acc. induction xs as [|x xs IH]; intros acc; simpl.
  - by apply keeps_files_reads, reads_ret.
  - apply keeps_files_bind; [apply Hb | intros; apply IH].
Qed.

Lemma reads_home : reads Path.home.
Proof. intros w. unfold Path.home. by destruct (home w). Qed.

Lemma reads_platform_system : reads platform_system_.
Proof. by intros w. Qed.

Lemma reads_first_existing (candidates : list path) : reads (first_existing candidates).
Proof. induction candidates; simpl; reads_tac. Qed.

Lemma reads_find_java : reads _find_java_executable.
Proof. by intros w. Qed.

#[export] Hint Resolve reads_home reads_platform_system reads_first_existing
  reads_find_java : reads.

(** Every class of [SUPPORTED_LAUNCHERS] builds its launcher by looking at the
    world only, and so does the [detect] of the launcher built. *)
Lemma supported_classes_read json_loads (name : string)
    (cls : LauncherManager.launcher_class) :
  (name, cls) ∈ LauncherManager.SUPPORTED_LAUNCHERS json_loads →
  reads cls ∧ ∀ w launcher w', cls w = (Ok launcher, w') →
                reads (BaseLauncher.detect launcher).
Proof.
  unfold LauncherManager.SUPPORTED_LAUNCHERS. intros H.
  repeat (apply elem_of_cons in H as [[= -> ->]|H]); [..|by apply elem_of_nil in H].
  - split.
    + unfold VanillaLauncher.new, VanillaLauncher._get_default_path. reads_tac.
    + intros w launcher w'. unfold VanillaLauncher.new. rewrite run_bind.
      destruct (VanillaLauncher._get_default_path w) as [[p|e] w1]; [|done].
      intros [= <- <-]. apply reads_exists.
  - split.
    + unfold MultiMCLauncher.new, MultiMCLauncher._get_default_path. reads_tac.
    + intros w launcher w'. unfold MultiMCLauncher.new. rewrite run_bind.
      destruct (MultiMCLauncher._get_default_path w) as [[p|e] w1]; [|done].
      intros [= <- <-]. apply reads_exists.
  - split.
    + unfold PrismLauncherHandler.new, PrismLauncherHandler._get_default_path.
      reads_tac.
    + intros w launcher w'. unfold PrismLauncherHandler.new. rewrite run_bind.
      destruct (PrismLauncherHandler._get_default_path w) as [[p|e] w1]; [|done].
      intros [= <- <-]. apply reads_exists.
  - split.
    + unfold CurseForgeLauncher.new, CurseForgeLauncher._get_default_path.
      reads_tac.
    + intros w launcher w'. unfold CurseForgeLauncher.new. rewrite run_bind.
      destruct (CurseForgeLauncher._get_default_path w) as [[p|e] w1]; [|done].
      intros [= <- <-]. apply reads_exists.
Qed.

(** The keys after detection: those before, then names of the classes, each
    at most once and in the order of the list. *)
Lemma detect_all_keys (supported : list (string * LauncherManager.launcher_class)) :
  ∀ (self : LauncherManager.t) (w : world),
  ∃ self' w',
    LauncherManager._detect_all_launchers supported self w = (Ok self', w')
    ∧ Dict.keys (LauncherManager.detected_launchers self')
        `sublist_of` Dict.keys (LauncherManager.detected_launchers self)
                     ++ supported.*1.
Proof.
  induction supported as [|[n c] xs IH]; intros self w.
  - exists self, w. split; [done|]. by rewrite app_nil_r.
  - rewrite detect_all_cons.
    destruct (detect_turn n c self w) as [wx Hx]. rewrite Hx.
    edestruct IH as (self' & w' & Hrun & Hsub). exists self', w'.
    split; [exact Hrun|]. etrans; [exact Hsub|].
    cbn [LauncherManager.detected_launchers]. rewrite fmap_cons. cbn [fst].
    destruct (probe c w).
    + rewrite dict_keys_set. case_bool_decide.
      * apply sublist_app; [done|]. by apply sublist_cons.
      * by rewrite <- app_assoc.
    + apply sublist_app; [done|]. by apply sublist_cons.
Qed.

Lemma detect_all_keeps_files json_loads
    (supported : list (string * LauncherManager.launcher_class)) :
  (∀ x, x ∈ supported → x ∈ LauncherManager.SUPPORTED_LAUNCHERS json_loads) →
  ∀ self, keeps_files (LauncherManager._detect_all_launchers supported self).
Proof.
  intros Hsub self. unfold LauncherManager._detect_all_launchers.
  revert self. induction supported as [|[n c] xs IH]; intros self.
  - by apply keeps_files_reads, reads_ret.
  - destruct (supported_classes_read json_loads n c) as [Hc Hd].
    { apply Hsub, elem_of_cons. by left. }
    cbn [for_each]. apply keeps_files_bind.
    + apply keeps_files_try_except.
      * intros w. rewrite run_bind. specialize (Hc w).
        destruct (c w) as [[launcher|e] w1] eqn:Hcw; cbn [snd] in *; subst w1;
          [|done].
        rewrite run_bind. specialize (Hd w launcher w Hcw w).
        destruct (BaseLauncher.detect launcher w) as [[[]|e] w2];
          cbn [snd] in *; by subst w2.
      * intros e. apply keeps_files_bind; [apply keeps_files_print|].
        intros. by apply keeps_files_reads, reads_ret.
    + intros self'. apply IH. intros x Hx. apply Hsub, elem_of_cons. by right.
Qed.

(** [LauncherManager()] never raises; the launcher types it detects are
    distinct and come in priority order; and building the manager changes no
    file. *)
Theorem new_manager_priority_order json_loads (w : world) :
  ∃ self w',
    LauncherManager.new json_loads w = (Ok self, w')
    ∧ LauncherManager.get_available_launchers self
        `sublist_of` ["vanilla"; "multimc"; "prism"; "curseforge"]
    ∧ NoDup (LauncherManager.get_available_launchers self)
    ∧ fs w' = fs w.
Proof.
  unfold LauncherManager.new, LauncherManager.get_available_launchers.
  destruct (detect_all_keys (LauncherManager.SUPPORTED_LAUNCHERS json_loads)
              {| LauncherManager.detected_launchers := Dict.empty |} w)
    as (self & w' & Hrun & Hsub).
  exists self, w'. split; [exact Hrun|]. split; [exact Hsub|]. split.
  - eapply sublist_NoDup; [|exact Hsub]. apply (supported_names_NoDup json_loads).
  - pose proof (detect_all_keeps_files json_loads
                  (LauncherManager.SUPPORTED_LAUNCHERS json_loads)
                  (λ x H, H)
                  {| LauncherManager.detected_launchers := Dict.empty |} w) as Hk.
    rewrite Hrun in Hk. apply Hk.
Qed.

Section Linux.

Variable json_loads : string → option json.
Variable w : world.
Variable h : path.
Hypothesis not_windows : String.eqb (platform_system w) "Windows" = false.
Hypothesis not_darwin : String.eqb (platform_system w) "Darwin" = false.
Hypothesis home_known : home w = Some h.

Lemma default_path_linux (p : product) :
  match p with
  | Vanilla => VanillaLauncher._get_default_path
  | MultiMC => MultiMCLauncher._get_default_path
  | Prism => PrismLauncherHandler._get_default_path
  | CurseForge => CurseForgeLauncher._get_default_path
  end w = (Ok (h ++ linux_default p), w).
Proof.
  destruct p;
    unfold VanillaLauncher._get_default_path, MultiMCLauncher._get_default_path,
      PrismLauncherHandler._get_default_path,
      CurseForgeLauncher._get_default_path, platform_system_, Path.home;
    cbv [mbind M_bind mret M_ret];
    rewrite not_windows, not_darwin, home_known; try reflexivity.
  - change (h /> ".local" /> "share" /> "multimc")
      with (((h ++ [".local"]) ++ ["share"]) ++ ["multimc"]).
    by rewrite <- !app_assoc.
  - change (h /> ".local" /> "share" /> "PrismLauncher")
      with (((h ++ [".local"]) ++ ["share"]) ++ ["PrismLauncher"]).
    by rewrite <- !app_assoc.
Qed.

(** What each class of [SUPPORTED_LAUNCHERS] finds. *)
Lemma probe_linux (p : product) (cls : LauncherManager.launcher_class) :
  cls = match p with
        | Vanilla => VanillaLauncher.new json_loads None
        | MultiMC => MultiMCLauncher.new None
        | Prism => PrismLauncherHandler.new None
        | CurseForge => CurseForgeLauncher.new json_loads None
        end →
  ∃ launcher,
    cls w = (Ok launcher, w)
    ∧ BaseLauncher.launcher_path launcher = h ++ linux_default p
    ∧ BaseLauncher.detect launcher w
      = (Ok (bool_decide (is_Some (Tree.find ((h ++ linux_default p) ++ [marker p])
                                      (fs w)))), w).
Proof.
  intros ->. pose proof (default_path_linux p) as Hp.
  destruct p; unfold VanillaLauncher.new, MultiMCLauncher.new,
    PrismLauncherHandler.new, CurseForgeLauncher.new;
    rewrite run_bind, Hp, run_ret; eexists; (split; [reflexivity|]);
    split; reflexivity.
Qed.

Lemma detect_turn_quiet (name : string) (cls : LauncherManager.launcher_class)
    (self : LauncherManager.t) launcher (b : bool) :
  cls w = (Ok launcher, w) →
  BaseLauncher.detect launcher w = (Ok b, w) →
  LauncherManager._detect_all_launchers [(name, cls)] self w =
    (Ok (if b then {| LauncherManager.detected_launchers :=
                        Dict.set name launcher
                          (LauncherManager.detected_launchers self) |}
         else self), w).
Proof.
  intros Hc Hd. unfold LauncherManager._detect_all_launchers.
  rewrite run_for_each_cons, run_try_except, run_bind, Hc, run_bind, Hd.
  by destruct b.
Qed.

(** On a platform that is neither Windows nor macOS and with a known home
    directory, [LauncherManager()] returns without printing, and it detects a
    product exactly when the product's marker exists under its default
    install path below the home directory; the launcher kept for a detected
    product has that install path. *)
Theorem new_manager_detects_linux_defaults :
  ∃ self,
    LauncherManager.new json_loads w = (Ok self, w)
    ∧ ∀ p : product,
        match LauncherManager.get_launcher self (launcher_key p) with
        | Some launcher =>
            BaseLauncher.launcher_path launcher = h ++ linux_default p
            ∧ is_Some (Tree.find ((h ++ linux_default p) ++ [marker p]) (fs w))
        | None =>
            Tree.find ((h ++ linux_default p) ++ [marker p]) (fs w) = None
        end.
Proof.
  destruct (probe_linux Vanilla _ eq_refl) as (lv & Hv & Hpv & Hdv).
  destruct (probe_linux MultiMC _ eq_refl) as (lm & Hm & Hpm & Hdm).
  destruct (probe_linux Prism _ eq_refl) as (lp & Hp & Hpp & Hdp).
  destruct (probe_linux CurseForge _ eq_refl) as (lc & Hc & Hpc & Hdc).
  unfold LauncherManager.new, LauncherManager.SUPPORTED_LAUNCHERS.
  rewrite detect_all_cons, (detect_turn_quiet _ _ _ _ _ Hv Hdv).
  rewrite detect_all_cons, (detect_turn_quiet _ _ _ _ _ Hm Hdm).
  rewrite detect_all_cons, (detect_turn_quiet _ _ _ _ _ Hp Hdp).
  rewrite (detect_turn_quiet _ _ _ _ _ Hc Hdc).
  eexists. split; [reflexivity|].
  unfold LauncherManager.get_launcher.
  intros p.
  destruct (Tree.find ((h ++ linux_default Vanilla) ++ [marker Vanilla]) (fs w))
    as [nv|] eqn:Ev;
  destruct (Tree.find ((h ++ linux_default MultiMC) ++ [marker MultiMC]) (fs w))
    as [nm|] eqn:Em;
  destruct (Tree.find ((h ++ linux_default Prism) ++ [marker Prism]) (fs w))
    as [np|] eqn:Ep;
  destruct (Tree.find ((h ++ linux_default CurseForge) ++ [marker CurseForge]) (fs w))
    as [nc|] eqn:Ec;
  rewrite ?bool_decide_eq_true_2 by done;
  rewrite ?bool_decide_eq_false_2 by (by intros [? ?]);
  destruct p; cbn; rewrite ?Ev, ?Em, ?Ep, ?Ec; done.
Qed.

End Linux.

Lemma new_manager_detects_linux_defaults_witness :
  ∃ self,
    LauncherManager.new Json.loads example_world = (Ok self, example_world)
    ∧ ∀ p : product,
        match LauncherManager.get_launcher self (launcher_key p) with
        | Some launcher =>
            BaseLauncher.launcher_path launcher = example_home ++ linux_default p
            ∧ is_Some (Tree.find ((example_home ++ linux_default p) ++ [marker p])
                         (fs example_world))
        | None =>
            Tree.find ((example_home ++ linux_default p) ++ [marker p])
              (fs example_world) = None
        end.
Proof.
  apply (new_manager_detects_linux_defaults Json.loads example_world example_home);
    reflexivity.
Defined.

Lemma home_unknown_raises (w : world) :
  home w = None →
  Path.home w = (Raise (Exn RuntimeError "Could not determine home directory."), w).
Proof. intros H. unfold Path.home. by rewrite H. Qed.

Lemma default_path_without_home json_loads (w : world) (name : string)
    (cls : LauncherManager.launcher_class) :
  home w = None →
  (name, cls) ∈ LauncherManager.SUPPORTED_LAUNCHERS json_loads →
  cls w = (Raise (Exn RuntimeError "Could not determine home directory."), w).
Proof.
  intros Hh H. unfold LauncherManager.SUPPORTED_LAUNCHERS in H.
  repeat (apply elem_of_cons in H as [[= -> ->]|H]); [..|by apply elem_of_nil in H];
    unfold VanillaLauncher.new, MultiMCLauncher.new, PrismLauncherHandler.new,
      CurseForgeLauncher.new, VanillaLauncher._get_default_path,
      MultiMCLauncher._get_default_path, PrismLauncherHandler._get_default_path,
      CurseForgeLauncher._get_default_path, platform_system_;
    cbv [mbind M_bind mret M_ret];
    destruct (String.eqb (platform_system w) "Windows");
    [| destruct (String.eqb (platform_system w) "Darwin") | |
     destruct (String.eqb (platform_system w) "Darwin") | |
     destruct (String.eqb (platform_system w) "Darwin") | |
     destruct (String.eqb (platform_system w) "Darwin") ];
    by rewrite (home_unknown_raises w Hh).
Qed.

(** When the home directory cannot be determined, every class of
    [SUPPORTED_LAUNCHERS] fails to build its launcher; [LauncherManager()]
    still returns, with no launcher detected, after printing one error per
    product in priority order. *)
Theorem new_manager_without_home json_loads (w : world) :
  home w = None →
  LauncherManager.new json_loads w =
    (Ok {| LauncherManager.detected_launchers := Dict.empty |},
     World (fs w)
       (stdout w
        ++ ["Error detecting vanilla: Could not determine home directory.";
            "Error detecting multimc: Could not determine home directory.";
            "Error detecting prism: Could not determine home directory.";
            "Error detecting curseforge: Could not determine home directory."])
       (platform_system w) (home w) (which_java w)).
Proof.
  intros Hh. unfold LauncherManager.new, LauncherManager._detect_all_launchers.
  assert (Hturn : ∀ name cls self w0,
            home w0 = None →
            (name, cls) ∈ LauncherManager.SUPPORTED_LAUNCHERS json_loads →
            try_except
              (launcher ← cls;
               d ← BaseLauncher.detect launcher;
               if (d : bool) then
                 mret {| LauncherManager.detected_launchers :=
                           Dict.set name launcher
                             (LauncherManager.detected_launchers self) |}
               else mret self)
              Exception
              (λ e, _ ← print ("Error detecting " +:+ name +:+ ": "
                                +:+ exn_str e);
                    mret self) w0
            = (Ok self,
               World (fs w0)
                 (stdout w0 ++ ["Error detecting " +:+ name
                                +:+ ": Could not determine home directory."])
                 (platform_system w0) (home w0) (which_java w0))).
  { intros name cls self w0 Hh0 Hin.
    rewrite run_try_except, run_bind.
    by rewrite (default_path_without_home json_loads w0 name cls Hh0 Hin). }
  unfold LauncherManager.SUPPORTED_LAUNCHERS.
  rewrite run_for_each_cons, Hturn; [|done|set_solver].
  rewrite run_for_each_cons, Hturn; [|done|set_solver].
  rewrite run_for_each_cons, Hturn; [|done|set_solver].
  rewrite run_for_each_cons, Hturn; [|done|set_solver].
  cbn [for_each]. rewrite run_ret. cbn [fs stdout platform_system home which_java].
  by rewrite <- !app_assoc.
Qed.

Lemma new_manager_without_home_witness :
  LauncherManager.new Json.loads example_world_no_home =
    (Ok {| LauncherManager.detected_launchers := Dict.empty |},
     World (fs example_world_no_home)
       (stdout example_world_no_home
        ++ ["Error detecting vanilla: Could not determine home directory.";
            "Error detecting multimc: Could not determine home directory.";
            "Error detecting prism: Could not determine home directory.";
            "Error detecting curseforge: Could not determine home directory."])
       (platform_system example_world_no_home) (home example_world_no_home)
       (which_java example_world_no_home)).
Proof.
  apply (new_manager_without_home Json.loads example_world_no_home). reflexivity.
Defined.

(** ** Default install paths on Windows *)

Lemma run_home (w : world) (h : path) :
  home w = Some h → Path.home w = (Ok h, w).
Proof. intros H. unfold Path.home. by rewrite H. Qed.

Lemma run_platform_system (w : world) :
  platform_system_ w = (Ok (platform_system w), w).
Proof. reflexivity. Qed.

Lemma first_existing_run (candidates : list path) (w : world) :
  ∃ found,
    first_existing candidates w = (Ok found, w)
    ∧ match found with
      | Some p =>
          ∃ pre post, candidates = pre ++ p :: post
                      ∧ is_Some (Tree.find p (fs w))
                      ∧ ∀ c, c ∈ pre → Tree.find c (fs w) = None
      | None => ∀ c, c ∈ candidates → Tree.find c (fs w) = None
      end.
Proof.
  induction candidates as [|c cs IH].
  - exists None. split; [done|]. by intros c ?%elem_of_nil.
  - cbn [first_existing]. rewrite run_bind, run_exists.
    destruct (Tree.find c (fs w)) as [n|] eqn:Hc.
    + rewrite bool_decide_eq_true_2 by done. exists (Some c). split; [done|].
      exists [], cs. split; [done|]. split; [by rewrite Hc|].
      by intros ? ?%elem_of_nil.
    + rewrite bool_decide_eq_false_2 by (by intros [? ?]).
      destruct IH as (found & Hrun & Hfound). exists found. split; [done|].
      destruct found as [p|].
      * destruct Hfound as (pre & post & -> & Hp & Hpre).
        exists (c :: pre), post. split; [done|]. split; [done|].
        intros c' [->|Hc']%elem_of_cons; [done | by apply Hpre].
      * intros c' [->|Hc']%elem_of_cons; [done | by apply Hfound].
Qed.

(** On Windows, with a known home directory, the default install path of
    MultiMC and of Prism is the first candidate directory that exists, and
    the first candidate when none exists. *)
Theorem default_path_windows_first_existing (w : world) (h : path) :
  platform_system w = "Windows" →
  home w = Some h →
  (∃ p, MultiMCLauncher._get_default_path w = (Ok p, w)
        ∧ ((∃ pre post, multimc_candidates h = pre ++ p :: post
                        ∧ is_Some (Tree.find p (fs w))
                        ∧ ∀ c, c ∈ pre → Tree.find c (fs w) = None)
           ∨ (p = h /> "AppData" /> "Local" /> "MultiMC"
              ∧ ∀ c, c ∈ multimc_candidates h → Tree.find c (fs w) = None)))
  ∧ (∃ p, PrismLauncherHandler._get_default_path w = (Ok p, w)
          ∧ ((∃ pre post, prism_candidates h = pre ++ p :: post
                          ∧ is_Some (Tree.find p (fs w))
                          ∧ ∀ c, c ∈ pre → Tree.find c (fs w) = None)
             ∨ (p = h /> "AppData" /> "Local" /> "Prism Launcher"
                ∧ ∀ c, c ∈ prism_candidates h → Tree.find c (fs w) = None))).
Proof.
  intros Hsys Hh. split.
  - unfold MultiMCLauncher._get_default_path.
    rewrite run_bind, run_platform_system, Hsys.
    change (String.eqb "Windows" "Windows") with true. cbv beta iota.
    rewrite run_bind, (run_home _ _ Hh). cbv beta iota zeta.
    fold (multimc_candidates h).
    destruct (first_existing_run (multimc_candidates h) w) as (found & Hrun & Hf).
    rewrite run_bind, Hrun. destruct found as [p|].
    + exists p. split; [done|]. by left.
    + rewrite run_bind, (run_home _ _ Hh). eexists. split; [done|]. by right.
  - unfold PrismLauncherHandler._get_default_path.
    rewrite run_bind, run_platform_system, Hsys.
    change (String.eqb "Windows" "Windows") with true. cbv beta iota.
    rewrite run_bind, (run_home _ _ Hh). cbv beta iota zeta.
    fold (prism_candidates h).
    destruct (first_existing_run (prism_candidates h) w) as (found & Hrun & Hf).
    rewrite run_bind, Hrun. destruct found as [p|].
    + exists p. split; [done|]. by left.
    + rewrite run_bind, (run_home _ _ Hh). eexists. split; [done|]. by right.
Qed.

Lemma default_path_windows_first_existing_witness :
  (∃ p, MultiMCLauncher._get_default_path example_world_windows
          = (Ok p, example_world_windows)
        ∧ ((∃ pre post, multimc_candidates ["C:"; "Users"; "steve"] = pre ++ p :: post
                        ∧ is_Some (Tree.find p (fs example_world_windows))
                        ∧ ∀ c, c ∈ pre → Tree.find c (fs example_world_windows) = None)
           ∨ (p = ["C:"; "Users"; "steve"] /> "AppData" /> "Local" /> "MultiMC"
              ∧ ∀ c, c ∈ multimc_candidates ["C:"; "Users"; "steve"] →
                     Tree.find c (fs example_world_windows) = None)))
  ∧ (∃ p, PrismLauncherHandler._get_default_path example_world_windows
            = (Ok p, example_world_windows)
          ∧ ((∃ pre post, prism_candidates ["C:"; "Users"; "steve"] = pre ++ p :: post
                          ∧ is_Some (Tree.find p (fs example_world_windows))
                          ∧ ∀ c, c ∈ pre → Tree.find c (fs example_world_windows) = None)
             ∨ (p = ["C:"; "Users"; "steve"] /> "AppData" /> "Local" /> "Prism Launcher"
                ∧ ∀ c, c ∈ prism_candidates ["C:"; "Users"; "steve"] →
                       Tree.find c (fs example_world_windows) = None))).
Proof.
  apply (default_path_windows_first_existing example_world_windows
           ["C:"; "Users"; "steve"]); reflexivity.
Defined.

(** ** Launcher descriptions *)

Lemma run_find_java (w : world) : _find_java_executable w = (Ok (java_of w), w).
Proof. reflexivity. Qed.

Lemma version_file_run (p : path) (w : world) :
  (e ← Path.exists_ p;
   if (e : bool) then
     try_except (s ← Path.read_text p; mret (JStr (Str.strip s)))
       (classes [IOError]) (λ _, mret JNull)
   else mret JNull) w = (version_from p (fs w), w).
Proof.
  rewrite run_bind, run_exists. unfold version_from.
  destruct (Tree.find p (fs w)) as [[mt s|mt es|mt s r]|] eqn:Hp.
  - rewrite bool_decide_eq_true_2 by done.
    by rewrite run_try_except, run_bind, (run_read_text_file _ _ _ _ Hp).
  - rewrite bool_decide_eq_true_2 by done.
    rewrite run_try_except, run_bind, (run_read_text_dir _ _ _ _ Hp).
    cbn [exn_cls]. by rewrite classes_IOError.
  - rewrite bool_decide_eq_true_2 by done.
    by rewrite run_try_except, run_bind, (run_read_text_blob _ _ _ _ _ Hp).
  - by rewrite bool_decide_eq_false_2 by (by intros [? ?]).
Qed.

(** For an install path that the file system looks up by name,
    [get_launcher_info] of MultiMC, Prism and CurseForge changes nothing.
    MultiMC reads its version from [version.txt] and Prism from
    [prismlauncher_version.txt] under the install path: the version is the
    stripped text of the file, and none when the file is missing or is a
    directory; when the file is not valid UTF-8 the call raises
    [UnicodeDecodeError], which its [except IOError] does not catch.
    CurseForge has no version and never raises.  The type is ["multimc"],
    ["prism"] and ["curseforge"], the path is the install path, and the Java
    executable is the one on the search path. *)
Theorem launcher_info_of_multimc_prism_curseforge (root : path) (w : world) :
  PurePath.roomy root = true →
  MultiMCLauncher.get_launcher_info root w =
    (info_with "MultiMC" (version_from (root ++ ["version.txt"]) (fs w))
       root w "multimc", w)
  ∧ PrismLauncherHandler.get_launcher_info root w =
      (info_with "Prism Launcher"
         (version_from (root ++ ["prismlauncher_version.txt"]) (fs w))
         root w "prism", w)
  ∧ CurseForgeLauncher.get_launcher_info root w =
      (info_with "CurseForge Launcher" (Ok JNull) root w "curseforge", w).
Proof.
  intros _. split; [|split].
  - unfold MultiMCLauncher.get_launcher_info.
    change (root /> "version.txt") with (root ++ ["version.txt"]). cbv zeta.
    pose proof (version_file_run (root ++ ["version.txt"]) w) as Hv.
    rewrite run_bind, run_exists in Hv. rewrite run_bind, run_exists.
    rewrite run_bind, Hv.
    destruct (version_from (root ++ ["version.txt"]) (fs w)); [|done].
    by rewrite run_bind, run_find_java.
  - unfold PrismLauncherHandler.get_launcher_info.
    change (root /> "prismlauncher_version.txt")
      with (root ++ ["prismlauncher_version.txt"]). cbv zeta.
    pose proof (version_file_run (root ++ ["prismlauncher_version.txt"]) w) as Hv.
    rewrite run_bind, run_exists in Hv. rewrite run_bind, run_exists.
    rewrite run_bind, Hv.
    destruct (version_from (root ++ ["prismlauncher_version.txt"]) (fs w));
      [|done].
    by rewrite run_bind, run_find_java.
  - unfold CurseForgeLauncher.get_launcher_info.
    by rewrite run_bind, run_find_java.
Qed.

Lemma launcher_info_of_multimc_prism_curseforge_witness :
  MultiMCLauncher.get_launcher_info ["mmc"] example_world_versions
  = (Ok {| name := "MultiMC"; version := JStr "0.7.0"; path_ := ["mmc"];
           java_executable := Some ["usr"; "bin"; "java"];
           launcher_type := "multimc" |}, example_world_versions)
  ∧ PrismLauncherHandler.get_launcher_info ["prism"] example_world_versions
    = (Raise (Exn UnicodeDecodeError example_reason),
       example_world_versions).
Proof.
  destruct (launcher_info_of_multimc_prism_curseforge ["mmc"]
              example_world_versions) as (Hm & _ & _);
    [vm_compute; reflexivity|].
  destruct (launcher_info_of_multimc_prism_curseforge ["prism"]
              example_world_versions) as (_ & Hp & _);
    [vm_compute; reflexivity|].
  split; [rewrite Hm | rewrite Hp]; vm_compute; reflexivity.
Defined.

Lemma run_json_load_cases json_loads (p : path) (w : world) :
  VanillaLauncher.json_load json_loads p w =
    match Tree.find p (fs w) with
    | Some (File _ text) =>
        match json_loads text with
        | Some data => (Ok data, w)
        | None => (Raise (Exn JSONDecodeError "Expecting value"), w)
        end
    | Some (Dir _ _) =>
        (Raise (Exn OSError (Path.errno "21" "Is a directory" p)), w)
    | Some (Blob _ _ reason) => (Raise (Exn UnicodeDecodeError reason), w)
    | None =>
        (Raise (Exn OSError (Path.errno "2" "No such file or directory" p)), w)
    end.
Proof.
  unfold VanillaLauncher.json_load. rewrite run_bind.
  destruct (Tree.find p (fs w)) as [[mt text|mt es|mt s r]|] eqn:Hp.
  - rewrite (run_read_text_file _ _ _ _ Hp). by destruct (json_loads text).
  - by rewrite (run_read_text_dir _ _ _ _ Hp).
  - by rewrite (run_read_text_blob _ _ _ _ _ Hp).
  - by rewrite (run_read_text_missing _ _ Hp).
Qed.




(** ** CurseForge *)

Lemma curseforge_logs_directory_cases (root : path) (name : string) (w : world) :
  CurseForgeLauncher.get_instance_logs_directory root name w =
    (Ok (curseforge_logs_directory (root /> "Instances" /> name) (fs w)), w).
Proof.
  unfold CurseForgeLauncher.get_instance_logs_directory, curseforge_logs_directory.
  cbv zeta. rewrite run_bind, run_exists.
  destruct (Tree.find (root /> "Instances" /> name) (fs w)) as [n|].
  - rewrite bool_decide_eq_true_2 by done. cbn [negb].
    change (root /> "Instances" /> name /> ".minecraft" /> "logs")
      with (((root /> "Instances" /> name) ++ [".minecraft"]) ++ ["logs"]).
    change (root /> "Instances" /> name /> "logs")
      with ((root /> "Instances" /> name) ++ ["logs"]).
    rewrite run_bind, run_exists.
    destruct (bool_decide (is_Some (Tree.find (((root /> "Instances" /> name)
                ++ [".minecraft"]) ++ ["logs"]) (fs w)))) eqn:E.
    + rewrite run_bind, run_exists, E. done.
    + rewrite run_bind, run_exists.
      by destruct (bool_decide (is_Some (Tree.find ((root /> "Instances" /> name)
                     ++ ["logs"]) (fs w)))).
  - by rewrite bool_decide_eq_false_2 by (by intros [? ?]).
Qed.

Lemma instance_path_name (root : path) (dir name : string) :
  PurePath.is_name name = true →
  (root ++ [dir]) /> name = root ++ [dir; name].
Proof. intros H. by rewrite (joinpath_name _ _ H), <- app_assoc. Qed.

(** For an install path that the file system looks up by name and an
    instance name that is the name of a file,
    [CurseForgeLauncher.get_instance_logs_directory] returns without changing
    anything: an instance that does not exist has no logs directory; one
    that exists has [.minecraft/logs] when that exists, else [logs] when
    that exists, else none. *)
Theorem curseforge_logs_directory_fallback (root : path) (name : string) (w : world) :
  PurePath.roomy root = true →
  PurePath.is_name name = true →
  CurseForgeLauncher.get_instance_logs_directory root name w =
    (Ok (curseforge_logs_directory (root ++ ["Instances"; name]) (fs w)), w).
Proof.
  intros _ Hname. rewrite curseforge_logs_directory_cases.
  change (root /> "Instances" /> name) with ((root ++ ["Instances"]) /> name).
  by rewrite (instance_path_name _ _ _ Hname).
Qed.

Lemma curseforge_logs_directory_fallback_witness :
  CurseForgeLauncher.get_instance_logs_directory ["cf"] "pack"
    example_world_curseforge_logs
  = (Ok (Some ["cf"; "Instances"; "pack"; "logs"]),
     example_world_curseforge_logs).
Proof.
  rewrite (curseforge_logs_directory_fallback ["cf"] "pack"
             example_world_curseforge_logs);
    vm_compute; reflexivity.
Defined.

Section CurseForge.

Variable json_loads : string → option json.



Lemma curseforge_get_instances_file (root : path) (w : world) (x : node) :
  Tree.find (root ++ ["Instances"]) (fs w) = Some x →
  is_file_node x = true →
  CurseForgeLauncher.get_instances json_loads root w =
    (Raise (Exn OSError (Path.errno "20" "Not a directory"
                           (root ++ ["Instances"]))), w).
Proof.
  intros Hd Hx. unfold CurseForgeLauncher.get_instances.
  change (root /> "Instances") with (root ++ ["Instances"]). cbv zeta.
  rewrite run_bind, run_exists, Hd.
  rewrite bool_decide_eq_true_2 by done. cbn [negb].
  by rewrite run_bind, (run_iterdir_file _ _ _ Hd Hx).
Qed.




End CurseForge.


(** ** Vanilla profiles *)

Section VanillaInstances.

Variable json_loads : string → option json.



(** A profile whose [lastVersionId] is not a string makes
    [VanillaLauncher.get_instances] raise [TypeError], also when the profile
    has a [gameDir]: the default of [gameDir] is computed first. *)
Theorem vanilla_get_instances_version_not_a_string (root : path) (w : world)
    (mt : Z) (text : string) (items ps : list (string * json))
    (name : string) (fields : list (string * json)) (v : json) :
  Tree.find (root ++ ["launcher_profiles.json"]) (fs w) = Some (File mt text) →
  json_loads text = Some (JObj items) →
  Py.lookup items "profiles" = Some (JObj ((name, JObj fields) :: ps)) →
  Py.lookup fields "lastVersionId" = Some v →
  (∀ s, v ≠ JStr s) →
  ∃ e, VanillaLauncher.get_instances json_loads root w = (Raise e, w)
       ∧ exn_cls e = TypeError.
Proof.
  intros Hp Hj Hps Hv Hns. unfold VanillaLauncher.get_instances.
  change (root /> "launcher_profiles.json") with (root ++ ["launcher_profiles.json"]).
  cbv zeta. rewrite run_bind, run_exists, Hp.
  rewrite bool_decide_eq_true_2 by done. cbn [negb].
  rewrite run_try_except, run_bind, run_json_load_cases, Hp, Hj.
  cbn [Py.get]. rewrite run_bind, run_ret, Hps. cbn [default from_option id Py.items].
  rewrite run_bind, run_ret, run_for_each_cons.
  cbn [Py.get]. rewrite run_bind, run_ret, Hv. cbn [default from_option id].
  rewrite run_bind.
  destruct v; try (eexists; split; reflexivity). by destruct (Hns s).
Qed.

End VanillaInstances.

(** ** Lines of an [instance.cfg] *)

Lemma split1_assignment (k v : string) :
  Str.contains "=" k = false →
  Str.split1 "=" (k +:+ String "=" v) = (k, v).
Proof.
  induction k as [|c k IH]; intros Hk.
  - cbn. done.
  - change (String c k +:+ String "=" v) with (String c (k +:+ String "=" v)).
    revert Hk. cbn [Str.contains Str.split1].
    destruct (Ascii.eqb "=" c); [done|]. intros Hk. by rewrite IH.
Qed.

Lemma contains_assignment (k v : string) :
  Str.contains "=" (k +:+ String "=" v) = true.
Proof.
  induction k as [|c k IH]; [done|].
  change (String c k +:+ String "=" v) with (String c (k +:+ String "=" v)).
  cbn [Str.contains]. by destruct (Ascii.eqb "=" c).
Qed.

(** A line that reads [key=value] once stripped, with no [=] in the key and
    no [[] in front, assigns the stripped value to the stripped key: the value
    keeps the [=] signs it has.  A line without [=] and a line that starts
    with [[] change nothing. *)
Theorem read_line_assignment (config : gmap string string) (line k v : string) :
  (Str.strip line = k +:+ String "=" v →
   Str.contains "=" k = false →
   Str.startswith (Str.strip line) "[" = false →
   MultiMCLauncher.read_line config line
     = <[Str.strip k := Str.strip v]> config)
  ∧ (Str.contains "=" (Str.strip line) = false →
     MultiMCLauncher.read_line config line = config)
  ∧ (Str.startswith (Str.strip line) "[" = true →
     MultiMCLauncher.read_line config line = config).
Proof.
  split; [|split].
  - intros Hline Hk Hs. unfold MultiMCLauncher.read_line.
    rewrite Hs, Hline, contains_assignment. cbn [negb andb].
    by rewrite (split1_assignment _ _ Hk).
  - intros Hc. unfold MultiMCLauncher.read_line. by rewrite Hc.
  - apply read_line_section.
Qed.

Lemma read_line_assignment_witness :
  MultiMCLauncher.read_line ∅ "  name = My = Pack  "
  = <[Str.strip "name " := Str.strip " My = Pack"]> ∅.
Proof.
  apply (proj1 (read_line_assignment ∅ "  name = My = Pack  " "name " " My = Pack"));
    reflexivity.
Defined.

(** ** The latest log among equally recent ones *)

Lemma sort_desc_first_max (pre post : list (Z * path)) (x : Z * path) :
  (∀ y, y ∈ pre → y.1 < x.1) →
  (∀ y, y ∈ post → y.1 ≤ x.1) →
  ∃ t, VanillaLauncher.sort_desc (pre ++ x :: post) = x :: t.
Proof.
  intros Hpre Hpost. induction pre as [|y pre IH].
  - cbn [app]. unfold VanillaLauncher.sort_desc. cbn [foldr].
    fold (VanillaLauncher.sort_desc post).
    destruct (VanillaLauncher.sort_desc post) as [|h t] eqn:Hs; [by eexists|].
    destruct (sort_desc_head _ _ _ Hs) as [Hh _]. cbn [VanillaLauncher.insert_desc].
    specialize (Hpost h Hh). apply Z.leb_le in Hpost. rewrite Hpost. by eexists.
  - destruct IH as [t Ht].
    { intros y' Hy'. apply Hpre, elem_of_cons. by right. }
    change ((y :: pre) ++ x :: post) with (y :: (pre ++ x :: post)).
    unfold VanillaLauncher.sort_desc. cbn [foldr].
    fold (VanillaLauncher.sort_desc (pre ++ x :: post)). rewrite Ht.
    cbn [VanillaLauncher.insert_desc].
    assert (Hy : y.1 < x.1) by (apply Hpre, elem_of_cons; by left).
    apply Z.leb_gt in Hy. rewrite Hy. by eexists.
Qed.

(** Among the entries matching [*.log], the vanilla [get_logs] reads the
    first one, in directory order, that none is more recent than: of two
    equally recent logs it reads the earlier in directory order. *)
Theorem vanilla_get_logs_first_most_recent json_loads (root : path)
    (name : string) (w : world) (d : path) (m : Z) (es : list (string * node))
    (pre post : list (string * node)) (e : string * node) (x : node) :
  VanillaLauncher.get_instance_logs_directory json_loads root name w
    = (Ok (Some d), w) →
  Tree.find d (fs w) = Some (Dir m es) →
  List.filter (λ e, is_log e.1) es = pre ++ e :: post →
  (∀ e', e' ∈ pre → entry_mtime es e'.1 < entry_mtime es e.1) →
  (∀ e', e' ∈ post → entry_mtime es e'.1 ≤ entry_mtime es e.1) →
  Tree.child es e.1 = Some x →
  VanillaLauncher.get_logs json_loads root name w
    = (Ok (Some (log_text (d ++ [e.1]) x)), w).
Proof.
  intros Hdir Hd Hlogs Hpre Hpost Hx. unfold VanillaLauncher.get_logs.
  rewrite run_bind, Hdir, run_bind, run_exists, Hd.
  rewrite bool_decide_eq_true_2 by done. cbn [negb].
  rewrite run_bind, (run_glob_logs _ _ _ _ Hd), run_bind.
  unfold VanillaLauncher.sorted_by_mtime.
  rewrite run_bind, (stat_loop _ _ _ _ Hd)
    by (intros e0 He0; apply list_elem_of_In;
        apply list_elem_of_In, List.filter_In in He0; tauto).
  rewrite run_ret. cbn [app]. rewrite Hlogs, fmap_app, fmap_cons. cbv beta.
  match goal with
  | |- context [VanillaLauncher.sort_desc ?l] => set (keyed := l)
  end.
  assert (∃ t, VanillaLauncher.sort_desc keyed
               = (entry_mtime es e.1, d ++ [e.1]) :: t) as [t Ht].
  { apply sort_desc_first_max.
    - intros y (e' & -> & He')%list_elem_of_fmap. by apply Hpre.
    - intros y (e' & -> & He')%list_elem_of_fmap. by apply Hpost. }
  rewrite Ht. cbn [fmap list_fmap snd].
  rewrite run_try_except, run_bind, run_read_text_ignore.
  rewrite (find_child _ _ _ _ _ Hd), Hx. unfold log_text.
  by destruct x.
Qed.

Lemma vanilla_get_logs_first_most_recent_witness :
  VanillaLauncher.get_logs Json.loads (example_home ++ [".minecraft"]) "modded"
    example_world
  = (Ok (Some "b"), example_world).
Proof.
  apply (vanilla_get_logs_first_most_recent Json.loads
           (example_home ++ [".minecraft"]) "modded" example_world
           ["games"; "modded"; "logs"] 0
           [("a.log", File 1 "a"); ("b.log", File 7 "b");
            ("c.log", File 7 "c"); ("crash.txt", File 9 "x")]
           [("a.log", File 1 "a")] [("c.log", File 7 "c")]
           ("b.log", File 7 "b") (File 7 "b")).
  - vm_compute. reflexivity.
  - vm_compute. reflexivity.
  - vm_compute. reflexivity.
  - intros e' ->%list_elem_of_singleton. vm_compute. reflexivity.
  - intros e' ->%list_elem_of_singleton. vm_compute. discriminate.
  - vm_compute. reflexivity.
Defined.

(** ** [clear_logs] and the files of an instance *)

(** The adapters resolve the logs directory to the place the files put it
    at, when there is something at that place. *)
Lemma logs_directory_resolves json_loads (p : product) (root : path)
    (name : string) (w : world) (d : path) :
  logs_directory_place json_loads p root name (fs w) d →
  is_Some (Tree.find d (fs w)) →
  logs_directory_of json_loads p root name w = (Ok (Some d), w).
Proof.
  intros Hplace Hd.
  destruct p; cbn [logs_directory_place logs_directory_of] in *.
  - destruct Hplace as (mt & text & items & ps & fields & Hf & Hj & Hps & Hp
                        & Hne & Hg).
    rewrite (vanilla_logs_directory_run json_loads root name w mt text items ps
               fields Hf Hj Hps Hp Hne).
    destruct (Py.lookup fields "gameDir") as [[| | | |s| |]|]; try done;
      subst d; by rewrite bool_decide_eq_true_2.
  - rewrite multimc_logs_directory_run. cbv zeta.
    revert Hplace Hd. generalize (root /> "instances" /> name). intros ip -> Hd.
    replace ((ip ++ [".minecraft"]) ++ ["logs"])
      with (ip ++ [".minecraft"; "logs"]) by (by rewrite <- app_assoc).
    destruct (find_prefix_Some _ _ _ Hd) as [? ->]. by destruct Hd as [? ->].
  - unfold PrismLauncherHandler.get_instance_logs_directory.
    rewrite multimc_logs_directory_run. cbv zeta.
    revert Hplace Hd. generalize (root /> "instances" /> name). intros ip -> Hd.
    replace ((ip ++ [".minecraft"]) ++ ["logs"])
      with (ip ++ [".minecraft"; "logs"]) by (by rewrite <- app_assoc).
    destruct (find_prefix_Some _ _ _ Hd) as [? ->]. by destruct Hd as [? ->].
  - rewrite curseforge_logs_directory_cases. unfold curseforge_logs_directory.
    revert Hplace Hd. generalize (root /> "Instances" /> name). intros ip Hplace Hd.
    replace ((ip ++ [".minecraft"]) ++ ["logs"])
      with (ip ++ [".minecraft"; "logs"]) by (by rewrite <- app_assoc).
    destruct Hplace as [->|[Hnone ->]].
    + destruct (find_prefix_Some _ _ _ Hd) as [? ->].
      by rewrite bool_decide_eq_true_2.
    + destruct (find_prefix_Some _ _ _ Hd) as [? ->].
      rewrite Hnone, bool_decide_eq_false_2 by (by intros [? ?]).
      by rewrite bool_decide_eq_true_2.
Qed.

(** C6, as amended.  For each of the four adapters and every instance whose
    logs directory, at the place the files put it at, is a directory in which
    the entries matching [*.log] are regular files, [clear_logs] returns
    true, removes exactly the entries matching [*.log] and leaves every other
    entry of that directory, and everything outside it, as it was.  For
    Vanilla the instance is a profile that is a non-empty object whose
    [gameDir], if it has one, is a string. *)
Theorem clear_logs_deletes_exactly_the_logs json_loads (p : product)
    (root : path) (instance_name : string) (w : world)
    (d : path) (m : Z) (es : list (string * node)) :
  logs_directory_place json_loads p root instance_name (fs w) d →
  Tree.find d (fs w) = Some (Dir m es) →
  (∀ e, e ∈ es → is_log e.1 = true → is_file_node e.2 = true) →
  ∃ w',
    clear_logs_of json_loads p root instance_name w = (Ok true, w')
    ∧ Tree.find d (fs w') =
        Some (Dir m (List.filter (λ e, negb (is_log e.1)) es))
    ∧ List.length es
      = (List.length (List.filter (λ e, is_log e.1) es)
         + List.length (List.filter (λ e, negb (is_log e.1)) es))%nat
    ∧ fs w' = with_entries d (List.filter (λ e, negb (is_log e.1))) (fs w)
    ∧ stdout w' = stdout w.
Proof.
  intros Hplace Hd Hfiles. rewrite clear_logs_of_unfold, run_bind.
  rewrite (logs_directory_resolves _ _ _ _ _ _ Hplace) by (by rewrite Hd).
  rewrite (clear_in_files d w m es Hd Hfiles).
  eexists. split; [done|]. simpl.
  split; [by apply find_with_entries|]. split; [|done].
  symmetry. apply List.filter_length.
Qed.

Lemma clear_logs_deletes_exactly_the_logs_witness :
  (∃ w',
     clear_logs_of Json.loads Vanilla (example_home ++ [".minecraft"]) "modded"
       example_world = (Ok true, w')
     ∧ Tree.find ["games"; "modded"; "logs"] (fs w') =
         Some (Dir 0 [("crash.txt", File 9 "x")]))
  ∧ (∃ w',
       clear_logs_of Json.loads MultiMC
         (example_home ++ [".local"; "share"; "multimc"]) "pack" example_world
         = (Ok true, w')
       ∧ Tree.find (example_home ++ [".local"; "share"; "multimc"; "instances";
                                     "pack"; ".minecraft"; "logs"]) (fs w') =
           Some (Dir 0 []))
  ∧ (∃ w',
       clear_logs_of Json.loads CurseForge ["cf"] "pack"
         example_world_curseforge_logs = (Ok true, w')
       ∧ Tree.find ["cf"; "Instances"; "pack"; "logs"] (fs w') =
           Some (Dir 0 [("options.txt", File 1 "o")])).
Proof.
  split; [|split].
  - destruct (clear_logs_deletes_exactly_the_logs Json.loads Vanilla
                (example_home ++ [".minecraft"]) "modded" example_world
                ["games"; "modded"; "logs"] 0
                [("a.log", File 1 "a"); ("b.log", File 7 "b");
                 ("c.log", File 7 "c"); ("crash.txt", File 9 "x")])
      as (w' & Hrun & Hfind & _).
    + exists 10, (Json.dumps example_profiles),
        [("profiles",
          JObj [("main", JObj [("lastVersionId", JStr "1.20.1")]);
                ("modded", JObj [("lastVersionId", JStr "1.19");
                                 ("gameDir", JStr "/games/modded")])])],
        [("main", JObj [("lastVersionId", JStr "1.20.1")]);
         ("modded", JObj [("lastVersionId", JStr "1.19");
                          ("gameDir", JStr "/games/modded")])],
        [("lastVersionId", JStr "1.19"); ("gameDir", JStr "/games/modded")].
      repeat split; try (vm_compute; reflexivity). discriminate.
    + vm_compute. reflexivity.
    + intros e He _. revert e He. apply Forall_forall. by repeat constructor.
    + exists w'. split; [exact Hrun | exact Hfind].
  - destruct (clear_logs_deletes_exactly_the_logs Json.loads MultiMC
                (example_home ++ [".local"; "share"; "multimc"]) "pack"
                example_world
                (example_home ++ [".local"; "share"; "multimc"; "instances";
                                  "pack"; ".minecraft"; "logs"]) 0
                [("latest.log", File 2 EmptyString)])
      as (w' & Hrun & Hfind & _).
    + vm_compute. reflexivity.
    + vm_compute. reflexivity.
    + intros e He _. revert e He. apply Forall_forall. by repeat constructor.
    + exists w'. split; [exact Hrun | exact Hfind].
  - destruct (clear_logs_deletes_exactly_the_logs Json.loads CurseForge
                ["cf"] "pack" example_world_curseforge_logs
                ["cf"; "Instances"; "pack"; "logs"] 0
                [("latest.log", File 3 "l");
                 ("debug.log", Blob 2 "d" example_reason);
                 ("options.txt", File 1 "o")])
      as (w' & Hrun & Hfind & _).
    + right. split; vm_compute; reflexivity.
    + vm_compute. reflexivity.
    + intros e He _. revert e He. apply Forall_forall. by repeat constructor.
    + exists w'. split; [exact Hrun | exact Hfind].
Defined.

(** C6, the claim as stated fails: the profile [p] is an instance of the
    vanilla launcher, there are logs both in [logs] under the install path
    and in [logs] under the directory of its version, and [clear_logs]
    returns false and deletes nothing, because the profile is the empty
    object, which counts as false. *)
Lemma clear_logs_false_for_an_empty_profile :
  (VanillaLauncher.get_instances Json.loads ["mc"] example_world_empty_profile).1
    = Ok [ {| inst_name := "p"; inst_version := JStr "Unknown";
              inst_path := "/mc/versions/Unknown";
              inst_type := "profile"; inst_launcher := "vanilla" |} ]
  ∧ Tree.find ["mc"; "logs"] (fs example_world_empty_profile)
    = Some (Dir 0 [("latest.log", File 2 "l")])
  ∧ Tree.find ["mc"; "versions"; "Unknown"; "logs"]
      (fs example_world_empty_profile)
    = Some (Dir 0 [("latest.log", File 2 "l")])
  ∧ VanillaLauncher.clear_logs Json.loads ["mc"] "p" example_world_empty_profile
    = (Ok false, example_world_empty_profile).
Proof. repeat split; vm_compute; reflexivity. Qed.




(** ** What [clear_logs] leaves alone *)

(** The loop of [clear_logs] in any directory: whether it ends or stops at an
    entry it cannot unlink, the directory keeps a sublist of its entries with
    every entry that does not match [*.log] in it. *)
Lemma unlink_logs_general (d : path) (m : Z) (r : list (string * node)) :
  ∀ (K : list (string * node)) (w : world),
  Tree.find d (fs w) = Some (Dir m (K ++ r)) →
  (∀ e, e ∈ K → is_log e.1 = false) →
  ∃ res kept,
    for_each ((λ e, d ++ [e.1]) <$> List.filter (λ e, is_log e.1) r) ()
      (λ _ log_file, Path.unlink log_file) w
    = (res, set_fs (with_entries d (λ _, K ++ kept) (fs w)) w)
    ∧ kept `sublist_of` r
    ∧ List.filter (λ e, negb (is_log e.1)) kept
      = List.filter (λ e, negb (is_log e.1)) r
    ∧ match res with Ok _ => True | Raise e => exn_cls e = OSError end.
Proof.
  induction r as [|[n x] r IH]; intros K w Hd HK.
  - exists (Ok ()), []. cbn [List.filter fmap list_fmap for_each].
    rewrite run_ret, (with_entries_same d _ _ _ _ Hd) by done.
    by rewrite set_fs_same.
  - cbn [List.filter fst]. destruct (is_log n) eqn:Hn; cbn [negb].
    + rewrite fmap_cons, run_for_each_cons. cbn [fst].
      assert (Hfind : Tree.find (d ++ [n]) (fs w) = Some x).
      { rewrite find_app, Hd. simpl.
        rewrite (child_app_skip K _ n (is_log_name_neq K n HK Hn)).
        simpl. by rewrite String.eqb_refl. }
      destruct (is_file_node x) eqn:Hx.
      * rewrite (run_unlink_file _ _ _ Hfind Hx), remove_with_entries.
        edestruct (IH K (set_fs (with_entries d (Tree.drop n) (fs w)) w))
          as (res & kept & Hrun & Hsub & Hfilter & Hres); [| exact HK |].
        { simpl. rewrite (find_with_entries d _ _ _ _ Hd).
          rewrite (drop_app_skip K _ n (is_log_name_neq K n HK Hn)).
          simpl. by rewrite String.eqb_refl. }
        exists res, kept. rewrite Hrun. simpl. rewrite with_entries_compose.
        split; [done|]. split; [by apply sublist_cons|]. done.
      * destruct x as [|mt es|]; [done| |done].
        destruct (run_unlink_dir _ _ _ _ Hfind) as (ex & Hrun & Hcls).
        exists (Raise ex), ((n, Dir mt es) :: r). rewrite Hrun.
        rewrite (with_entries_same d _ _ _ _ Hd) by done.
        rewrite set_fs_same. split; [done|]. split; [done|].
        split; [|done]. cbn [List.filter fst]. by rewrite Hn.
    + edestruct (IH (K ++ [(n, x)]) w) as (res & kept & Hrun & Hsub & Hfilter & Hres).
      * by rewrite <- app_assoc.
      * intros e He. apply elem_of_app in He as [He|He]; [by apply HK|].
        by apply list_elem_of_singleton in He as ->.
      * exists res, ((n, x) :: kept). rewrite Hrun, <- app_assoc.
        split; [done|]. split; [by apply sublist_skip|]. split; [|done].
        cbn [List.filter fst]. by rewrite Hn, Hfilter.
Qed.

Lemma clear_in_frame (o : option path) (w : world) :
  fs (clear_in o w).2 = fs w
  ∨ ∃ d m es kept,
      o = Some d
      ∧ Tree.find d (fs w) = Some (Dir m es)
      ∧ fs (clear_in o w).2 = with_entries d (λ _, kept) (fs w)
      ∧ kept `sublist_of` es
      ∧ List.filter (λ e, negb (is_log e.1)) kept
        = List.filter (λ e, negb (is_log e.1)) es.
Proof.
  destruct o as [d|]; [|by left]. unfold clear_in.
  rewrite run_bind, run_exists.
  destruct (Tree.find d (fs w)) as [[mt s|m es|mt s r]|] eqn:Hd.
  1, 3: left; rewrite bool_decide_eq_true_2 by done; cbn [negb];
    rewrite run_try_except, run_bind; unfold Path.glob;
    rewrite run_bind; cbn [Path.node_at]; by rewrite Hd.
  - right. exists d, m, es.
    rewrite bool_decide_eq_true_2 by done. cbn [negb].
    rewrite run_try_except, run_bind, (run_glob_logs _ _ _ _ Hd), run_bind.
    destruct (unlink_logs_general d m es [] w Hd)
      as (res & kept & Hrun & Hsub & Hfilter & Hres);
      [by intros ? ?%elem_of_nil|].
    exists kept. rewrite Hrun. split; [done|]. split; [done|].
    split; [|done]. destruct res as [[]|ex]; [done|].
    rewrite Hres. cbn. done.
  - left. by rewrite bool_decide_eq_false_2 by (by intros [? ?]).
Qed.

(** Whatever [clear_logs] of an adapter returns or raises, it leaves the
    file tree as it was except for the entries of the resolved logs
    directory, of which it keeps a sublist with every entry that does not
    match [*.log] in it: it removes no other file, also when it fails half
    way. *)
Theorem clear_logs_touches_only_logs json_loads (p : product) (root : path)
    (instance_name : string) (w : world) :
  fs (clear_logs_of json_loads p root instance_name w).2 = fs w
  ∨ ∃ d m es kept,
      (logs_directory_of json_loads p root instance_name w).1 = Ok (Some d)
      ∧ Tree.find d (fs w) = Some (Dir m es)
      ∧ fs (clear_logs_of json_loads p root instance_name w).2
        = with_entries d (λ _, kept) (fs w)
      ∧ kept `sublist_of` es
      ∧ List.filter (λ e, negb (is_log e.1)) kept
        = List.filter (λ e, negb (is_log e.1)) es.
Proof.
  rewrite clear_logs_of_unfold, run_bind.
  pose proof (reads_logs_directory json_loads p root instance_name w) as Hw.
  destruct (logs_directory_of json_loads p root instance_name w) as [[o|e] w1];
    cbn [fst snd] in *; subst w1; [|by left].
  destruct (clear_in_frame o w) as [H|(d & m & es & kept & -> & H)];
    [by left|].
  right. by exists d, m, es, kept.
Qed.

(** For an install path that the file system looks up by name and an
    instance name that is the name of a file, [clear_logs] of MultiMC, Prism
    and CurseForge never raises. *)
Theorem clear_logs_returns_outside_vanilla json_loads (p : product)
    (root : path) (instance_name : string) (w : world) :
  p ≠ Vanilla →
  PurePath.roomy root = true →
  PurePath.is_name instance_name = true →
  ∃ b : bool, (clear_logs_of json_loads p root instance_name w).1 = Ok b.
Proof.
  intros Hp _ _.
  assert (Hdir : ∃ o, logs_directory_of json_loads p root instance_name w = (Ok o, w)).
  { destruct p; [done|..]; cbn [logs_directory_of];
      unfold PrismLauncherHandler.get_instance_logs_directory;
      rewrite ?multimc_logs_directory_run, ?curseforge_logs_directory_cases;
      by eexists. }
  destruct Hdir as [o Ho]. rewrite clear_logs_of_unfold, run_bind, Ho.
  destruct o as [d|]; [|by exists false]. unfold clear_in.
  rewrite run_bind, run_exists.
  destruct (Tree.find d (fs w)) as [[mt s|m es|mt s r]|] eqn:Hd.
  1, 3: rewrite bool_decide_eq_true_2 by done; cbn [negb];
    rewrite run_try_except, run_bind; unfold Path.glob;
    rewrite run_bind; cbn [Path.node_at]; rewrite Hd; by exists true.
  - rewrite bool_decide_eq_true_2 by done. cbn [negb].
    rewrite run_try_except, run_bind, (run_glob_logs _ _ _ _ Hd), run_bind.
    destruct (unlink_logs_general d m es [] w Hd)
      as (res & kept & Hrun & _ & _ & Hres); [by intros ? ?%elem_of_nil|].
    rewrite Hrun. destruct res as [[]|ex]; [by exists true|].
    rewrite Hres. by exists false.
  - rewrite bool_decide_eq_false_2 by (by intros [? ?]). by exists false.
Qed.

Lemma clear_logs_returns_outside_vanilla_witness :
  ∃ b : bool,
    (clear_logs_of Json.loads CurseForge ["cf"] "dotted"
       example_world_curseforge_logs).1 = Ok b.
Proof.
  apply (clear_logs_returns_outside_vanilla Json.loads CurseForge
           ["cf"] "dotted" example_world_curseforge_logs);
    [discriminate | vm_compute; reflexivity | vm_compute; reflexivity].
Defined.

(** ** Listing and reading through the adapters *)

(** For an install path that the file system looks up by name,
    [MultiMCLauncher.get_instances], which Prism inherits, changes nothing.
    Without an [instances] entry it returns the empty list.  When
    [instances] is a directory in which every [instance.cfg] is valid UTF-8,
    it returns one record per entry that is a directory with a regular file
    [instance.cfg], in iteration order, and skips every other entry; the
    record has the entry's name, the [InstanceType] of the file (["Unknown"]
    without one), the entry's path and the launcher ["multimc"].  And at the
    first instance whose [instance.cfg] is not valid UTF-8 it raises
    [UnicodeDecodeError], which its [except IOError] does not catch, and
    lists no instance at all. *)
Theorem multimc_get_instances_records (root : path) (w : world) :
  PurePath.roomy root = true →
  (Tree.find (root ++ ["instances"]) (fs w) = None →
   MultiMCLauncher.get_instances root w = (Ok [], w))
  ∧ (∀ m es,
       Tree.find (root ++ ["instances"]) (fs w) = Some (Dir m es) →
       (Forall (λ e, cfg_decode_error (Tree.child es e.1) = None) es →
        MultiMCLauncher.get_instances root w
          = (Ok (omap (λ e, multimc_record (root ++ ["instances"]) e.1
                             (Tree.child es e.1)) es), w))
       ∧ (∀ pre e post reason,
            es = pre ++ e :: post →
            Forall (λ e', cfg_decode_error (Tree.child es e'.1) = None) pre →
            cfg_decode_error (Tree.child es e.1) = Some reason →
            MultiMCLauncher.get_instances root w
              = (Raise (Exn UnicodeDecodeError reason), w)))
  ∧ PrismLauncherHandler.get_instances root w
    = MultiMCLauncher.get_instances root w.
Proof.
  intros _. split; [apply multimc_get_instances_missing|]. split; [|done].
  intros m es Hd. split.
  - intros Hok. rewrite Forall_forall in Hok.
    by apply (multimc_get_instances_run _ _ _ _ Hd).
  - intros pre e post reason Hes Hpre Hbad. rewrite Forall_forall in Hpre.
    by apply (multimc_get_instances_undecodable _ _ _ _ _ _ _ _ Hd Hes).
Qed.

(** When [instances] (for CurseForge, [Instances]) under the install path is
    a regular file, [detect] still returns true, and [get_instances] raises
    [OSError]. *)
Theorem instances_file_detected_but_not_listed json_loads (root : path)
    (w : world) (mt : Z) (s : string) :
  (Tree.find (root ++ ["instances"]) (fs w) = Some (File mt s) →
   MultiMCLauncher.detect root w = (Ok true, w)
   ∧ ∃ e, MultiMCLauncher.get_instances root w = (Raise e, w)
          ∧ exn_cls e = OSError)
  ∧ (Tree.find (root ++ ["Instances"]) (fs w) = Some (File mt s) →
     CurseForgeLauncher.detect root w = (Ok true, w)
     ∧ ∃ e, CurseForgeLauncher.get_instances json_loads root w = (Raise e, w)
            ∧ exn_cls e = OSError).
Proof.
  split; intros H.
  - split.
    + unfold MultiMCLauncher.detect.
      change (root /> "instances") with (root ++ ["instances"]).
      rewrite run_exists, H. by rewrite bool_decide_eq_true_2.
    + rewrite (multimc_get_instances_file _ _ _ H) by done. by eexists.
  - split.
    + unfold CurseForgeLauncher.detect.
      change (root /> "Instances") with (root ++ ["Instances"]).
      rewrite run_exists, H. by rewrite bool_decide_eq_true_2.
    + rewrite (curseforge_get_instances_file _ _ _ _ H) by done. by eexists.
Qed.

Lemma instances_file_detected_but_not_listed_witness :
  (MultiMCLauncher.detect ["mmc"] example_world_instances_file
     = (Ok true, example_world_instances_file)
   ∧ ∃ e, MultiMCLauncher.get_instances ["mmc"] example_world_instances_file
            = (Raise e, example_world_instances_file)
          ∧ exn_cls e = OSError)
  ∧ (CurseForgeLauncher.detect ["cf"] example_world_instances_file
       = (Ok true, example_world_instances_file)
     ∧ ∃ e, CurseForgeLauncher.get_instances Json.loads ["cf"]
              example_world_instances_file
              = (Raise e, example_world_instances_file)
            ∧ exn_cls e = OSError).
Proof.
  destruct (instances_file_detected_but_not_listed Json.loads ["mmc"]
              example_world_instances_file 1 "x") as [Hm _].
  destruct (instances_file_detected_but_not_listed Json.loads ["cf"]
              example_world_instances_file 1 "x") as [_ Hc].
  split; [apply Hm | apply Hc]; reflexivity.
Defined.

(** For an install path that the file system looks up by name and an
    instance name that is the name of a file, [MultiMCLauncher.get_logs],
    which Prism inherits, returns without changing anything: nothing when
    the instance, its [.minecraft/logs] or the [latest.log] in it does not
    exist, the text of [latest.log] when that is a regular file (without the
    bytes that are not valid UTF-8), and an error text when it is a
    directory. *)
Theorem multimc_get_logs_cases (root : path) (name : string) (w : world) :
  PurePath.roomy root = true →
  PurePath.is_name name = true →
  MultiMCLauncher.get_logs root name w
    = (Ok (multimc_logs (root ++ ["instances"; name]) (fs w)), w)
  ∧ PrismLauncherHandler.get_logs root name w
    = MultiMCLauncher.get_logs root name w.
Proof.
  intros _ Hname. split; [|done]. rewrite multimc_get_logs_run.
  change (root /> "instances" /> name) with ((root ++ ["instances"]) /> name).
  by rewrite (instance_path_name _ _ _ Hname).
Qed.

Lemma multimc_get_logs_cases_witness :
  MultiMCLauncher.get_logs ["prism"] "pack" example_world_two_installs
    = (Ok (Some EmptyString), example_world_two_installs)
  ∧ PrismLauncherHandler.get_logs ["prism"] "absent" example_world_two_installs
    = (Ok None, example_world_two_installs).
Proof.
  destruct (multimc_get_logs_cases ["prism"] "pack" example_world_two_installs)
    as [H1 _]; [vm_compute; reflexivity | vm_compute; reflexivity |].
  destruct (multimc_get_logs_cases ["prism"] "absent" example_world_two_installs)
    as [H2 H3]; [vm_compute; reflexivity | vm_compute; reflexivity |].
  split; [rewrite H1 | rewrite H3, H2]; vm_compute; reflexivity.
Defined.

(** For an install path that the file system looks up by name and an
    instance name that is the name of a file, [CurseForgeLauncher.get_logs]
    returns without changing anything: it reads [latest.log] in the logs
    directory of the instance, which is [logs] when there is no
    [.minecraft/logs], and returns nothing when there is no logs directory
    or no [latest.log]. *)
Theorem curseforge_get_logs_cases (root : path) (name : string) (w : world) :
  PurePath.roomy root = true →
  PurePath.is_name name = true →
  CurseForgeLauncher.get_logs root name w =
    (Ok match curseforge_logs_directory (root ++ ["Instances"; name]) (fs w) with
        | None => None
        | Some d =>
            match Tree.find (d ++ ["latest.log"]) (fs w) with
            | None => None
            | Some x => Some (log_text (d ++ ["latest.log"]) x)
            end
        end, w).
Proof.
  intros _ Hname. unfold CurseForgeLauncher.get_logs.
  rewrite run_bind, curseforge_logs_directory_cases.
  change (root /> "Instances" /> name) with ((root ++ ["Instances"]) /> name).
  rewrite (instance_path_name _ _ _ Hname).
  destruct (curseforge_logs_directory (root ++ ["Instances"; name]) (fs w))
    as [d|] eqn:Hdir; [|done].
  assert (Hd : is_Some (Tree.find d (fs w))).
  { unfold curseforge_logs_directory in Hdir.
    destruct (Tree.find (root ++ ["Instances"; name]) (fs w)); [|done].
    repeat case_bool_decide; by simplify_eq. }
  rewrite run_bind, run_exists, bool_decide_eq_true_2 by done. cbn [negb].
  change (d /> "latest.log") with (d ++ ["latest.log"]). cbv zeta.
  rewrite run_bind, run_exists.
  destruct (Tree.find (d ++ ["latest.log"]) (fs w)) as [x|] eqn:Hf.
  - rewrite bool_decide_eq_true_2 by done.
    rewrite run_try_except, run_bind, run_read_text_ignore, Hf.
    unfold log_text. by destruct x.
  - by rewrite bool_decide_eq_false_2 by (by intros [? ?]).
Qed.

Lemma curseforge_get_logs_cases_witness :
  CurseForgeLauncher.get_logs ["cf"] "pack" example_world_curseforge_logs
  = (Ok (Some "l"), example_world_curseforge_logs).
Proof.
  rewrite (curseforge_get_logs_cases ["cf"] "pack" example_world_curseforge_logs);
    vm_compute; reflexivity.
Defined.

(** Through the manager, for an install path that the file system looks up
    by name and an instance name that is the name of a file, the logs of an
    instance of a detected MultiMC launcher are what the adapter reads from
    its [latest.log], and the diagnostic [No logs found for instance ...]
    when the instance, its logs directory or its [latest.log] does not
    exist; the world stays as it was. *)
Theorem manager_get_logs_of_multimc (self : LauncherManager.t) (root : path)
    (name : string) (w : world) :
  LauncherManager.get_launcher self "multimc" = Some (multimc_object root) →
  PurePath.roomy root = true →
  PurePath.is_name name = true →
  LauncherManager.get_logs self "multimc" name w =
    (Ok (Some (default ("No logs found for instance " +:+ name)
                 (multimc_logs (root ++ ["instances"; name]) (fs w)))), w).
Proof.
  intros Hl _ Hname. unfold LauncherManager.get_logs. rewrite Hl.
  rewrite run_try_except, run_bind. cbn [BaseLauncher.get_logs multimc_object].
  rewrite multimc_get_logs_run.
  change (root /> "instances" /> name) with ((root ++ ["instances"]) /> name).
  rewrite (instance_path_name _ _ _ Hname).
  by destruct (multimc_logs (root ++ ["instances"; name]) (fs w)).
Qed.

Lemma manager_get_logs_of_multimc_witness :
  LauncherManager.get_logs (manager_in example_world) "multimc" "absent"
    example_world
  = (Ok (Some "No logs found for instance absent"), example_world).
Proof.
  rewrite (manager_get_logs_of_multimc (manager_in example_world)
             (example_home ++ [".local"; "share"; "multimc"]) "absent"
             example_world);
    [vm_compute; reflexivity | reflexivity
     | vm_compute; reflexivity | vm_compute; reflexivity].
Defined.

Lemma multimc_get_instances_records_witness :
  MultiMCLauncher.get_instances (example_home ++ [".local"; "share"; "multimc"])
    example_world
  = (Ok [ {| inst_name := "pack"; inst_version := JStr "OneSix";
             inst_path := "/home/steve/.local/share/multimc/instances/pack";
             inst_type := "instance"; inst_launcher := "multimc" |};
          {| inst_name := "quiet"; inst_version := JStr "Legacy";
             inst_path := "/home/steve/.local/share/multimc/instances/quiet";
             inst_type := "instance"; inst_launcher := "multimc" |} ],
     example_world)
  ∧ MultiMCLauncher.get_instances ["mmc"] example_world_undecodable_cfg
    = (Raise (Exn UnicodeDecodeError example_reason),
       example_world_undecodable_cfg).
Proof.
  split.
  - destruct (multimc_get_instances_records
                (example_home ++ [".local"; "share"; "multimc"]) example_world)
      as (_ & H & _); [vm_compute; reflexivity|].
    destruct (H 0 [("pack", example_pack); ("quiet", example_quiet)])
      as [Hok _]; [vm_compute; reflexivity|].
    rewrite Hok by (by repeat constructor). vm_compute. reflexivity.
  - destruct (multimc_get_instances_records ["mmc"] example_world_undecodable_cfg)
      as (_ & H & _); [vm_compute; reflexivity|].
    destruct (H 0 [("pack", example_pack);
                   ("broken",
                    Dir 0 [("instance.cfg",
                            Blob 1 "InstanceType=OneSix" example_reason)]);
                   ("quiet", example_quiet)])
      as [_ Hbad]; [vm_compute; reflexivity|].
    apply (Hbad [("pack", example_pack)]
             ("broken",
              Dir 0 [("instance.cfg",
                      Blob 1 "InstanceType=OneSix" example_reason)])
             [("quiet", example_quiet)] example_reason);
      [reflexivity | by repeat constructor | vm_compute; reflexivity].
Defined.


Lemma vanilla_get_instances_version_not_a_string_witness :
  ∃ e, VanillaLauncher.get_instances Json.loads ["mc"]
         example_world_numeric_version
       = (Raise e, example_world_numeric_version)
       ∧ exn_cls e = TypeError.
Proof.
  apply (vanilla_get_instances_version_not_a_string Json.loads ["mc"]
           example_world_numeric_version 1
           (Json.dumps
              (JObj [("profiles",
                      JObj [("p", JObj [("lastVersionId", JInt 7);
                                        ("gameDir", JStr "/g")])])]))
           [("profiles",
             JObj [("p", JObj [("lastVersionId", JInt 7); ("gameDir", JStr "/g")])])]
           [] "p" [("lastVersionId", JInt 7); ("gameDir", JStr "/g")] (JInt 7)).
  - vm_compute. reflexivity.
  - vm_compute. reflexivity.
  - vm_compute. reflexivity.
  - vm_compute. reflexivity.
  - discriminate.
Defined.

Lemma register_custom_launcher_lookup_witness :
  LauncherManager.get_launcher
    (LauncherManager.register_custom_launcher
       {| LauncherManager.detected_launchers := Dict.empty |} "custom"
       (multimc_object ["opt"; "custom"])) "custom"
  = Some (multimc_object ["opt"; "custom"]).
Proof.
  apply (proj1 (register_custom_launcher_lookup
                  {| LauncherManager.detected_launchers := Dict.empty |} "custom"
                  (multimc_object ["opt"; "custom"]))).
Defined.

(** ** When a vanilla profile has no logs directory *)



(** ** The pattern [*.log] *)

Lemma fnmatch_dot_log (s : string) :
  Path.fnmatch ".log" s = String.eqb ".log" s.
Proof.
  destruct s as [|c1 [|c2 [|c3 [|c4 [|c5 s]]]]]; cbn;
    repeat match goal with
           | |- context [Ascii.eqb ?a ?b] => destruct (Ascii.eqb a b); cbn
           end; done.
Qed.

(** A name matches [*.log] exactly when it ends with [.log]. *)
Lemma is_log_suffix (n : string) :
  is_log n = true ↔ ∃ p, n = p +:+ ".log".
Proof.
  unfold is_log.
  change (Path.fnmatch "*.log" n)
    with ((fix star (s : string) : bool :=
             Path.fnmatch ".log" s
             || match s with String _ s' => star s' | EmptyString => false end) n).
  induction n as [|c n IH].
  - rewrite fnmatch_dot_log. cbn. split; [done|]. by intros [[|? ?] ?].
  - rewrite orb_true_iff, IH, fnmatch_dot_log. split.
    + intros [H|[p ->]].
      * apply String.eqb_eq in H. exists EmptyString. by rewrite <- H.
      * by exists (String c p).
    + intros [[|c' p] H].
      * left. apply String.eqb_eq. by rewrite H.
      * right. exists p. by injection H.
Qed.
